(** * Habitability scoring engine: a shallow embedding

    Verification development for the domain core of ExoHabitabilityLab
    ([app/domain]): the entities, the thirteen scoring factors, the scoring
    configuration and the scoring engine.

    Conventions of the embedding.
    - A Python [float] is an ideal real number ([R]); rounding and overflow
      are outside the model.  Every comparison, branch and arithmetic
      operation of the source is kept.
    - A Python exception is a value: fallible code returns an [Outcome].
      Division raises [ZeroDivisionError] on a zero divisor and [math.sqrt]
      raises [ValueError] on a negative argument, as in CPython.
    - A [dict] is an association list in insertion order, because the engine
      iterates over its registry and the order is visible in the report.
    - An f-string is kept as the list of its parts ([Text]): literal text and
      formatted values with their format specification. *)

From Stdlib Require Import Reals Lra Lia List String Ascii Bool ZArith.
Import ListNotations.

Open Scope string_scope.
Open Scope R_scope.

(** ** Formatted text *)

(** A float that may be [float('inf')]. *)
Inductive pyfloat : Type :=
| Fin (x : R)
| PInf.

Coercion Fin : R >-> pyfloat.

(** [f(x)] for an increasing affine [f]: infinity stays infinity. *)
Definition pyfloat_lift (f : R -> R) (x : pyfloat) : pyfloat :=
  match x with
  | Fin r => Fin (f r)
  | PInf => PInf
  end.

(** One part of an f-string: literal text (or an interpolated string), or a
    number with its format specification. *)
Inductive Piece : Type :=
| Lit (s : string)
| Num (x : pyfloat) (spec : string).

Definition Text : Type := list Piece.

(** A plain string as a text. *)
Definition text (s : string) : Text := [Lit s].

(** ** Python runtime *)

Module Py.

(** An exception instance (of a subclass of [Exception]): its class and
    [str(e)]. *)
Record Exc : Type := mkExc { exc_class : string; exc_str : Text }.

(** What a call does: it returns a value or raises an exception. *)
Inductive Outcome (A : Type) : Type :=
| Returned (a : A)
| Raised (e : Exc).

Arguments Returned {A} a.
Arguments Raised {A} e.

Definition bind {A B : Type} (c : Outcome A) (k : A -> Outcome B) : Outcome B :=
  match c with
  | Returned a => k a
  | Raised e => Raised e
  end.

Definition ZeroDivisionError : Exc :=
  mkExc "ZeroDivisionError" (text "float division by zero").

Definition ValueError_sqrt : Exc :=
  mkExc "ValueError" (text "math domain error").

Definition TypeError_complex : Exc :=
  mkExc "TypeError" (text "must be real number, not complex").

(** Comparisons of floats, as booleans. *)
Definition ltb (x y : R) : bool := if Rlt_dec x y then true else false.
Definition leb (x y : R) : bool := if Rle_dec x y then true else false.
Definition eqb (x y : R) : bool := if Req_dec_T x y then true else false.
Definition gtb (x y : R) : bool := ltb y x.
Definition geb (x y : R) : bool := leb y x.

(** [x / y] *)
Definition div (x y : R) : Outcome R :=
  if eqb y 0 then Raised ZeroDivisionError else Returned (x / y).

(** [math.sqrt(x)] *)
Definition sqrt (x : R) : Outcome R :=
  if ltb x 0 then Raised ValueError_sqrt else Returned (R_sqrt.sqrt x).

(** A Python number: a float or a complex number.  Complex values only
    arise from a negative base raised to a fractional power and are never
    inspected, so they carry no payload. *)
Inductive Number : Type :=
| Float (x : R)
| Complex.

Definition ZeroDivisionError_complex : Exc :=
  mkExc "ZeroDivisionError" (text "complex division by zero").

(** [x ** y] for a positive fractional exponent [y]: [0.0] for a zero base
    and a complex number for a negative one. *)
Definition pow_frac (x y : R) : Number :=
  if ltb x 0 then Complex
  else if eqb x 0 then Float 0
  else Float (Rpower x y).

(** [x / y] on numbers.  A complex operand here is never zero. *)
Definition div_num (x y : Number) : Outcome Number :=
  match x, y with
  | Float a, Float b => bind (div a b) (fun q => Returned (Float q))
  | Float _, Complex => Returned Complex
  | Complex, Float b =>
      if eqb b 0 then Raised ZeroDivisionError_complex else Returned Complex
  | Complex, Complex => Returned Complex
  end.

(** [math.sqrt(x)] on numbers: a complex argument is a [TypeError]. *)
Definition sqrt_num (x : Number) : Outcome R :=
  match x with
  | Float a => sqrt a
  | Complex => Raised TypeError_complex
  end.

(** [max(a, b)] and [min(a, b)] on floats. *)
Definition max (a b : R) : R := if gtb b a then b else a.
Definition min (a b : R) : R := if ltb b a then b else a.

(** [o or d] for an optional float: [None] and [0.0] are falsy. *)
Definition or_else (o : option R) (d : R) : R :=
  match o with
  | Some x => if eqb x 0 then d else x
  | None => d
  end.

(** Truthiness of an optional string: [None] and the empty string are falsy. *)
Definition truthy_str (o : option string) : bool :=
  match o with
  | Some EmptyString => false
  | Some _ => true
  | None => false
  end.

(** [str.upper()], on ASCII letters. *)
Definition upper_ascii (c : ascii) : ascii :=
  let n := nat_of_ascii c in
  if (Nat.leb 97 n && Nat.leb n 122)%bool then ascii_of_nat (n - 32) else c.

Fixpoint upper (s : string) : string :=
  match s with
  | EmptyString => EmptyString
  | String c s' => String (upper_ascii c) (upper s')
  end.

(** [needle in s] *)
Fixpoint contains (needle s : string) : bool :=
  if String.prefix needle s then true
  else match s with
       | EmptyString => false
       | String _ s' => contains needle s'
       end.

(** [d.get(key)] on a dictionary, kept in insertion order. *)
Fixpoint dict_get {A : Type} (d : list (string * A)) (key : string) : option A :=
  match d with
  | [] => None
  | (k, v) :: rest => if String.eqb k key then Some v else dict_get rest key
  end.

(** [d[key] = v]: an existing key keeps its position, a new one goes last. *)
Fixpoint dict_set {A : Type} (d : list (string * A)) (key : string) (v : A)
  : list (string * A) :=
  match d with
  | [] => [(key, v)]
  | (k, x) :: rest =>
      if String.eqb k key then (k, v) :: rest else (k, x) :: dict_set rest key v
  end.

(** [del d[key]] *)
Definition dict_del {A : Type} (d : list (string * A)) (key : string) : list (string * A) :=
  filter (fun kv => negb (String.eqb (fst kv) key)) d.

(** [sum(xs)] over floats: a left-to-right accumulation from [0]. *)
Definition sum (xs : list R) : R := fold_left Rplus xs 0.

End Py.

Notation "x <- c ;; k" := (Py.bind c (fun x => k))
  (at level 61, c at next level, right associativity).

Infix "<?" := Py.ltb (at level 70, no associativity) : R_scope.
Infix "<=?" := Py.leb (at level 70, no associativity) : R_scope.
Infix "=?" := Py.eqb (at level 70, no associativity) : R_scope.
Infix ">?" := Py.gtb (at level 70, no associativity) : R_scope.
Infix ">=?" := Py.geb (at level 70, no associativity) : R_scope.

(** ** Domain entities: [app/domain/entities/exoplanet.py] *)

Module PlanetType.
Inductive t : Type :=
| TERRESTRIAL
| SUPER_EARTH
| SUB_NEPTUNE
| NEPTUNE_LIKE
| GAS_GIANT
| UNKNOWN.
End PlanetType.

Module OrbitalParameters.

Record t : Type := mk {
  period_days : option R;
  semi_major_axis_au : option R;
  eccentricity : option R;
  inclination_deg : option R
}.

(** [self.eccentricity is not None and self.eccentricity < 0.1] *)
Definition is_circular (self : t) : bool :=
  match eccentricity self with
  | Some e => e <? 0.1
  | None => false
  end.

(** [self.eccentricity is not None and self.eccentricity > 0.3] *)
Definition is_highly_eccentric (self : t) : bool :=
  match eccentricity self with
  | Some e => e >? 0.3
  | None => false
  end.

(** Closest approach to the star, [a * (1 - e)]. *)
Definition periastron_distance_au (self : t) : option R :=
  match semi_major_axis_au self, eccentricity self with
  | Some a, Some e => Some (a * (1 - e))
  | _, _ => None
  end.

(** Farthest distance from the star, [a * (1 + e)]. *)
Definition apastron_distance_au (self : t) : option R :=
  match semi_major_axis_au self, eccentricity self with
  | Some a, Some e => Some (a * (1 + e))
  | _, _ => None
  end.

End OrbitalParameters.

Module PhysicalParameters.

Record t : Type := mk {
  radius_earth : option R;
  radius_jupiter : option R;
  mass_earth : option R;
  mass_jupiter : option R;
  density_g_cm3 : option R;
  equilibrium_temp_k : option R
}.

(** [g/g_Earth = M / R**2]; absent when an input is missing or the radius is
    not positive. *)
Definition surface_gravity_earth (self : t) : Py.Outcome (option R) :=
  match mass_earth self, radius_earth self with
  | Some mass, Some radius =>
      if radius <=? 0 then Py.Returned None
      else g <- Py.div mass (radius ^ 2) ;; Py.Returned (Some g)
  | _, _ => Py.Returned None
  end.

(** [11.186 * math.sqrt(M / R)] *)
Definition escape_velocity_km_s (self : t) : Py.Outcome (option R) :=
  match mass_earth self, radius_earth self with
  | Some mass, Some radius =>
      if radius <=? 0 then Py.Returned None
      else q <- Py.div mass radius ;;
           s <- Py.sqrt q ;;
           Py.Returned (Some (11.186 * s))
  | _, _ => Py.Returned None
  end.

Definition classify_planet_type (self : t) : PlanetType.t :=
  match radius_earth self with
  | None => PlanetType.UNKNOWN
  | Some r =>
      if r <? 1.0 then PlanetType.TERRESTRIAL
      else if r <? 1.75 then PlanetType.SUPER_EARTH
      else if r <? 3.5 then PlanetType.SUB_NEPTUNE
      else if r <? 6.0 then PlanetType.NEPTUNE_LIKE
      else PlanetType.GAS_GIANT
  end.

(** The measured density when there is one, else
    [5.514 * M / R**3] when mass and radius are known. *)
Definition estimate_density (self : t) : Py.Outcome (option R) :=
  match density_g_cm3 self with
  | Some d => Py.Returned (Some d)
  | None =>
      match mass_earth self, radius_earth self with
      | Some mass, Some radius =>
          let earth_density := 5.514 in
          d <- Py.div (earth_density * mass) (radius ^ 3) ;;
          Py.Returned (Some d)
      | _, _ => Py.Returned None
      end
  end.

End PhysicalParameters.

Module ExoplanetEntity.

(** The discovery, position and identifier fields of the entity are not read
    by the scoring core and are left out. *)
Record t : Type := mk {
  id : option Z;
  name : string;
  host_star_name : string;
  orbital : OrbitalParameters.t;
  physical : PhysicalParameters.t
}.

Definition planet_type (self : t) : PlanetType.t :=
  PhysicalParameters.classify_planet_type (physical self).

(** [self.planet_type in (PlanetType.TERRESTRIAL, PlanetType.SUPER_EARTH)] *)
Definition is_potentially_rocky (self : t) : bool :=
  match planet_type self with
  | PlanetType.TERRESTRIAL | PlanetType.SUPER_EARTH => true
  | _ => false
  end.

End ExoplanetEntity.

(** ** Domain entities: [app/domain/entities/star.py] *)

Module SpectralClass.

Inductive t : Type :=
| O | B | A | F | G | K | M | L | T | Y | UNKNOWN.

Definition value (c : t) : string :=
  match c with
  | O => "O" | B => "B" | A => "A" | F => "F" | G => "G" | K => "K"
  | M => "M" | L => "L" | T => "T" | Y => "Y"
  | UNKNOWN => "UNKNOWN"
  end.

(** [SpectralClass(v)]: the member with value [v], if any. *)
Definition of_value (v : string) : option t :=
  find (fun c => String.eqb (value c) v) [O; B; A; F; G; K; M; L; T; Y; UNKNOWN].

End SpectralClass.

Module LuminosityClass.

Inductive t : Type :=
| Ia | Ib | II | III | IV | V | VI | VII | UNKNOWN.

Definition value (c : t) : string :=
  match c with
  | Ia => "Ia" | Ib => "Ib" | II => "II" | III => "III" | IV => "IV"
  | V => "V" | VI => "VI" | VII => "VII"
  | UNKNOWN => "UNKNOWN"
  end.

End LuminosityClass.

Module StarEntity.

Record t : Type := mk {
  name : string;
  spectral_type : option string;
  mass_solar : option R;
  radius_solar : option R;
  temperature_k : option R;
  luminosity_solar : option R;
  luminosity_log : option R;
  metallicity : option R;
  age_gyr : option R
}.

Definition SOLAR_TEMP_K : R := 5778.

Definition spectral_class (self : t) : SpectralClass.t :=
  match spectral_type self with
  | None | Some EmptyString => SpectralClass.UNKNOWN
  | Some (String c _) =>
      let first_char := Py.upper (String c EmptyString) in
      match SpectralClass.of_value first_char with
      | Some cls => cls
      | None => SpectralClass.UNKNOWN
      end
  end.

(** The first numeral found wins, in the order VII, VI, IV, III, II, Ib, Ia,
    V. *)
Definition luminosity_class (self : t) : LuminosityClass.t :=
  match spectral_type self with
  | None | Some EmptyString => LuminosityClass.UNKNOWN
  | Some st =>
      let spec := Py.upper st in
      if Py.contains "VII" spec then LuminosityClass.VII
      else if Py.contains "VI" spec then LuminosityClass.VI
      else if Py.contains "IV" spec then LuminosityClass.IV
      else if Py.contains "III" spec then LuminosityClass.III
      else if Py.contains "II" spec then LuminosityClass.II
      else if Py.contains "IB" spec then LuminosityClass.Ib
      else if Py.contains "IA" spec then LuminosityClass.Ia
      else if Py.contains "V" spec then LuminosityClass.V
      else LuminosityClass.UNKNOWN
  end.

Definition is_main_sequence (self : t) : bool :=
  match luminosity_class self with
  | LuminosityClass.V => true
  | _ => false
  end.

Definition luminosity_linear (self : t) : option R :=
  match luminosity_solar self with
  | Some l => Some l
  | None =>
      match luminosity_log self with
      | Some lg => Some (Rpower 10 lg)
      | None => None
      end
  end.

(** Stefan-Boltzmann estimate [R**2 * (T / 5778)**4] when the luminosity is
    not given. *)
Definition estimate_luminosity (self : t) : option R :=
  match luminosity_linear self with
  | Some l => Some l
  | None =>
      match radius_solar self, temperature_k self with
      | Some radius, Some temp => Some ((radius ^ 2) * ((temp / SOLAR_TEMP_K) ^ 4))
      | _, _ => None
      end
  end.

(** [10.0 * (self.mass_solar ** -2.5)], absent when the mass is missing or
    not positive.  The base is positive, so the power is the real power. *)
Definition estimate_main_sequence_lifetime_gyr (self : t) : option R :=
  match mass_solar self with
  | None => None
  | Some mass => if mass <=? 0 then None else Some (10.0 * Rpower mass (-2.5))
  end.

(** Kopparapu et al. (2014) effective stellar fluxes, as polynomials of
    [t_star = T_eff - 5780]. *)
Definition s_recent_venus (t_star : R) : R :=
  1.7763 + 1.4335e-4 * t_star + 3.3954e-9 * t_star ^ 2
  - 7.6364e-12 * t_star ^ 3 - 1.1950e-15 * t_star ^ 4.

Definition s_runaway (t_star : R) : R :=
  1.0385 + 1.2456e-4 * t_star + 1.4612e-8 * t_star ^ 2
  - 7.6345e-12 * t_star ^ 3 - 1.7511e-15 * t_star ^ 4.

Definition s_max_greenhouse (t_star : R) : R :=
  0.3507 + 5.9578e-5 * t_star + 1.6707e-9 * t_star ^ 2
  - 3.0058e-12 * t_star ^ 3 - 5.1925e-16 * t_star ^ 4.

Definition s_early_mars (t_star : R) : R :=
  0.3207 + 5.4471e-5 * t_star + 1.5275e-9 * t_star ^ 2
  - 2.1709e-12 * t_star ^ 3 - 3.8282e-16 * t_star ^ 4.

(** [sqrt_l / math.sqrt(s) if s > 0 else None] *)
Definition hz_distance (sqrt_l s : R) : Py.Outcome (option R) :=
  if s >? 0 then
    r <- Py.sqrt s ;;
    d <- Py.div sqrt_l r ;;
    Py.Returned (Some d)
  else Py.Returned None.

(** The tuple [(conservative_inner, conservative_outer, optimistic_inner,
    optimistic_outer)], or [None]. *)
Definition calculate_habitable_zone (self : t) : Py.Outcome (option (R * R * R * R)) :=
  match estimate_luminosity self with
  | None => Py.Returned None
  | Some luminosity =>
      let teff := Py.or_else (temperature_k self) SOLAR_TEMP_K in
      let t_star := teff - 5780 in
      sqrt_l <- Py.sqrt luminosity ;;
      conservative_inner <- hz_distance sqrt_l (s_runaway t_star) ;;
      conservative_outer <- hz_distance sqrt_l (s_max_greenhouse t_star) ;;
      optimistic_inner <- hz_distance sqrt_l (s_recent_venus t_star) ;;
      optimistic_outer <- hz_distance sqrt_l (s_early_mars t_star) ;;
      match conservative_inner, conservative_outer, optimistic_inner, optimistic_outer with
      | Some ci, Some co, Some oi, Some oo => Py.Returned (Some (ci, co, oi, oo))
      | _, _, _, _ => Py.Returned None
      end
  end.

Definition is_in_habitable_zone (self : t) (distance_au : R) (conservative : bool)
  : Py.Outcome (option bool) :=
  hz <- calculate_habitable_zone self ;;
  match hz with
  | None => Py.Returned None
  | Some (cons_inner, cons_outer, opt_inner, opt_outer) =>
      Py.Returned (Some (
        if conservative
        then (cons_inner <=? distance_au) && (distance_au <=? cons_outer)
        else (opt_inner <=? distance_au) && (distance_au <=? opt_outer)))
  end.

Definition get_hz_position (self : t) (distance_au : R) : Py.Outcome (option string) :=
  hz <- calculate_habitable_zone self ;;
  match hz with
  | None => Py.Returned None
  | Some (cons_inner, cons_outer, opt_inner, opt_outer) =>
      Py.Returned (Some (
        if distance_au <? opt_inner then "too_hot"
        else if distance_au <? cons_inner then "optimistic_inner_edge"
        else if distance_au <=? cons_outer then "conservative_hz"
        else if distance_au <=? opt_outer then "optimistic_outer_edge"
        else "too_cold"))
  end.

End StarEntity.

(** ** Assessment report: [app/domain/entities/habitability.py] *)

Module ConfidenceLevel.

Inductive t : Type :=
| VERY_LOW
| LOW
| MEDIUM
| HIGH
| VERY_HIGH.

Definition value (c : t) : string :=
  match c with
  | VERY_LOW => "very_low"
  | LOW => "low"
  | MEDIUM => "medium"
  | HIGH => "high"
  | VERY_HIGH => "very_high"
  end.

End ConfidenceLevel.

Module ScoreCategory.

Inductive t : Type :=
| VERY_LOW
| LOW
| MODERATE
| HIGH
| VERY_HIGH.

Definition value (c : t) : string :=
  match c with
  | VERY_LOW => "Very Low"
  | LOW => "Low"
  | MODERATE => "Moderate"
  | HIGH => "High"
  | VERY_HIGH => "Very High"
  end.

Definition from_score (score : R) : t :=
  if score >=? 0.8 then VERY_HIGH
  else if score >=? 0.6 then HIGH
  else if score >=? 0.4 then MODERATE
  else if score >=? 0.2 then LOW
  else VERY_LOW.

End ScoreCategory.

Module FactorScore.

Record t : Type := mk {
  factor_id : string;
  factor_name : string;
  category : string;
  raw_score : R;
  weight : R;
  weighted_score : R;
  input_value : option Text;
  input_unit : option string;
  optimal_range : option Text;
  explanation : Text;
  confidence : ConfidenceLevel.t;
  references : list string
}.

Definition is_favorable (self : t) : bool := raw_score self >=? 0.5.

Definition score_percentage (self : t) : R := raw_score self * 100.

End FactorScore.

Module HabitabilityAssessment.

Record t : Type := mk {
  exoplanet_id : Z;
  exoplanet_name : string;
  host_star_name : string;
  total_score : R;
  factor_scores : list FactorScore.t;
  data_completeness : R;
  missing_parameters : list string;
  assessment_timestamp : Z;
  scoring_version : string
}.

Definition score_category (self : t) : ScoreCategory.t :=
  ScoreCategory.from_score (total_score self).

(** Derived from the data completeness alone. *)
Definition overall_confidence (self : t) : ConfidenceLevel.t :=
  if data_completeness self >=? 0.8 then ConfidenceLevel.VERY_HIGH
  else if data_completeness self >=? 0.6 then ConfidenceLevel.HIGH
  else if data_completeness self >=? 0.4 then ConfidenceLevel.MEDIUM
  else if data_completeness self >=? 0.2 then ConfidenceLevel.LOW
  else ConfidenceLevel.VERY_LOW.

(** [[f for f in self.factor_scores if f.is_favorable]] *)
Definition favorable_factors (self : t) : list FactorScore.t :=
  filter FactorScore.is_favorable (factor_scores self).

(** [[f for f in self.factor_scores if not f.is_favorable]] *)
Definition unfavorable_factors (self : t) : list FactorScore.t :=
  filter (fun f => negb (FactorScore.is_favorable f)) (factor_scores self).

(** One step of the grouping loop: a category seen for the first time gets
    an empty list, then the factor is appended to the list of its category. *)
Definition add_to_category (result : list (string * list FactorScore.t))
    (factor : FactorScore.t) : list (string * list FactorScore.t) :=
  let category := FactorScore.category factor in
  let result :=
    match Py.dict_get result category with
    | None => Py.dict_set result category []
    | Some _ => result
    end in
  match Py.dict_get result category with
  | Some l => Py.dict_set result category (l ++ [factor])%list
  | None => result
  end.

Definition factors_by_category (self : t) : list (string * list FactorScore.t) :=
  fold_left add_to_category (factor_scores self) [].

End HabitabilityAssessment.

(** ** Factor contract: [app/domain/scoring/base.py] *)

Module FactorCategory.

Inductive t : Type :=
| STELLAR
| PLANETARY
| ORBITAL
| ATMOSPHERIC
| DERIVED.

Definition value (c : t) : string :=
  match c with
  | STELLAR => "stellar"
  | PLANETARY => "planetary"
  | ORBITAL => "orbital"
  | ATMOSPHERIC => "atmospheric"
  | DERIVED => "derived"
  end.

End FactorCategory.

Module FactorResult.

Record t : Type := mk {
  factor_id : string;
  score : R;
  input_value : option Text;
  input_unit : option string;
  optimal_range : option Text;
  explanation : Text;
  confidence : ConfidenceLevel.t;
  references : list string;
  is_applicable : bool;
  missing_data : option string
}.

(** [self.score = max(0.0, min(1.0, self.score))] *)
Definition __post_init__ (self : t) : t :=
  mk (factor_id self) (Py.max 0.0 (Py.min 1.0 (score self)))
     (input_value self) (input_unit self) (optimal_range self) (explanation self)
     (confidence self) (references self) (is_applicable self) (missing_data self).

(** [FactorResult(...)]: the dataclass constructor followed by
    [__post_init__].  Arguments the source leaves to their defaults are
    written out by the callers ([references=[]], [is_applicable=True],
    [missing_data=None]). *)
Definition init
    (factor_id : string) (score : R)
    (input_value : option Text) (input_unit : option string)
    (optimal_range : option Text) (explanation : Text)
    (confidence : ConfidenceLevel.t) (references : list string)
    (is_applicable : bool) (missing_data : option string) : t :=
  __post_init__
    (mk factor_id score input_value input_unit optimal_range explanation
        confidence references is_applicable missing_data).

End FactorResult.

Module ScoringFactor.

(** The capability every factor plugin offers.  [evaluate] may raise; what it
    raises is an instance of [Exception]. *)
Record t : Type := mk {
  factor_id : string;
  factor_name : string;
  category : FactorCategory.t;
  description : string;
  references : list string;
  evaluate : ExoplanetEntity.t -> StarEntity.t -> Py.Outcome FactorResult.t
}.

End ScoringFactor.

Module BaseScoringFactor.

(** [self._create_missing_data_result(missing_field)], for a factor whose id
    is [factor_id]. *)
Definition _create_missing_data_result (factor_id missing_field : string)
  : FactorResult.t :=
  FactorResult.init factor_id 0.5 None None None
    [Lit "Required data '"; Lit missing_field;
     Lit "' is not available. Assigned neutral score."]
    ConfidenceLevel.VERY_LOW [] false (Some missing_field).


End BaseScoringFactor.

(** ** Scoring configuration: [app/domain/scoring/config.py] *)

Module FactorWeightConfig.

(** The free-form [parameters] dictionary of a weight entry is not read by the
    scoring core and is left out. *)
Record t : Type := mk {
  factor_id : string;
  weight : R;
  enabled : bool
}.

Definition ValueError (weight : R) : Py.Exc :=
  Py.mkExc "ValueError" [Lit "Weight must be between 0 and 1, got "; Num weight ""].

(** The validation of the weight. *)
Definition __post_init__ (self : t) : Py.Outcome t :=
  if negb ((0.0 <=? weight self) && (weight self <=? 1.0))
  then Py.Raised (ValueError (weight self))
  else Py.Returned self.

(** [FactorWeightConfig(factor_id, weight, enabled)] *)
Definition init (factor_id : string) (weight : R) (enabled : bool) : Py.Outcome t :=
  __post_init__ (mk factor_id weight enabled).

End FactorWeightConfig.

Module ScoringConfig.

Record t : Type := mk {
  version : string;
  factor_weights : list (string * FactorWeightConfig.t);
  normalization_method : string;
  minimum_factors : Z;
  confidence_thresholds : list (string * R)
}.

Definition DEFAULT_WEIGHTS : list (string * R) :=
  [ ("stellar_type", 0.12);
    ("stellar_luminosity", 0.08);
    ("stellar_age", 0.05);
    ("habitable_zone_position", 0.05);
    ("planet_radius", 0.12);
    ("planet_mass", 0.08);
    ("planet_density", 0.05);
    ("equilibrium_temperature", 0.10);
    ("surface_gravity", 0.05);
    ("orbital_eccentricity", 0.08);
    ("tidal_locking", 0.07);
    ("atmosphere_retention", 0.08);
    ("magnetic_field_potential", 0.07) ].

Definition DEFAULT_CONFIDENCE_THRESHOLDS : list (string * R) :=
  [ ("very_low", 0.2); ("low", 0.4); ("medium", 0.6); ("high", 0.8);
    ("very_high", 1.0) ].

(** The dict comprehension of [__post_init__]: one validated entry per default
    weight. *)
Fixpoint default_factor_weights (ws : list (string * R))
  : Py.Outcome (list (string * FactorWeightConfig.t)) :=
  match ws with
  | [] => Py.Returned []
  | (fid, w) :: rest =>
      c <- FactorWeightConfig.init fid w true ;;
      cs <- default_factor_weights rest ;;
      Py.Returned ((fid, c) :: cs)
  end.

(** An empty weight table or threshold table is filled in with the
    defaults. *)
Definition __post_init__ (self : t) : Py.Outcome t :=
  fw <- match factor_weights self with
        | [] => default_factor_weights DEFAULT_WEIGHTS
        | _ => Py.Returned (factor_weights self)
        end ;;
  let ct := match confidence_thresholds self with
            | [] => DEFAULT_CONFIDENCE_THRESHOLDS
            | _ => confidence_thresholds self
            end in
  Py.Returned (mk (version self) fw (normalization_method self) (minimum_factors self) ct).

(** [ScoringConfig(...)] *)
Definition init (version : string)
    (factor_weights : list (string * FactorWeightConfig.t))
    (normalization_method : string) (minimum_factors : Z)
    (confidence_thresholds : list (string * R)) : Py.Outcome t :=
  __post_init__
    (mk version factor_weights normalization_method minimum_factors confidence_thresholds).

Definition get_weight (self : t) (factor_id : string) : R :=
  match Py.dict_get (factor_weights self) factor_id with
  | Some config =>
      if FactorWeightConfig.enabled config then FactorWeightConfig.weight config else 0.0
  | None => 0.0
  end.

(** An id the configuration does not know is enabled. *)
Definition is_factor_enabled (self : t) (factor_id : string) : bool :=
  match Py.dict_get (factor_weights self) factor_id with
  | Some config => FactorWeightConfig.enabled config
  | None => true
  end.

Definition get_enabled_factors (self : t) : list string :=
  map fst (filter (fun kv => FactorWeightConfig.enabled (snd kv)) (factor_weights self)).

Definition get_total_weight (self : t) : R :=
  Py.sum (map (fun kv => FactorWeightConfig.weight (snd kv))
              (filter (fun kv => FactorWeightConfig.enabled (snd kv)) (factor_weights self))).

Definition normalize_weights (self : t) : list (string * R) :=
  let total := get_total_weight self in
  if total =? 0 then []
  else map (fun kv => (fst kv, FactorWeightConfig.weight (snd kv) / total))
           (filter (fun kv => FactorWeightConfig.enabled (snd kv)) (factor_weights self)).

(** The dictionaries [to_dict] writes and [from_dict] reads, as far as they
    are well typed: a weight entry is a dictionary with the optional keys
    ["weight"] and ["enabled"], or a bare number; every top-level key is
    optional.  (The ["parameters"] of an entry are passed through untouched
    and are left out, as in [FactorWeightConfig].) *)
Inductive WeightData : Type :=
| WeightDict (weight : option R) (enabled : option bool)
| WeightNumber (weight : R).

Record Data : Type := mkData {
  data_version : option string;
  data_factor_weights : option (list (string * WeightData));
  data_normalization_method : option string;
  data_minimum_factors : option Z;
  data_confidence_thresholds : option (list (string * R))
}.

(** [d.get(key, default)] on an optional key. *)
Definition get_or {A : Type} (o : option A) (default : A) : A :=
  match o with
  | Some x => x
  | None => default
  end.

Definition to_dict (self : t) : Data :=
  mkData (Some (version self))
    (Some (map (fun kv =>
                  (fst kv, WeightDict (Some (FactorWeightConfig.weight (snd kv)))
                                      (Some (FactorWeightConfig.enabled (snd kv)))))
               (factor_weights self)))
    (Some (normalization_method self))
    (Some (minimum_factors self))
    (Some (confidence_thresholds self)).

(** The loop of [from_dict] over the weight entries: each one goes through
    the validating constructor, under the key it is filed under. *)
Fixpoint from_dict_weights (entries : list (string * WeightData))
    (factor_weights : list (string * FactorWeightConfig.t))
  : Py.Outcome (list (string * FactorWeightConfig.t)) :=
  match entries with
  | [] => Py.Returned factor_weights
  | (fid, config) :: rest =>
      c <- match config with
           | WeightDict weight enabled =>
               FactorWeightConfig.init fid (get_or weight 0.1) (get_or enabled true)
           | WeightNumber weight => FactorWeightConfig.init fid weight true
           end ;;
      from_dict_weights rest (Py.dict_set factor_weights fid c)
  end.

Definition from_dict (data : Data) : Py.Outcome t :=
  factor_weights <- from_dict_weights (get_or (data_factor_weights data) []) [] ;;
  init (get_or (data_version data) "2.0.0")
       factor_weights
       (get_or (data_normalization_method data) "weighted_average")
       (get_or (data_minimum_factors data) 3%Z)
       (get_or (data_confidence_thresholds data) []).

End ScoringConfig.

(** [load_default_config()] when no configuration file is found: the built-in
    defaults [ScoringConfig()]. *)
Definition load_default_config : Py.Outcome ScoringConfig.t :=
  ScoringConfig.init "2.0.0" [] "weighted_average" 3 [].

(** ** Stellar factors: [app/domain/scoring/factors/stellar.py] *)

(** [sep.join(parts)] on texts. *)
Fixpoint join (sep : string) (parts : list Text) : Text :=
  match parts with
  | [] => []
  | [p] => p
  | p :: rest => (p ++ [Lit sep] ++ join sep rest)%list
  end.

Module StellarTypeFactor.

Definition factor_id : string := "stellar_type".

Definition factor_name : string := "Stellar Spectral Type".

Definition category : FactorCategory.t := FactorCategory.STELLAR.

Definition description : string :=
  "Evaluates the host star's spectral class for habitable zone "
  ++ "stability, stellar lifetime, and radiation environment. G and K "
  ++ "type main-sequence stars are considered most favorable for "
  ++ "habitability.".

Definition references : list string :=
  [ "Kasting et al. (1993) Icarus 101:108-128";
    "Lingam & Loeb (2019) 'Life in the Cosmos' Cambridge University Press";
    "Cuntz & Guinan (2016) ApJ 827:79" ].

(** The inherited [self._create_missing_data_result]. *)
Definition _create_missing_data_result (missing_field : string) : FactorResult.t :=
  BaseScoringFactor._create_missing_data_result factor_id missing_field.

Definition SPECTRAL_SCORES (c : SpectralClass.t) : R :=
  match c with
  | SpectralClass.O => 0.05
  | SpectralClass.B => 0.10
  | SpectralClass.A => 0.20
  | SpectralClass.F => 0.60
  | SpectralClass.G => 0.95
  | SpectralClass.K => 0.90
  | SpectralClass.M => 0.45
  | SpectralClass.L => 0.10
  | SpectralClass.T => 0.05
  | SpectralClass.Y => 0.02
  | SpectralClass.UNKNOWN => 0.50
  end.

Definition SPECTRAL_EXPLANATIONS_O : Text :=
  [Lit ("O-type stars are extremely luminous and hot (>30,000 K) with very "
        ++ "short main-sequence lifetimes of only 1-10 million years. This is "
        ++ "far too brief for even simple life to evolve (Earth took ~1 billion "
        ++ "years for single-celled life). Additionally, intense UV radiation "
        ++ "would be challenging for surface habitability.") ].

Definition SPECTRAL_EXPLANATIONS_B : Text :=
  [Lit ("B-type stars (10,000-30,000 K) have lifetimes of 10-100 million "
        ++ "years. While some simple life might emerge, complex life evolution "
        ++ "is unlikely given the limited time available. High UV flux poses "
        ++ "additional challenges.") ].

Definition SPECTRAL_EXPLANATIONS_A : Text :=
  [Lit ("A-type stars (7,500-10,000 K) live 100 million to 2 billion years. "
        ++ "Marginally sufficient for simple life, but complex multicellular "
        ++ "organisms may not have time to evolve. The habitable zone is "
        ++ "relatively wide.") ].

Definition SPECTRAL_EXPLANATIONS_F : Text :=
  [Lit ("F-type stars (6,000-7,500 K) have 2-4 billion year lifetimes. "
        ++ "Sufficient time for life evolution, though less than Sun-like "
        ++ "stars. The habitable zone is wider than for G-types, which is "
        ++ "favorable.") ].

Definition SPECTRAL_EXPLANATIONS_G : Text :=
  [Lit ("G-type stars like our Sun (5,200-6,000 K) are considered optimal "
        ++ "for habitability. They provide stable radiation for ~10 billion "
        ++ "years, ample time for complex life to evolve. Earth orbits a G2V "
        ++ "star, making this our only confirmed example of a life-bearing "
        ++ "environment.") ].

Definition SPECTRAL_EXPLANATIONS_K : Text :=
  [Lit ("K-type orange dwarfs (3,700-5,200 K) are excellent for "
        ++ "habitability. They have extremely stable luminosity, lifetimes of "
        ++ "15-30+ billion years (longer than the current age of the universe), "
        ++ "lower UV emission, and wider habitable zones than M-dwarfs. Many "
        ++ "astrobiologists consider K-dwarfs potentially superior to Sun-like "
        ++ "stars for life.") ].

Definition SPECTRAL_EXPLANATIONS_M : Text :=
  [Lit ("M-type red dwarfs (2,400-3,700 K) are the most common stars but "
        ++ "present habitability challenges. The habitable zone is very close "
        ++ "to the star, likely causing tidal locking (one side always facing "
        ++ "the star). Frequent stellar flares can strip planetary atmospheres. "
        ++ "However, their extremely long lifetimes (trillions of years) "
        ++ "provide ample evolution time if these challenges can be overcome.") ].

Definition SPECTRAL_EXPLANATIONS_L : Text :=
  [Lit ("L-type objects are very cool (1,300-2,400 K) brown dwarfs or the "
        ++ "coolest red dwarfs. The habitable zone would be extremely close, "
        ++ "virtually guaranteeing tidal locking and atmospheric stripping from "
        ++ "stellar activity.") ].

Definition SPECTRAL_EXPLANATIONS_T : Text :=
  [Lit ("T-type brown dwarfs (550-1,300 K) lack sufficient luminosity to "
        ++ "maintain a conventional habitable zone at any reasonable distance.") ].

Definition SPECTRAL_EXPLANATIONS_Y : Text :=
  [Lit ("Y-type objects are the coldest brown dwarfs (<550 K), with surface "
        ++ "temperatures similar to planets. Not suitable for habitability "
        ++ "assessment.") ].

Definition SPECTRAL_EXPLANATIONS_UNKNOWN : Text :=
  [Lit ("Stellar spectral type is unknown. Cannot assess host star "
        ++ "suitability for supporting a habitable environment. Neutral score "
        ++ "assigned.") ].

Definition SPECTRAL_EXPLANATIONS (c : SpectralClass.t) : Text :=
  match c with
  | SpectralClass.O => SPECTRAL_EXPLANATIONS_O
  | SpectralClass.B => SPECTRAL_EXPLANATIONS_B
  | SpectralClass.A => SPECTRAL_EXPLANATIONS_A
  | SpectralClass.F => SPECTRAL_EXPLANATIONS_F
  | SpectralClass.G => SPECTRAL_EXPLANATIONS_G
  | SpectralClass.K => SPECTRAL_EXPLANATIONS_K
  | SpectralClass.M => SPECTRAL_EXPLANATIONS_M
  | SpectralClass.L => SPECTRAL_EXPLANATIONS_L
  | SpectralClass.T => SPECTRAL_EXPLANATIONS_T
  | SpectralClass.Y => SPECTRAL_EXPLANATIONS_Y
  | SpectralClass.UNKNOWN => SPECTRAL_EXPLANATIONS_UNKNOWN
  end.

(** Both tables have an entry for every spectral class, so the defaults of
    the two [.get] calls are never used. *)
Definition evaluate (exoplanet : ExoplanetEntity.t) (star : StarEntity.t)
  : Py.Outcome FactorResult.t :=
  if negb (Py.truthy_str (StarEntity.spectral_type star)) then
    Py.Returned (_create_missing_data_result "stellar_type")
  else
    let spectral_class := StarEntity.spectral_class star in
    let score := SPECTRAL_SCORES spectral_class in
    let explanation := SPECTRAL_EXPLANATIONS spectral_class in
    let confidence :=
      match spectral_class with
      | SpectralClass.F | SpectralClass.G | SpectralClass.K | SpectralClass.M =>
          ConfidenceLevel.HIGH
      | SpectralClass.UNKNOWN => ConfidenceLevel.VERY_LOW
      | _ => ConfidenceLevel.MEDIUM
      end in
    Py.Returned (FactorResult.init factor_id score
      (option_map text (StarEntity.spectral_type star)) (Some "Spectral Class")
      (Some (text "G0V - K5V")) explanation confidence [] true None).

Definition factor : ScoringFactor.t :=
  ScoringFactor.mk factor_id factor_name category description references evaluate.

End StellarTypeFactor.

Module StellarLuminosityFactor.

Definition factor_id : string := "stellar_luminosity".

Definition factor_name : string := "Stellar Luminosity Class".

Definition category : FactorCategory.t := FactorCategory.STELLAR.

Definition description : string :=
  "Assesses whether the host star is in a stable evolutionary phase. "
  ++ "Main-sequence (class V) stars provide stable energy output for "
  ++ "billions of years, while evolved stars have variable luminosity and "
  ++ "shorter remaining lifetimes.".

Definition references : list string :=
  [ "Morgan & Keenan (1973) ARA&A 11:29-50";
    "Gray & Corbally (2009) 'Stellar Spectral Classification' Princeton" ].

(** The inherited [self._create_missing_data_result]. *)
Definition _create_missing_data_result (missing_field : string) : FactorResult.t :=
  BaseScoringFactor._create_missing_data_result factor_id missing_field.

Definition LUMINOSITY_SCORES (c : LuminosityClass.t) : R :=
  match c with
  | LuminosityClass.V => 1.0
  | LuminosityClass.IV => 0.5
  | LuminosityClass.VI => 0.7
  | LuminosityClass.III => 0.2
  | LuminosityClass.II => 0.1
  | LuminosityClass.Ib => 0.05
  | LuminosityClass.Ia => 0.02
  | LuminosityClass.VII => 0.1
  | LuminosityClass.UNKNOWN => 0.5
  end.

Definition explanation_l257 : Text :=
  [Lit ("The host star is a main-sequence dwarf (class V), indicating stable "
        ++ "hydrogen core burning. This provides consistent luminosity output "
        ++ "over billions of years, allowing habitable zone stability.") ].

Definition explanation_l264 : Text :=
  [Lit ("The host star is a subgiant (class IV), indicating it is beginning "
        ++ "to evolve off the main sequence. The habitable zone will shift "
        ++ "outward as luminosity increases over the next ~1 billion years.") ].

Definition explanation_l271 (luminosity_class : LuminosityClass.t) : Text :=
  [Lit "The host star is an evolved giant (class ";
   Lit (LuminosityClass.value luminosity_class);
   Lit ("). Giants have variable luminosity and short remaining lifetimes. "
        ++ "Any previously habitable planets would have been engulfed or "
        ++ "sterilized.") ].

Definition explanation_l278 (luminosity_class : LuminosityClass.t) : Text :=
  [Lit "The host star is a supergiant (class ";
   Lit (LuminosityClass.value luminosity_class);
   Lit ("), representing a very short-lived phase before supernova. Not "
        ++ "suitable for habitability.") ].

Definition explanation_l284 : Text :=
  [Lit ("Luminosity class unknown. Cannot determine stellar evolutionary "
        ++ "state. If spectral type includes 'V', the star is likely "
        ++ "main-sequence.") ].

Definition explanation_l290 (luminosity_class : LuminosityClass.t) : Text :=
  [Lit "Stellar luminosity class: ";
   Lit (LuminosityClass.value luminosity_class) ].

(** There is no missing-data branch here: an absent spectral type is the
    [UNKNOWN] luminosity class, which is scored like any other class. *)
Definition evaluate (exoplanet : ExoplanetEntity.t) (star : StarEntity.t)
  : Py.Outcome FactorResult.t :=
  let luminosity_class := StarEntity.luminosity_class star in
  let score := LUMINOSITY_SCORES luminosity_class in
  let '(explanation, confidence) :=
    match luminosity_class with
    | LuminosityClass.V => (explanation_l257, ConfidenceLevel.HIGH)
    | LuminosityClass.IV => (explanation_l264, ConfidenceLevel.MEDIUM)
    | LuminosityClass.III | LuminosityClass.II =>
        (explanation_l271 luminosity_class, ConfidenceLevel.HIGH)
    | LuminosityClass.Ia | LuminosityClass.Ib =>
        (explanation_l278 luminosity_class, ConfidenceLevel.HIGH)
    | LuminosityClass.UNKNOWN => (explanation_l284, ConfidenceLevel.LOW)
    | _ => (explanation_l290 luminosity_class, ConfidenceLevel.MEDIUM)
    end in
  Py.Returned (FactorResult.init factor_id score
    (Some (text (LuminosityClass.value luminosity_class)))
    (Some "Luminosity Class") (Some (text "V (Main Sequence)"))
    explanation confidence [] true None).

Definition factor : ScoringFactor.t :=
  ScoringFactor.mk factor_id factor_name category description references evaluate.

End StellarLuminosityFactor.

Module StellarAgeFactor.

Definition factor_id : string := "stellar_age".

Definition factor_name : string := "Stellar System Age".

Definition category : FactorCategory.t := FactorCategory.STELLAR.

Definition description : string :=
  "Considers the age of the stellar system for planetary evolution and "
  ++ "life development timescales. Very young systems may still be too "
  ++ "active, while optimal ages allow sufficient time for biological "
  ++ "evolution.".

Definition references : list string :=
  [ "Lineweaver (2001) Icarus 151:307-313";
    "Spiegel & Turner (2012) PNAS 109:395-400" ].

(** The inherited [self._create_missing_data_result]. *)
Definition _create_missing_data_result (missing_field : string) : FactorResult.t :=
  BaseScoringFactor._create_missing_data_result factor_id missing_field.

Definition explanation_l363 (age : R) : Text :=
  [Lit "The system is very young (";
   Num age ".1f";
   Lit (" Gyr). Young stars have intense UV and X-ray emission, frequent "
        ++ "flares, and the planetary system may still be experiencing heavy "
        ++ "bombardment. Complex life unlikely.") ].

Definition explanation_l370 (age : R) : Text :=
  [Lit "The system is relatively young (";
   Num age ".1f";
   Lit (" Gyr). Stellar activity is still elevated compared to mature stars. "
        ++ "Simple life might emerge, but complex life would require more time.") ].

Definition explanation_l377 (age : R) : Text :=
  [Lit "The system age (";
   Num age ".1f";
   Lit (" Gyr) is approaching optimal for habitability. Stellar activity has "
        ++ "decreased and sufficient time exists for at least simple life "
        ++ "evolution (Earth had microbial life by ~3.5 Gya).") ].

Definition explanation_l384 (age : R) : Text :=
  [Lit "The system age (";
   Num age ".1f";
   Lit (" Gyr) is in the optimal range for habitability. Sufficient time has "
        ++ "passed for complex life evolution (Earth: ~4 Gyr), and for Sun-like "
        ++ "stars, the main-sequence phase continues.") ].

Definition explanation_l391 (age : R) : Text :=
  [Lit "The system is mature (";
   Num age ".1f";
   Lit (" Gyr). For G-type stars, this is near the end of stable "
        ++ "main-sequence evolution. Still habitable, but stellar luminosity "
        ++ "may be increasing.") ].

Definition explanation_l398 (age : R) : Text :=
  [Lit "The system is very old (";
   Num age ".1f";
   Lit (" Gyr). Sun-like stars would be evolving off the main sequence. K "
        ++ "and M dwarfs remain stable, but may have lost volatiles over time.") ].

Definition evaluate (exoplanet : ExoplanetEntity.t) (star : StarEntity.t)
  : Py.Outcome FactorResult.t :=
  match StarEntity.age_gyr star with
  | None => Py.Returned (_create_missing_data_result "stellar_age_gyr")
  | Some age =>
      let '(score, explanation) :=
        if age <? 0.5 then (0.2, explanation_l363 age)
        else if age <? 1.0 then (0.4, explanation_l370 age)
        else if age <? 2.0 then (0.7, explanation_l377 age)
        else if age <? 8.0 then (1.0, explanation_l384 age)
        else if age <? 10.0 then (0.7, explanation_l391 age)
        else (0.4, explanation_l398 age) in
      Py.Returned (FactorResult.init factor_id score
        (Some [Num age ".1f"]) (Some "Billion years (Gyr)")
        (Some (text "2-8 Gyr")) explanation ConfidenceLevel.MEDIUM [] true None)
  end.

Definition factor : ScoringFactor.t :=
  ScoringFactor.mk factor_id factor_name category description references evaluate.

End StellarAgeFactor.

Module HabitableZonePositionFactor.

Definition factor_id : string := "habitable_zone_position".

Definition factor_name : string := "Habitable Zone Position".

Definition category : FactorCategory.t := FactorCategory.STELLAR.

Definition description : string :=
  "Determines if the planet's orbital distance places it within the "
  ++ "habitable zone where liquid water could exist on the surface. Based "
  ++ "on climate models for Earth-like atmospheres.".

Definition references : list string :=
  [ "Kopparapu et al. (2013) ApJ 765:131";
    "Kopparapu et al. (2014) ApJ 787:L29";
    "Kane & Gelino (2012) PASP 124:323-328" ].

(** The inherited [self._create_missing_data_result]. *)
Definition _create_missing_data_result (missing_field : string) : FactorResult.t :=
  BaseScoringFactor._create_missing_data_result factor_id missing_field.

Definition explanation_l480 : Text :=
  [Lit "Cannot calculate habitable zone without stellar luminosity data." ].

Definition explanation_l491 (distance_au : R) (cons_inner : R) (cons_outer : R) : Text :=
  [Lit "The planet orbits at ";
   Num distance_au ".3f";
   Lit " AU, firmly within the conservative habitable zone (";
   Num cons_inner ".3f";
   Lit " - ";
   Num cons_outer ".3f";
   Lit (" AU). Climate models suggest liquid water could exist on the "
        ++ "surface with an Earth-like atmosphere.") ].

Definition explanation_l499 (distance_au : R) (opt_inner : R) (cons_inner : R) : Text :=
  [Lit "The planet orbits at ";
   Num distance_au ".3f";
   Lit " AU, in the optimistic inner habitable zone (between ";
   Num opt_inner ".3f";
   Lit " and ";
   Num cons_inner ".3f";
   Lit (" AU). Conditions are warm but could support liquid water with a "
        ++ "thinner atmosphere or cloud feedback.") ].

Definition explanation_l507 (distance_au : R) (cons_outer : R) (opt_outer : R) : Text :=
  [Lit "The planet orbits at ";
   Num distance_au ".3f";
   Lit " AU, in the optimistic outer habitable zone (between ";
   Num cons_outer ".3f";
   Lit " and ";
   Num opt_outer ".3f";
   Lit (" AU). Liquid water possible with a thick COâ‚‚ atmosphere providing "
        ++ "additional greenhouse warming.") ].

Definition explanation_l517 (distance_au : R) (opt_inner : R) : Text :=
  [Lit "The planet orbits at ";
   Num distance_au ".3f";
   Lit " AU, inside the habitable zone (inner edge: ";
   Num opt_inner ".3f";
   Lit (" AU). The planet likely experiences runaway greenhouse conditions, "
        ++ "with surface temperatures too high for liquid water.") ].

Definition explanation_l527 (distance_au : R) (opt_outer : R) : Text :=
  [Lit "The planet orbits at ";
   Num distance_au ".3f";
   Lit " AU, outside the habitable zone (outer edge: ";
   Num opt_outer ".3f";
   Lit (" AU). Surface water would be frozen without extreme greenhouse "
        ++ "warming.") ].

Definition explanation_l534 (distance_au : R) : Text :=
  [Lit "Orbital distance: ";
   Num distance_au ".3f";
   Lit " AU. HZ position uncertain." ].

(** The habitable zone is computed once here and once more inside
    [get_hz_position]. *)
Definition evaluate (exoplanet : ExoplanetEntity.t) (star : StarEntity.t)
  : Py.Outcome FactorResult.t :=
  match OrbitalParameters.semi_major_axis_au (ExoplanetEntity.orbital exoplanet) with
  | None => Py.Returned (_create_missing_data_result "semi_major_axis_au")
  | Some distance_au =>
      hz <- StarEntity.calculate_habitable_zone star ;;
      match hz with
      | None =>
          Py.Returned (FactorResult.init factor_id 0.5
            (Some [Num distance_au ".3f"]) (Some "AU") None
            explanation_l480 ConfidenceLevel.VERY_LOW [] false
            (Some "stellar_luminosity"))
      | Some (cons_inner, cons_outer, opt_inner, opt_outer) =>
          position <- StarEntity.get_hz_position star distance_au ;;
          let is_position (p : string) : bool :=
            match position with
            | Some q => String.eqb q p
            | None => false
            end in
          r <- (if is_position "conservative_hz" then
                  Py.Returned (1.0, explanation_l491 distance_au cons_inner cons_outer)
                else if is_position "optimistic_inner_edge" then
                  Py.Returned (0.7, explanation_l499 distance_au opt_inner cons_inner)
                else if is_position "optimistic_outer_edge" then
                  Py.Returned (0.7, explanation_l507 distance_au cons_outer opt_outer)
                else if is_position "too_hot" then
                  excess <- Py.div (opt_inner - distance_au) opt_inner ;;
                  Py.Returned (Py.max 0.0 (0.3 - excess),
                               explanation_l517 distance_au opt_inner)
                else if is_position "too_cold" then
                  excess <- Py.div (distance_au - opt_outer) opt_outer ;;
                  Py.Returned (Py.max 0.0 (0.3 - excess * 0.5),
                               explanation_l527 distance_au opt_outer)
                else
                  Py.Returned (0.5, explanation_l534 distance_au)) ;;
          let '(score, explanation) := r in
          (* [hz] is a 4-tuple here, hence truthy: the confidence is HIGH *)
          Py.Returned (FactorResult.init factor_id score
            (Some [Num distance_au ".3f"]) (Some "AU")
            (Some [Num cons_inner ".3f"; Lit " - "; Num cons_outer ".3f";
                   Lit " AU (conservative)"])
            explanation ConfidenceLevel.HIGH [] true None)
      end
  end.

Definition factor : ScoringFactor.t :=
  ScoringFactor.mk factor_id factor_name category description references evaluate.

End HabitableZonePositionFactor.

(** ** Planetary factors: [app/domain/scoring/factors/planetary.py] *)

Module PlanetRadiusFactor.

Definition factor_id : string := "planet_radius".

Definition factor_name : string := "Planet Radius".

Definition category : FactorCategory.t := FactorCategory.PLANETARY.

Definition description : string :=
  "Assesses planet size to determine likelihood of rocky composition "
  ++ "and atmosphere retention. Earth-sized to super-Earth sizes are "
  ++ "optimal.".

Definition references : list string :=
  [ "Fulton et al. (2017) AJ 154:109 - California-Kepler Survey";
    "Chen & Kipping (2017) ApJ 834:17";
    "Rogers (2015) ApJ 801:41 - Rocky/volatile boundary" ].

(** The inherited [self._create_missing_data_result]. *)
Definition _create_missing_data_result (missing_field : string) : FactorResult.t :=
  BaseScoringFactor._create_missing_data_result factor_id missing_field.

Definition explanation_l95 (radius : R) : Text :=
  [Lit "Planet radius (";
   Num radius ".2f";
   Lit (" R⊕) is significantly smaller than Earth. Very small planets like "
        ++ "Mars (");
   Num 0.53 ".2f";
   Lit (" R⊕) struggle to retain atmospheres due to low gravity and lack of "
        ++ "magnetic field. Habitability is possible but challenging.") ].

Definition explanation_l103 (radius : R) : Text :=
  [Lit "Planet radius (";
   Num radius ".2f";
   Lit (" R⊕) suggests a Mars-to-Earth sized world. Atmospheric retention is "
        ++ "possible but surface gravity and geological activity may be reduced "
        ++ "compared to Earth.") ].

Definition explanation_l110 (radius : R) : Text :=
  [Lit "Planet radius (";
   Num radius ".2f";
   Lit (" R⊕) is Earth-like. This is the optimal size range for rocky "
        ++ "composition with substantial atmosphere. Earth (1.0 R⊕) is our only "
        ++ "confirmed habitable example.") ].

Definition explanation_l117 (radius : R) : Text :=
  [Lit "Planet radius (";
   Num radius ".2f";
   Lit (" R⊕) indicates a super-Earth. Planets below the Fulton gap (~1.75 "
        ++ "R⊕) are likely rocky with potentially thicker atmospheres. Higher "
        ++ "surface gravity may affect life evolution but not necessarily "
        ++ "habitability.") ].

Definition explanation_l125 (radius : R) : Text :=
  [Lit "Planet radius (";
   Num radius ".2f";
   Lit (" R⊕) is in the sub-Neptune regime, above the Fulton radius gap. "
        ++ "These planets likely have significant H/He envelopes. Traditional "
        ++ "surface habitability is unlikely, though exotic scenarios "
        ++ "(subsurface oceans) are possible.") ].

Definition explanation_l133 (radius : R) : Text :=
  [Lit "Planet radius (";
   Num radius ".2f";
   Lit (" R⊕) indicates a Neptune-like world. These are ice giants with deep "
        ++ "gaseous envelopes. No solid surface exists for traditional "
        ++ "habitability, though moons could be habitable.") ].

Definition explanation_l140 (radius : R) : Text :=
  [Lit "Planet radius (";
   Num radius ".2f";
   Lit " R⊕) indicates a gas giant similar to Jupiter (";
   Num 11.2 ".1f";
   Lit " R⊕) or Saturn (";
   Num 9.4 ".1f";
   Lit (" R⊕). No solid surface exists. Any habitability would be limited to "
        ++ "moons, not the planet itself.") ].

Definition evaluate (exoplanet : ExoplanetEntity.t) (star : StarEntity.t)
  : Py.Outcome FactorResult.t :=
  match PhysicalParameters.radius_earth (ExoplanetEntity.physical exoplanet) with
  | None => Py.Returned (_create_missing_data_result "planet_radius_earth")
  | Some radius =>
      let planet_type :=
        PhysicalParameters.classify_planet_type (ExoplanetEntity.physical exoplanet) in
      let '(score, explanation) :=
        if radius <? 0.5 then (0.3, explanation_l95 radius)
        else if radius <? 0.8 then (0.6, explanation_l103 radius)
        else if radius <? 1.25 then (1.0, explanation_l110 radius)
        else if radius <? 1.75 then (0.85, explanation_l117 radius)
        else if radius <? 2.5 then (0.4, explanation_l125 radius)
        else if radius <? 4.0 then (0.15, explanation_l133 radius)
        else (0.05, explanation_l140 radius) in
      Py.Returned (FactorResult.init factor_id score
        (Some [Num radius ".2f"]) (Some "Earth radii (R⊕)")
        (Some (text "0.8 - 1.6 R⊕")) explanation ConfidenceLevel.HIGH [] true None)
  end.

Definition factor : ScoringFactor.t :=
  ScoringFactor.mk factor_id factor_name category description references evaluate.

End PlanetRadiusFactor.

Module PlanetMassFactor.

Definition factor_id : string := "planet_mass".

Definition factor_name : string := "Planet Mass".

Definition category : FactorCategory.t := FactorCategory.PLANETARY.

Definition description : string :=
  "Evaluates planet mass for atmosphere retention capability, "
  ++ "geological activity potential, and likelihood of rocky composition.".

Definition references : list string :=
  [ "Lopez & Fortney (2014) ApJ 792:1 - Mass-radius relations";
    "Dorn et al. (2017) A&A 597:A37 - Interior structure" ].

(** The inherited [self._create_missing_data_result]. *)
Definition _create_missing_data_result (missing_field : string) : FactorResult.t :=
  BaseScoringFactor._create_missing_data_result factor_id missing_field.

Definition explanation_l214 (mass : R) : Text :=
  [Lit "Planet mass (";
   Num mass ".2f";
   Lit (" M⊕) is very low, similar to Mars (0.11 M⊕). Such low mass results "
        ++ "in weak gravity, making long-term atmospheric retention extremely "
        ++ "difficult without a strong magnetic field.") ].

Definition explanation_l221 (mass : R) : Text :=
  [Lit "Planet mass (";
   Num mass ".2f";
   Lit (" M⊕) is sub-Earth. Atmospheric retention is challenging but "
        ++ "possible. Reduced geological activity may limit carbon cycling and "
        ++ "magnetic dynamo generation.") ].

Definition explanation_l228 (mass : R) : Text :=
  [Lit "Planet mass (";
   Num mass ".2f";
   Lit (" M⊕) is Earth-like. This is optimal for rocky composition with "
        ++ "sufficient gravity for atmospheric retention and likely active "
        ++ "geology supporting a carbon cycle.") ].

Definition explanation_l235 (mass : R) : Text :=
  [Lit "Planet mass (";
   Num mass ".2f";
   Lit (" M⊕) indicates a super-Earth. Rocky composition is still likely. "
        ++ "Higher surface gravity may affect life evolution but enhances "
        ++ "atmospheric retention.") ].

Definition explanation_l242 (mass : R) : Text :=
  [Lit "Planet mass (";
   Num mass ".2f";
   Lit (" M⊕) is at the upper limit for rocky planets. May have accreted a "
        ++ "significant volatile envelope during formation. Composition "
        ++ "uncertain without density measurement.") ].

Definition explanation_l249 (mass : R) : Text :=
  [Lit "Planet mass (";
   Num mass ".2f";
   Lit (" M⊕) strongly suggests a mini-Neptune or larger. Neptune is 17 M⊕. "
        ++ "Such massive planets almost certainly have thick gaseous envelopes "
        ++ "with no accessible solid surface.") ].

Definition evaluate (exoplanet : ExoplanetEntity.t) (star : StarEntity.t)
  : Py.Outcome FactorResult.t :=
  match PhysicalParameters.mass_earth (ExoplanetEntity.physical exoplanet) with
  | None => Py.Returned (_create_missing_data_result "planet_mass_earth")
  | Some mass =>
      let '(score, explanation) :=
        if mass <? 0.1 then (0.15, explanation_l214 mass)
        else if mass <? 0.5 then (0.4, explanation_l221 mass)
        else if mass <? 2.0 then (1.0, explanation_l228 mass)
        else if mass <? 5.0 then (0.8, explanation_l235 mass)
        else if mass <? 10.0 then (0.4, explanation_l242 mass)
        else (0.1, explanation_l249 mass) in
      Py.Returned (FactorResult.init factor_id score
        (Some [Num mass ".2f"]) (Some "Earth masses (M⊕)")
        (Some (text "0.5 - 5.0 M⊕")) explanation ConfidenceLevel.HIGH [] true None)
  end.

Definition factor : ScoringFactor.t :=
  ScoringFactor.mk factor_id factor_name category description references evaluate.

End PlanetMassFactor.

Module PlanetDensityFactor.

Definition factor_id : string := "planet_density".

Definition factor_name : string := "Planet Bulk Density".

Definition category : FactorCategory.t := FactorCategory.PLANETARY.

Definition description : string :=
  "Infers planetary composition from bulk density. Rocky planets have "
  ++ "densities >3 g/cm³, while gas-rich planets are less dense.".

Definition references : list string :=
  [ "Zeng et al. (2016) ApJ 819:127 - Mass-radius-composition";
    "Fortney et al. (2007) ApJ 659:1661 - Planetary structure" ].

(** The inherited [self._create_missing_data_result]. *)
Definition _create_missing_data_result (missing_field : string) : FactorResult.t :=
  BaseScoringFactor._create_missing_data_result factor_id missing_field.

Definition explanation_l323 (density : R) : Text :=
  [Lit "Bulk density (";
   Num density ".2f";
   Lit (" g/cm³) is very low, indicating a gas-dominated composition. For "
        ++ "reference, Saturn's density is 0.69 g/cm³. No solid surface likely "
        ++ "exists.") ].

Definition explanation_l330 (density : R) : Text :=
  [Lit "Bulk density (";
   Num density ".2f";
   Lit (" g/cm³) suggests significant volatile content. May be a water world "
        ++ "or have a thick H/He atmosphere. Neptune's density is 1.64 g/cm³.") ].

Definition explanation_l337 (density : R) : Text :=
  [Lit "Bulk density (";
   Num density ".2f";
   Lit (" g/cm³) indicates an ice-rock mixture or low-iron rocky "
        ++ "composition. Could be a water world with a deep ocean. Mars density "
        ++ "is 3.93 g/cm³.") ].

Definition explanation_l344 (density : R) : Text :=
  [Lit "Bulk density (";
   Num density ".2f";
   Lit (" g/cm³) suggests rocky composition similar to Mars (3.93 g/cm³). "
        ++ "Iron core may be smaller than Earth's. Suitable for surface "
        ++ "habitability.") ].

Definition explanation_l351 (density : R) : Text :=
  [Lit "Bulk density (";
   Num density ".2f";
   Lit (" g/cm³) is Earth-like (5.51 g/cm³). This indicates rocky "
        ++ "composition with an iron-nickel core. Optimal for habitability with "
        ++ "a solid surface.") ].

Definition explanation_l358 (density : R) : Text :=
  [Lit "Bulk density (";
   Num density ".2f";
   Lit (" g/cm³) is higher than Earth, suggesting an iron-rich composition "
        ++ "(Mercury: 5.43 g/cm³). Rocky with possible large metallic core. "
        ++ "Surface habitability possible.") ].

Definition evaluate (exoplanet : ExoplanetEntity.t) (star : StarEntity.t)
  : Py.Outcome FactorResult.t :=
  density <- PhysicalParameters.estimate_density (ExoplanetEntity.physical exoplanet) ;;
  match density with
  | None => Py.Returned (_create_missing_data_result "planet_density")
  | Some density =>
      let '(score, explanation) :=
        if density <? 1.0 then (0.05, explanation_l323 density)
        else if density <? 2.0 then (0.2, explanation_l330 density)
        else if density <? 3.5 then (0.5, explanation_l337 density)
        else if density <? 5.0 then (0.85, explanation_l344 density)
        else if density <? 6.5 then (1.0, explanation_l351 density)
        else (0.7, explanation_l358 density) in
      Py.Returned (FactorResult.init factor_id score
        (Some [Num density ".2f"]) (Some "g/cm³")
        (Some (text "4.0 - 6.0 g/cm³")) explanation ConfidenceLevel.MEDIUM [] true None)
  end.

Definition factor : ScoringFactor.t :=
  ScoringFactor.mk factor_id factor_name category description references evaluate.

End PlanetDensityFactor.

Module EquilibriumTemperatureFactor.

Definition factor_id : string := "equilibrium_temperature".

Definition factor_name : string := "Equilibrium Temperature".

Definition category : FactorCategory.t := FactorCategory.PLANETARY.

Definition description : string :=
  "Assesses the planet's temperature without atmospheric effects. "
  ++ "Actual surface temperature depends on atmosphere composition. "
  ++ "Optimal range allows liquid water with Earth-like atmosphere.".

Definition references : list string :=
  [ "Kasting et al. (1993) Icarus 101:108-128";
    "Kopparapu et al. (2013) ApJ 765:131" ].

(** The inherited [self._create_missing_data_result]. *)
Definition _create_missing_data_result (missing_field : string) : FactorResult.t :=
  BaseScoringFactor._create_missing_data_result factor_id missing_field.

Definition explanation_l434 (temp : R) : Text :=
  [Lit "Equilibrium temperature (";
   Num temp ".0f";
   Lit (" K) is extremely cold. Surface water would be permanently frozen. "
        ++ "Even with strong greenhouse effects, liquid water at the surface is "
        ++ "unlikely. Subsurface oceans might exist (like Europa at ~100 K).") ].

Definition explanation_l442 (temp : R) : Text :=
  [Lit "Equilibrium temperature (";
   Num temp ".0f";
   Lit (" K) is very cold. A very thick CO₂ atmosphere would be needed for "
        ++ "liquid water. This is colder than early Mars scenarios.") ].

Definition explanation_l449 (temp : R) : Text :=
  [Lit "Equilibrium temperature (";
   Num temp ".0f";
   Lit (" K) is at the outer edge of habitability. With a CO₂-rich "
        ++ "atmosphere providing strong greenhouse warming, liquid water could "
        ++ "potentially exist.") ].

Definition explanation_l456 (temp : R) : Text :=
  [Lit "Equilibrium temperature (";
   Num temp ".0f";
   Lit (" K) is in the optimal range. Earth's T_eq is ~255 K, with "
        ++ "greenhouse warming raising actual surface temperature to ~288 K. "
        ++ "Similar conditions expected.") ].

Definition explanation_l463 (temp : R) : Text :=
  [Lit "Equilibrium temperature (";
   Num temp ".0f";
   Lit (" K) is excellent for habitability. With an Earth-like atmosphere, "
        ++ "surface temperatures would support liquid water across much of the "
        ++ "planet.") ].

Definition explanation_l470 (temp : R) : Text :=
  [Lit "Equilibrium temperature (";
   Num temp ".0f";
   Lit (" K) is warm. Liquid water possible with a thin atmosphere or high "
        ++ "albedo clouds, but risk of runaway greenhouse effect exists.") ].

Definition explanation_l477 (temp : R) : Text :=
  [Lit "Equilibrium temperature (";
   Num temp ".0f";
   Lit (" K) is hot. Surface conditions would be harsh. Venus (T_eq ~230 K) "
        ++ "has surface temp of 737 K due to runaway greenhouse. Habitability "
        ++ "very unlikely.") ].

Definition explanation_l484 (temp : R) : Text :=
  [Lit "Equilibrium temperature (";
   Num temp ".0f";
   Lit (" K) is extremely hot. This planet likely has molten surface or is a "
        ++ "'lava world'. No possibility of liquid water at the surface.") ].

Definition evaluate (exoplanet : ExoplanetEntity.t) (star : StarEntity.t)
  : Py.Outcome FactorResult.t :=
  match PhysicalParameters.equilibrium_temp_k (ExoplanetEntity.physical exoplanet) with
  | None => Py.Returned (_create_missing_data_result "equilibrium_temp_k")
  | Some temp =>
      let '(score, explanation) :=
        if temp <? 150 then (0.05, explanation_l434 temp)
        else if temp <? 200 then (0.3, explanation_l442 temp)
        else if temp <? 230 then (0.6, explanation_l449 temp)
        else if temp <? 260 then (0.9, explanation_l456 temp)
        else if temp <? 300 then (1.0, explanation_l463 temp)
        else if temp <? 350 then (0.6, explanation_l470 temp)
        else if temp <? 450 then (0.2, explanation_l477 temp)
        else (0.02, explanation_l484 temp) in
      Py.Returned (FactorResult.init factor_id score
        (Some [Num temp ".0f"]) (Some "Kelvin")
        (Some (text "230 - 300 K")) explanation ConfidenceLevel.MEDIUM [] true None)
  end.

Definition factor : ScoringFactor.t :=
  ScoringFactor.mk factor_id factor_name category description references evaluate.

End EquilibriumTemperatureFactor.

Module SurfaceGravityFactor.

Definition factor_id : string := "surface_gravity".

Definition factor_name : string := "Surface Gravity".

Definition category : FactorCategory.t := FactorCategory.PLANETARY.

Definition description : string :=
  "Assesses surface gravity for atmospheric retention and biological "
  ++ "compatibility. Moderate gravity (0.5-2.5 g) is considered optimal.".

Definition references : list string :=
  [ ("Heller & Armstrong (2014) Astrobiology 14:50-66 - Superhabitable " ++ "worlds") ].

(** The inherited [self._create_missing_data_result]. *)
Definition _create_missing_data_result (missing_field : string) : FactorResult.t :=
  BaseScoringFactor._create_missing_data_result factor_id missing_field.

Definition explanation_l555 (gravity : R) : Text :=
  [Lit "Surface gravity (";
   Num gravity ".2f";
   Lit (" g) is very low. Atmospheric retention would be difficult. Mars "
        ++ "(0.38 g) has lost most of its atmosphere. Life could exist but face "
        ++ "significant challenges.") ].

Definition explanation_l562 (gravity : R) : Text :=
  [Lit "Surface gravity (";
   Num gravity ".2f";
   Lit (" g) is below Earth's but potentially habitable. Atmosphere may be "
        ++ "thinner and more easily lost to space. Life would need to adapt to "
        ++ "lower gravity.") ].

Definition explanation_l569 (gravity : R) : Text :=
  [Lit "Surface gravity (";
   Num gravity ".2f";
   Lit (" g) is Earth-like. This is optimal for atmospheric retention and "
        ++ "compatible with Earth-like biology. Geological processes would be "
        ++ "similar to Earth.") ].

Definition explanation_l576 (gravity : R) : Text :=
  [Lit "Surface gravity (";
   Num gravity ".2f";
   Lit (" g) is elevated but potentially habitable. Stronger atmospheric "
        ++ "retention but biological organisms would need adaptations. Flight "
        ++ "would be more difficult.") ].

Definition explanation_l583 (gravity : R) : Text :=
  [Lit "Surface gravity (";
   Num gravity ".2f";
   Lit (" g) is very high. While atmospheric retention is excellent, extreme "
        ++ "gravity poses challenges for biological structures. Complex life "
        ++ "may struggle.") ].

Definition explanation_l590 (gravity : R) : Text :=
  [Lit "Surface gravity (";
   Num gravity ".2f";
   Lit (" g) is extreme. Even with solid surface (if any), such high gravity "
        ++ "would severely limit biological evolution and may indicate a very "
        ++ "dense composition.") ].

Definition evaluate (exoplanet : ExoplanetEntity.t) (star : StarEntity.t)
  : Py.Outcome FactorResult.t :=
  gravity <- PhysicalParameters.surface_gravity_earth (ExoplanetEntity.physical exoplanet) ;;
  match gravity with
  | None => Py.Returned (_create_missing_data_result "surface_gravity")
  | Some gravity =>
      let '(score, explanation) :=
        if gravity <? 0.3 then (0.3, explanation_l555 gravity)
        else if gravity <? 0.7 then (0.6, explanation_l562 gravity)
        else if gravity <? 1.5 then (1.0, explanation_l569 gravity)
        else if gravity <? 2.5 then (0.7, explanation_l576 gravity)
        else if gravity <? 4.0 then (0.3, explanation_l583 gravity)
        else (0.1, explanation_l590 gravity) in
      Py.Returned (FactorResult.init factor_id score
        (Some [Num gravity ".2f"]) (Some "g (Earth = 1.0)")
        (Some (text "0.7 - 1.5 g")) explanation ConfidenceLevel.MEDIUM [] true None)
  end.

Definition factor : ScoringFactor.t :=
  ScoringFactor.mk factor_id factor_name category description references evaluate.

End SurfaceGravityFactor.

(** ** Orbital factors: [app/domain/scoring/factors/orbital.py] *)

Module OrbitalEccentricityFactor.

Definition factor_id : string := "orbital_eccentricity".

Definition factor_name : string := "Orbital Eccentricity".

Definition category : FactorCategory.t := FactorCategory.ORBITAL.

Definition description : string :=
  "Assesses orbital shape for climate stability. Circular orbits "
  ++ "provide stable temperatures; eccentric orbits cause extreme seasons.".

Definition references : list string :=
  [ "Williams & Pollard (2002) IJAstrobiology 1:61-69";
    "Barnes et al. (2008) Astrobiology 8:557-568";
    "Dressing et al. (2010) ApJ 721:1295-1307" ].

(** The inherited [self._create_missing_data_result]. *)
Definition _create_missing_data_result (missing_field : string) : FactorResult.t :=
  BaseScoringFactor._create_missing_data_result factor_id missing_field.

Definition explanation_l98 (ecc : R) (flux_ratio : pyfloat) : Text :=
  [Lit "Orbital eccentricity (";
   Num ecc ".3f";
   Lit (") is nearly circular. Earth's eccentricity is 0.017. Climate would "
        ++ "be very stable with minimal temperature variation from orbital "
        ++ "position. Stellar flux varies by only ~");
   Num (pyfloat_lift (fun x => (x - 1) * 100) flux_ratio) ".1f";
   Lit "%." ].

Definition explanation_l106 (ecc : R) (flux_ratio : pyfloat) : Text :=
  [Lit "Orbital eccentricity (";
   Num ecc ".3f";
   Lit (") is low. Mars (e=0.093) shows how this can cause notable but "
        ++ "manageable seasonal variation. Climate would remain stable enough "
        ++ "for habitability. Stellar flux varies by ~");
   Num (pyfloat_lift (fun x => (x - 1) * 100) flux_ratio) ".1f";
   Lit "%." ].

Definition explanation_l114 (ecc : R) (flux_ratio : pyfloat) : Text :=
  [Lit "Orbital eccentricity (";
   Num ecc ".3f";
   Lit (") is moderate, similar to Mercury (e=0.206). Significant seasonal "
        ++ "temperature swings would occur. Climate regulation mechanisms would "
        ++ "be stressed. Stellar flux varies by ~");
   Num (pyfloat_lift (fun x => (x - 1) * 100) flux_ratio) ".0f";
   Lit "%." ].

Definition explanation_l122 (ecc : R) (flux_ratio : pyfloat) : Text :=
  [Lit "Orbital eccentricity (";
   Num ecc ".3f";
   Lit (") is high. Temperature difference between closest approach "
        ++ "(perihelion) and farthest point (aphelion) would be extreme. "
        ++ "Climate may be habitable on average but challenging. Stellar flux "
        ++ "varies by ~");
   Num (pyfloat_lift (fun x => (x - 1) * 100) flux_ratio) ".0f";
   Lit "%." ].

Definition explanation_l130 (ecc : R) (flux_ratio : pyfloat) : Text :=
  [Lit "Orbital eccentricity (";
   Num ecc ".3f";
   Lit (") is very high. The planet may leave the habitable zone for "
        ++ "portions of its orbit, experiencing freeze-thaw cycles. Long-term "
        ++ "surface habitability is doubtful. Stellar flux varies by ~");
   Num (pyfloat_lift (fun x => (x - 1) * 100) flux_ratio) ".0f";
   Lit "%." ].

Definition explanation_l138 (ecc : R) (flux_ratio : pyfloat) : Text :=
  [Lit "Orbital eccentricity (";
   Num ecc ".3f";
   Lit (") is extreme. Such highly elliptical orbits cause massive "
        ++ "temperature swings. The planet alternates between scorching "
        ++ "perihelion and frozen aphelion passages. Stellar flux varies by ~");
   Num (pyfloat_lift (fun x => (x - 1) * 100) flux_ratio) ".0f";
   Lit "%." ].

Definition explanation_l146 (ecc : R) : Text :=
  [Lit "Orbital eccentricity (";
   Num ecc ".3f";
   Lit (") is near-parabolic. This orbit is more like a comet than a planet. "
        ++ "No stable climate is possible. Surface conditions would be "
        ++ "catastrophically variable.") ].

Definition evaluate (exoplanet : ExoplanetEntity.t) (star : StarEntity.t)
  : Py.Outcome FactorResult.t :=
  match OrbitalParameters.eccentricity (ExoplanetEntity.orbital exoplanet) with
  | None => Py.Returned (_create_missing_data_result "orbital_eccentricity")
  | Some ecc =>
      flux_ratio <- (if ecc <? 1.0 then
                       q <- Py.div (1 + ecc) (1 - ecc) ;;
                       Py.Returned (Fin (q ^ 2))
                     else Py.Returned PInf) ;;
      let '(score, explanation) :=
        if ecc <? 0.02 then (1.0, explanation_l98 ecc flux_ratio)
        else if ecc <? 0.1 then (0.9, explanation_l106 ecc flux_ratio)
        else if ecc <? 0.2 then (0.7, explanation_l114 ecc flux_ratio)
        else if ecc <? 0.3 then (0.5, explanation_l122 ecc flux_ratio)
        else if ecc <? 0.5 then (0.25, explanation_l130 ecc flux_ratio)
        else if ecc <? 0.8 then (0.1, explanation_l138 ecc flux_ratio)
        else (0.02, explanation_l146 ecc) in
      Py.Returned (FactorResult.init factor_id score
        (Some [Num ecc ".3f"]) (Some "dimensionless (0=circle, 1=parabola)")
        (Some (text "0.0 - 0.1")) explanation ConfidenceLevel.HIGH [] true None)
  end.

Definition factor : ScoringFactor.t :=
  ScoringFactor.mk factor_id factor_name category description references evaluate.

End OrbitalEccentricityFactor.

Module TidalLockingFactor.

Definition factor_id : string := "tidal_locking".

Definition factor_name : string := "Tidal Locking Potential".

Definition category : FactorCategory.t := FactorCategory.ORBITAL.

Definition description : string :=
  "Estimates likelihood of tidal locking based on orbital distance and "
  ++ "stellar type. Tidally locked planets may still be habitable if "
  ++ "atmospheric heat redistribution is efficient.".

Definition references : list string :=
  [ "Barnes (2017) Celestial Mechanics 129:509-536";
    "Leconte et al. (2015) Science 347:632-635";
    "Pierrehumbert & Hammond (2019) Annual Reviews" ].

(** The inherited [self._create_missing_data_result]. *)
Definition _create_missing_data_result (missing_field : string) : FactorResult.t :=
  BaseScoringFactor._create_missing_data_result factor_id missing_field.

Definition lock_explanation_l260 (teff : R) (a : R) : Text :=
  [Lit "M dwarf host star (T_eff ~";
   Num teff ".0f";
   Lit " K) with planet at ";
   Num a ".3f";
   Lit " AU. M dwarf habitable zones are close-in, promoting tidal locking." ].

Definition lock_explanation_l273 (teff : R) (a : R) : Text :=
  [Lit "K dwarf host star (T_eff ~";
   Num teff ".0f";
   Lit " K) with planet at ";
   Num a ".3f";
   Lit " AU. Moderate tidal locking risk for close-in orbits." ].

Definition lock_explanation_l284 (teff : R) (a : R) : Text :=
  [Lit "G dwarf host star (T_eff ~";
   Num teff ".0f";
   Lit " K) like our Sun, with planet at ";
   Num a ".3f";
   Lit " AU. Tidal locking unlikely in habitable zone." ].

Definition lock_explanation_l290 (teff : R) (a : R) : Text :=
  [Lit "Hot star (T_eff ~";
   Num teff ".0f";
   Lit (" K) with distant habitable zone. Tidal locking extremely unlikely "
        ++ "at ");
   Num a ".3f";
   Lit " AU." ].

Definition lock_explanation_l297 (a : R) : Text :=
  [Lit "Planet at ";
   Num a ".3f";
   Lit " AU (stellar properties unknown)." ].

Definition lock_explanation_l309 (orbital_period : R) : Text :=
  [Lit "Orbital period of ";
   Num orbital_period ".1f";
   Lit " days. Shorter periods correlate with higher locking probability." ].

Definition status_l320 : Text :=
  [Lit "Tidal locking very unlikely." ].

Definition habitability_note_l321 : Text :=
  [Lit ("Planet likely rotates freely, distributing heat like Earth. "
        ++ "Day-night cycles support diverse ecosystems.") ].

Definition status_l327 : Text :=
  [Lit "Tidal locking unlikely." ].

Definition habitability_note_l328 : Text :=
  [Lit ("Some tidal evolution may slow rotation, but full synchronization is "
        ++ "improbable over typical planetary lifetimes.") ].

Definition status_l334 : Text :=
  [Lit "Tidal locking possible." ].

Definition habitability_note_l335 : Text :=
  [Lit ("Planet may be in a spin-orbit resonance (like Mercury's 3:2) or "
        ++ "slowly rotating. Climate effects would be intermediate.") ].

Definition status_l341 : Text :=
  [Lit "Tidal locking likely." ].

Definition habitability_note_l342 : Text :=
  [Lit ("Synchronous rotation expected. Habitability depends on atmospheric "
        ++ "heat transport. Terminator region may support life.") ].

Definition status_l348 : Text :=
  [Lit "Tidal locking very likely." ].

Definition habitability_note_l349 : Text :=
  [Lit ("Planet almost certainly tidally locked. Models show thick "
        ++ "atmospheres can redistribute heat, maintaining surface habitability.") ].

Definition status_l355 : Text :=
  [Lit "Tidal locking essentially certain." ].

Definition habitability_note_l356 : Text :=
  [Lit ("Permanent day and night hemispheres. The terminator zone provides a "
        ++ "ring of potentially habitable temperatures. Atmospheric dynamics "
        ++ "are critical for overall habitability.") ].

(** The estimate of the locking probability and its explanation; [0.0] and
    the empty text are the initial values of the two variables. *)
Definition estimate_lock (orbital_period semi_major_axis teff : option R) : R * Text :=
  match semi_major_axis with
  | Some a =>
      match teff with
      | Some teff =>
          if teff <? 3700 then
            ((if a <? 0.05 then 0.99
              else if a <? 0.1 then 0.95
              else if a <? 0.2 then 0.7
              else if a <? 0.5 then 0.3
              else 0.05), lock_explanation_l260 teff a)
          else if teff <? 5200 then
            ((if a <? 0.1 then 0.8
              else if a <? 0.3 then 0.4
              else if a <? 0.5 then 0.1
              else 0.02), lock_explanation_l273 teff a)
          else if teff <? 6000 then
            ((if a <? 0.1 then 0.5
              else if a <? 0.3 then 0.1
              else 0.01), lock_explanation_l284 teff a)
          else (0.01, lock_explanation_l290 teff a)
      | None => (Py.max 0 (1 - (a / 0.3)), lock_explanation_l297 a)
      end
  | None =>
      match orbital_period with
      | Some orbital_period =>
          ((if orbital_period <? 10 then 0.9
            else if orbital_period <? 30 then 0.5
            else if orbital_period <? 100 then 0.2
            else 0.05), lock_explanation_l309 orbital_period)
      | None => (0.0, [])
      end
  end.

Definition evaluate (exoplanet : ExoplanetEntity.t) (star : StarEntity.t)
  : Py.Outcome FactorResult.t :=
  let orbital_period := OrbitalParameters.period_days (ExoplanetEntity.orbital exoplanet) in
  let semi_major_axis := OrbitalParameters.semi_major_axis_au (ExoplanetEntity.orbital exoplanet) in
  match orbital_period, semi_major_axis with
  | None, None =>
      Py.Returned (_create_missing_data_result "orbital_period or semi_major_axis")
  | _, _ =>
      let spectral := StarEntity.spectral_class star in
      let teff := StarEntity.temperature_k star in
      let '(lock_probability, lock_explanation) :=
        estimate_lock orbital_period semi_major_axis teff in
      let '(score, status, habitability_note) :=
        if lock_probability <? 0.1 then (1.0, status_l320, habitability_note_l321)
        else if lock_probability <? 0.3 then (0.9, status_l327, habitability_note_l328)
        else if lock_probability <? 0.5 then (0.7, status_l334, habitability_note_l335)
        else if lock_probability <? 0.7 then (0.6, status_l341, habitability_note_l342)
        else if lock_probability <? 0.9 then (0.5, status_l348, habitability_note_l349)
        else (0.4, status_l355, habitability_note_l356) in
      let full_explanation :=
        (lock_explanation ++ [Lit " "] ++ status ++ [Lit " "] ++ habitability_note)%list in
      Py.Returned (FactorResult.init factor_id score
        (Some [Num lock_probability ".0%"]) (Some "estimated probability")
        (Some (text "<30% probability (free rotation preferred)"))
        full_explanation ConfidenceLevel.LOW [] true None)
  end.

Definition factor : ScoringFactor.t :=
  ScoringFactor.mk factor_id factor_name category description references evaluate.

End TidalLockingFactor.

(** ** Derived factors: [app/domain/scoring/factors/derived.py] *)

Module AtmosphereRetentionFactor.

Definition factor_id : string := "atmosphere_retention".

Definition factor_name : string := "Atmosphere Retention Potential".

Definition category : FactorCategory.t := FactorCategory.DERIVED.

Definition description : string :=
  "Estimates the planet's ability to retain a substantial atmosphere "
  ++ "based on escape velocity, stellar environment, and composition.".

Definition references : list string :=
  [ "Tian et al. (2015) Space Science Reviews 194:97-140";
    "Johnstone et al. (2019) A&A 624:L10";
    "Owen & Wu (2017) ApJ 847:29 - Photoevaporation" ].

(** The inherited [self._create_missing_data_result]. *)
Definition _create_missing_data_result (missing_field : string) : FactorResult.t :=
  BaseScoringFactor._create_missing_data_result factor_id missing_field.

Definition activity_note_l133 : Text :=
  [Lit ("M dwarf host has intense UV/X-ray activity and stellar wind, "
        ++ "significantly increasing atmospheric loss rates.") ].

Definition activity_note_l139 : Text :=
  [Lit "Late K dwarf host has moderately elevated activity compared to Sun." ].

Definition activity_note_l143 : Text :=
  [Lit "Sun-like or hotter star has moderate stellar activity." ].

Definition activity_note_l148 (stellar_age : R) : Text :=
  [Lit " Young star age (";
   Num stellar_age ".2f";
   Lit " Gyr) indicates higher activity." ].

Definition escape_note_l153 (escape_vel_kms : R) : Text :=
  [Lit "Very low escape velocity (";
   Num escape_vel_kms ".1f";
   Lit (" km/s, vs Earth's 11.2 km/s). Even heavy molecules like CO₂ will "
        ++ "escape on geologic timescales.") ].

Definition escape_note_l159 (escape_vel_kms : R) : Text :=
  [Lit "Low escape velocity (";
   Num escape_vel_kms ".1f";
   Lit (" km/s), similar to Mars (5.0 km/s). Light gases (H₂, He) escape "
        ++ "rapidly; heavier gases slowly leak.") ].

Definition escape_note_l165 (escape_vel_kms : R) : Text :=
  [Lit "Moderate escape velocity (";
   Num escape_vel_kms ".1f";
   Lit (" km/s). Can retain N₂, O₂, CO₂ atmospheres but susceptible to loss "
        ++ "over billions of years.") ].

Definition escape_note_l171 (escape_vel_kms : R) : Text :=
  [Lit "Earth-like escape velocity (";
   Num escape_vel_kms ".1f";
   Lit " km/s). Excellent retention of all but lightest gases (H₂, He)." ].

Definition escape_note_l177 (escape_vel_kms : R) : Text :=
  [Lit "High escape velocity (";
   Num escape_vel_kms ".1f";
   Lit (" km/s). Excellent atmospheric retention, even for hydrogen-rich "
        ++ "atmospheres.") ].

Definition escape_note_l183 (escape_vel_kms : R) : Text :=
  [Lit "Very high escape velocity (";
   Num escape_vel_kms ".1f";
   Lit (" km/s). May retain primordial H/He envelope, suggesting gas-rich "
        ++ "composition.") ].

(** [escape_vel_ratio]: [math.sqrt(M / R)], with the missing one of the two
    estimated from the other by a power law. *)
Definition escape_vel_ratio (mass radius : option R) : Py.Outcome R :=
  match mass, radius with
  | Some mass, Some radius =>
      q <- Py.div mass radius ;; Py.sqrt q
  | Some mass, None =>
      let est_radius := Py.pow_frac mass 0.27 in
      q <- Py.div_num (Py.Float mass) est_radius ;; Py.sqrt_num q
  | None, Some radius =>
      let est_mass := Py.pow_frac radius 3.7 in
      q <- Py.div_num est_mass (Py.Float radius) ;; Py.sqrt_num q
  | None, None => Py.Returned 0
  end.

Definition evaluate (exoplanet : ExoplanetEntity.t) (star : StarEntity.t)
  : Py.Outcome FactorResult.t :=
  let mass := PhysicalParameters.mass_earth (ExoplanetEntity.physical exoplanet) in
  let radius := PhysicalParameters.radius_earth (ExoplanetEntity.physical exoplanet) in
  match mass, radius with
  | None, None =>
      Py.Returned (_create_missing_data_result "planet_mass or planet_radius")
  | _, _ =>
      escape_vel_ratio <- escape_vel_ratio mass radius ;;
      let escape_vel_kms := 11.2 * escape_vel_ratio in
      let stellar_teff := Py.or_else (StarEntity.temperature_k star) 5778 in
      let stellar_age := StarEntity.age_gyr star in
      let '(stellar_activity_penalty, activity_note) :=
        if stellar_teff <? 3700 then (0.2, activity_note_l133)
        else if stellar_teff <? 4500 then (0.1, activity_note_l139)
        else (0.0, activity_note_l143) in
      let '(stellar_activity_penalty, activity_note) :=
        match stellar_age with
        | Some stellar_age =>
            if stellar_age <? 1.0
            then (stellar_activity_penalty + 0.15,
                  (activity_note ++ activity_note_l148 stellar_age)%list)
            else (stellar_activity_penalty, activity_note)
        | None => (stellar_activity_penalty, activity_note)
        end in
      let '(base_score, escape_note) :=
        if escape_vel_kms <? 3.0 then (0.1, escape_note_l153 escape_vel_kms)
        else if escape_vel_kms <? 5.0 then (0.3, escape_note_l159 escape_vel_kms)
        else if escape_vel_kms <? 8.0 then (0.6, escape_note_l165 escape_vel_kms)
        else if escape_vel_kms <? 12.0 then (0.85, escape_note_l171 escape_vel_kms)
        else if escape_vel_kms <? 20.0 then (0.95, escape_note_l177 escape_vel_kms)
        else (0.8, escape_note_l183 escape_vel_kms) in
      let score := Py.max 0.05 (base_score - stellar_activity_penalty) in
      let full_explanation := (escape_note ++ [Lit " "] ++ activity_note)%list in
      Py.Returned (FactorResult.init factor_id score
        (Some [Num escape_vel_kms ".1f"]) (Some "km/s (escape velocity)")
        (Some (text "8 - 15 km/s (Earth: 11.2 km/s)"))
        full_explanation ConfidenceLevel.MEDIUM [] true None)
  end.

Definition factor : ScoringFactor.t :=
  ScoringFactor.mk factor_id factor_name category description references evaluate.

End AtmosphereRetentionFactor.

Module MagneticFieldPotentialFactor.

Definition factor_id : string := "magnetic_field".

Definition factor_name : string := "Magnetic Field Potential".

Definition category : FactorCategory.t := FactorCategory.DERIVED.

Definition description : string :=
  "Estimates the probability of a protective magnetic field based on "
  ++ "mass, density, and stellar age indicators.".

Definition references : list string :=
  [ "Driscoll & Bercovici (2014) Physics Earth Planet Int 236:36-51";
    "Zuluaga et al. (2013) ApJ 770:23";
    "Tarduno et al. (2020) PNAS - Importance of magnetic fields" ].

(** The inherited [self._create_missing_data_result]. *)
Definition _create_missing_data_result (missing_field : string) : FactorResult.t :=
  BaseScoringFactor._create_missing_data_result factor_id missing_field.

Definition factors_contributing_l281 (mass : R) : Text :=
  [Lit "Very low mass (";
   Num mass ".2f";
   Lit " M⊕) suggests small iron core, unlikely to remain molten" ].

Definition factors_contributing_l286 (mass : R) : Text :=
  [Lit "Sub-Earth mass (";
   Num mass ".2f";
   Lit " M⊕) may have cooled core like Mars" ].

Definition factors_contributing_l291 (mass : R) : Text :=
  [Lit "Earth-like mass (";
   Num mass ".2f";
   Lit " M⊕) supports convecting liquid core" ].

Definition factors_contributing_l296 (mass : R) : Text :=
  [Lit "Super-Earth mass (";
   Num mass ".2f";
   Lit " M⊕) likely has vigorous core convection" ].

Definition factors_contributing_l301 (mass : R) : Text :=
  [Lit "High mass (";
   Num mass ".2f";
   Lit (" M⊕) - if rocky, strong dynamo likely; if gas-rich, different "
        ++ "dynamics") ].

Definition factors_contributing_l309 (radius : R) : Text :=
  [Lit "Small radius (";
   Num radius ".2f";
   Lit " R⊕) suggests low mass" ].

Definition factors_contributing_l312 (radius : R) : Text :=
  [Lit "Earth-like radius (";
   Num radius ".2f";
   Lit " R⊕)" ].

Definition factors_contributing_l315 (radius : R) : Text :=
  [Lit "Larger radius (";
   Num radius ".2f";
   Lit " R⊕) - composition uncertain" ].

Definition factors_contributing_l323 (density : R) : Text :=
  [Lit "High density (";
   Num density ".1f";
   Lit " g/cm³) indicates substantial iron core" ].

Definition factors_contributing_l328 (density : R) : Text :=
  [Lit "Rocky density (";
   Num density ".1f";
   Lit " g/cm³) consistent with iron core" ].

Definition penalties_l333 (density : R) : Text :=
  [Lit "Low density (";
   Num density ".1f";
   Lit " g/cm³) suggests ice-rich or gas-rich composition" ].

Definition penalties_l346 (stellar_age : R) : Text :=
  [Lit "Old system (";
   Num stellar_age ".1f";
   Lit " Gyr) - core may have solidified" ].

Definition penalties_l351 (stellar_age : R) : Text :=
  [Lit "Mature system (";
   Num stellar_age ".1f";
   Lit " Gyr) - core cooling may be advanced" ].

Definition penalties_l357 (stellar_age : R) : Text :=
  [Lit "Very young system (";
   Num stellar_age ".1f";
   Lit " Gyr) - dynamo may still be establishing" ].

Definition tidal_note_l372 : Text :=
  [Lit ("Short orbital period around cool star suggests tidal locking. Slow "
        ++ "rotation may weaken dynamo, but tidal heating maintains core heat.") ].

Definition summary_l392 : Text :=
  [Lit "Magnetic field likely present, providing atmospheric protection." ].

Definition summary_l394 : Text :=
  [Lit ("Magnetic field possible but uncertain. Some atmospheric protection "
        ++ "expected.") ].

Definition summary_l396 : Text :=
  [Lit ("Magnetic field unlikely. Atmosphere more vulnerable to stellar wind "
        ++ "erosion.") ].

(** Base probability from the mass, or from the radius when the mass is
    absent, with the first entry of [factors_contributing]. *)
Definition mass_indicator (mass radius : option R) : R * list Text :=
  match mass with
  | Some mass =>
      if mass <? 0.2 then (0.2, [factors_contributing_l281 mass])
      else if mass <? 0.5 then (0.4, [factors_contributing_l286 mass])
      else if mass <? 1.5 then (0.8, [factors_contributing_l291 mass])
      else if mass <? 5.0 then (0.9, [factors_contributing_l296 mass])
      else (0.7, [factors_contributing_l301 mass])
  | None =>
      match radius with
      | Some radius =>
          if radius <? 0.7 then (0.3, [factors_contributing_l309 radius])
          else if radius <? 1.3 then (0.75, [factors_contributing_l312 radius])
          else (0.6, [factors_contributing_l315 radius])
      | None => (0.5, [])
      end
  end.

(** The density bonus, with what it appends to [factors_contributing] and to
    [penalties]. *)
Definition density_indicator (density : option R) : R * list Text * list Text :=
  match density with
  | Some density =>
      if density >? 5.0 then (0.1, [factors_contributing_l323 density], [])
      else if density >? 4.0 then (0.05, [factors_contributing_l328 density], [])
      else if density <? 2.5 then (-0.2, [], [penalties_l333 density])
      else (0.0, [], [])
  | None => (0.0, [], [])
  end.

(** The age penalty, with what it appends to [penalties]. *)
Definition age_indicator (stellar_age : option R) : R * list Text :=
  match stellar_age with
  | Some stellar_age =>
      if stellar_age >? 10.0 then (0.15, [penalties_l346 stellar_age])
      else if stellar_age >? 8.0 then (0.05, [penalties_l351 stellar_age])
      else if stellar_age <? 0.5 then (0.1, [penalties_l357 stellar_age])
      else (0.0, [])
  | None => (0.0, [])
  end.

(** The tidal adjustment and its note; the note is empty when there is no
    adjustment. *)
Definition tidal_indicator (orbital_period : option R) (star : StarEntity.t) : R * Text :=
  match orbital_period with
  | Some orbital_period =>
      if orbital_period <? 30 then
        let stellar_teff := Py.or_else (StarEntity.temperature_k star) 5778 in
        if stellar_teff <? 4000 then (-0.1, tidal_note_l372) else (0.0, [])
      else (0.0, [])
  | None => (0.0, [])
  end.

Definition evaluate (exoplanet : ExoplanetEntity.t) (star : StarEntity.t)
  : Py.Outcome FactorResult.t :=
  let mass := PhysicalParameters.mass_earth (ExoplanetEntity.physical exoplanet) in
  density <- PhysicalParameters.estimate_density (ExoplanetEntity.physical exoplanet) ;;
  let radius := PhysicalParameters.radius_earth (ExoplanetEntity.physical exoplanet) in
  let stellar_age := StarEntity.age_gyr star in
  match mass, radius with
  | None, None =>
      Py.Returned (_create_missing_data_result "planet_mass or planet_radius")
  | _, _ =>
      let '(mass_score, contributing_mass) := mass_indicator mass radius in
      let '(density_bonus, contributing_density, penalties_density) :=
        density_indicator density in
      let '(age_penalty, penalties_age) := age_indicator stellar_age in
      let factors_contributing := (contributing_mass ++ contributing_density)%list in
      let penalties := (penalties_density ++ penalties_age)%list in
      let orbital_period := OrbitalParameters.period_days (ExoplanetEntity.orbital exoplanet) in
      let '(tidal_adjustment, tidal_note) := tidal_indicator orbital_period star in
      let score :=
        Py.max 0.05 (Py.min 1.0
          (mass_score + density_bonus - age_penalty + tidal_adjustment)) in
      let summary :=
        if score >=? 0.7 then summary_l392
        else if score >=? 0.4 then summary_l394
        else summary_l396 in
      let explanation_parts :=
        ((match factors_contributing with
          | [] => []
          | _ => [Lit "Positive factors: " :: join "; " factors_contributing]
          end)
         ++ (match penalties with
             | [] => []
             | _ => [Lit "Negative factors: " :: join "; " penalties]
             end)
         ++ (match tidal_note with
             | [] => []
             | _ => [tidal_note]
             end)
         ++ [summary])%list in
      Py.Returned (FactorResult.init factor_id score
        (Some [Num score ".0%"]) (Some "estimated probability")
        (Some (text "High mass + high density + moderate age"))
        (join " " explanation_parts) ConfidenceLevel.LOW [] true None)
  end.

Definition factor : ScoringFactor.t :=
  ScoringFactor.mk factor_id factor_name category description references evaluate.

End MagneticFieldPotentialFactor.

(** ** The factor registry: [app/domain/scoring/factors/__init__.py] *)

Definition get_all_factors : list ScoringFactor.t :=
  [ StellarTypeFactor.factor;
    StellarLuminosityFactor.factor;
    StellarAgeFactor.factor;
    HabitableZonePositionFactor.factor;
    PlanetRadiusFactor.factor;
    PlanetMassFactor.factor;
    PlanetDensityFactor.factor;
    EquilibriumTemperatureFactor.factor;
    SurfaceGravityFactor.factor;
    OrbitalEccentricityFactor.factor;
    TidalLockingFactor.factor;
    AtmosphereRetentionFactor.factor;
    MagneticFieldPotentialFactor.factor ].

(** [get_factor_by_id(factor_id)]: the first factor of the list with that
    id. *)
Definition get_factor_by_id (factor_id : string) : option ScoringFactor.t :=
  find (fun factor => String.eqb (ScoringFactor.factor_id factor) factor_id)
       get_all_factors.

(** ** The scoring engine: [app/domain/scoring/engine.py] *)

Module ScoringEngine.

Definition VERSION : string := "2.0.0".

(** The engine: its configuration and its registry of factors, a dictionary
    from factor id to factor in registration order. *)
Record t : Type := mk {
  config : ScoringConfig.t;
  _factors : list (string * ScoringFactor.t)
}.

(** Registering an id that is already present replaces the factor. *)
Definition register_factor (self : t) (factor : ScoringFactor.t) : t :=
  mk (config self) (Py.dict_set (_factors self) (ScoringFactor.factor_id factor) factor).

(** [ScoringEngine(config, factors)] *)
Definition init (config : option ScoringConfig.t) (factors : list ScoringFactor.t)
  : Py.Outcome t :=
  cfg <- match config with
         | Some c => Py.Returned c
         | None => load_default_config
         end ;;
  Py.Returned (fold_left register_factor factors (mk cfg [])).

Definition unregister_factor (self : t) (factor_id : string) : t * bool :=
  match Py.dict_get (_factors self) factor_id with
  | Some _ => (mk (config self) (Py.dict_del (_factors self) factor_id), true)
  | None => (self, false)
  end.

Definition get_registered_factors (self : t) : list string :=
  map fst (_factors self).

Definition get_factor (self : t) (factor_id : string) : option ScoringFactor.t :=
  Py.dict_get (_factors self) factor_id.

(** [min(f.raw_score for f in factor_scores)] on a non-empty list: the first
    smallest value. *)
Definition min_raw_score (factor_scores : list FactorScore.t) : R :=
  match factor_scores with
  | [] => 0.0
  | f :: rest =>
      fold_left (fun best g => Py.min best (FactorScore.raw_score g)) rest
                (FactorScore.raw_score f)
  end.

(** The weighted average [sum(weighted_score) / sum(weight)], or [0.0] when
    the weights sum to zero. *)
Definition weighted_average (factor_scores : list FactorScore.t) : R :=
  let total_weight := Py.sum (map FactorScore.weight factor_scores) in
  if total_weight =? 0 then 0.0
  else Py.sum (map FactorScore.weighted_score factor_scores) / total_weight.

(** The running product of the geometric mean; every term is at least
    [0.01], so the product is positive and [product ** (1.0 / n)] is the real
    power. *)
Definition floored_product (factor_scores : list FactorScore.t) : R :=
  fold_left (fun product f => product * Py.max (FactorScore.raw_score f) 0.01)
            factor_scores 1.0.

Definition _calculate_total_score (self : t) (factor_scores : list FactorScore.t) : R :=
  match factor_scores with
  | [] => 0.0
  | _ =>
      let method := ScoringConfig.normalization_method (config self) in
      if String.eqb method "weighted_average" then
        weighted_average factor_scores
      else if String.eqb method "geometric_mean" then
        let product := floored_product factor_scores in
        Rpower product (1.0 / INR (List.length factor_scores))
      else if String.eqb method "minimum" then
        min_raw_score factor_scores
      else
        weighted_average factor_scores
  end.

(** The local variables of [evaluate] that the loop over the registry
    updates. *)
Record Loop : Type := mkLoop {
  factor_scores : list FactorScore.t;
  missing_parameters : list string;
  applicable_factors : nat;
  total_applicable_factors : nat
}.

(** [normalized_weights.get(factor_id, 0.1)] *)
Definition weight_or_default (normalized_weights : list (string * R)) (factor_id : string)
  : R :=
  match Py.dict_get normalized_weights factor_id with
  | Some w => w
  | None => 0.1
  end.

(** [result.references or factor.references] *)
Definition references_or (result_references factor_references : list string)
  : list string :=
  match result_references with
  | [] => factor_references
  | _ => result_references
  end.

(** One iteration of the loop: a disabled factor is skipped; an enabled one is
    evaluated inside [try], and an exception is turned into a degraded
    [FactorScore]. *)
Definition evaluate_factor (self : t) (normalized_weights : list (string * R))
    (exoplanet : ExoplanetEntity.t) (star : StarEntity.t)
    (st : Loop) (entry : string * ScoringFactor.t) : Loop :=
  let '(factor_id, factor) := entry in
  if negb (ScoringConfig.is_factor_enabled (config self) factor_id) then st
  else
    let total := S (total_applicable_factors st) in
    match ScoringFactor.evaluate factor exoplanet star with
    | Py.Returned result =>
        let weight := weight_or_default normalized_weights factor_id in
        let applicable :=
          if FactorResult.is_applicable result then S (applicable_factors st)
          else applicable_factors st in
        let missing :=
          if FactorResult.is_applicable result then missing_parameters st
          else if Py.truthy_str (FactorResult.missing_data result)
               then match FactorResult.missing_data result with
                    | Some m => (missing_parameters st ++ [m])%list
                    | None => missing_parameters st
                    end
               else missing_parameters st in
        let factor_score :=
          FactorScore.mk factor_id (ScoringFactor.factor_name factor)
            (FactorCategory.value (ScoringFactor.category factor))
            (FactorResult.score result) weight (FactorResult.score result * weight)
            (FactorResult.input_value result) (FactorResult.input_unit result)
            (FactorResult.optimal_range result) (FactorResult.explanation result)
            (FactorResult.confidence result)
            (references_or (FactorResult.references result)
                           (ScoringFactor.references factor)) in
        mkLoop (factor_scores st ++ [factor_score])%list missing applicable total
    | Py.Raised e =>
        let factor_score :=
          FactorScore.mk factor_id (ScoringFactor.factor_name factor)
            (FactorCategory.value (ScoringFactor.category factor))
            0.5
            (weight_or_default normalized_weights factor_id)
            0.05
            None None None
            (Lit "Error during evaluation: " :: Py.exc_str e)
            ConfidenceLevel.VERY_LOW [] in
        mkLoop (factor_scores st ++ [factor_score])%list
               (missing_parameters st) (applicable_factors st) total
    end.

(** [ScoringEngine.evaluate]; [now] is the reading of [datetime.utcnow()]. *)
Definition evaluate (self : t) (now : Z)
    (exoplanet : ExoplanetEntity.t) (star : StarEntity.t) : HabitabilityAssessment.t :=
  let normalized_weights := ScoringConfig.normalize_weights (config self) in
  let st :=
    fold_left (evaluate_factor self normalized_weights exoplanet star)
              (_factors self) (mkLoop [] [] 0 0) in
  let total_score := _calculate_total_score self (factor_scores st) in
  let data_completeness :=
    if (0 <? total_applicable_factors st)%nat
    then INR (applicable_factors st) / INR (total_applicable_factors st)
    else 0.0 in
  HabitabilityAssessment.mk
    (match ExoplanetEntity.id exoplanet with
     | Some i => if Z.eqb i 0 then 0%Z else i
     | None => 0%Z
     end)
    (ExoplanetEntity.name exoplanet) (StarEntity.name star)
    total_score (factor_scores st) data_completeness
    (missing_parameters st) now VERSION.

(** One entry of the ["factors"] list of [get_methodology]. *)
Record FactorInfo : Type := mkFactorInfo {
  info_id : string;
  info_name : string;
  info_category : string;
  info_description : string;
  info_weight : R;
  info_enabled : bool;
  info_references : list string
}.

(** The dictionary [get_methodology] returns. *)
Record Methodology : Type := mkMethodology {
  methodology_version : string;
  methodology_normalization_method : string;
  minimum_factors_required : Z;
  methodology_factors : list FactorInfo;
  total_factors : nat;
  enabled_factors : nat
}.

Definition get_methodology (self : t) : Methodology :=
  let factors_info :=
    map (fun entry =>
           let '(factor_id, factor) := entry in
           mkFactorInfo factor_id (ScoringFactor.factor_name factor)
             (FactorCategory.value (ScoringFactor.category factor))
             (ScoringFactor.description factor)
             (ScoringConfig.get_weight (config self) factor_id)
             (ScoringConfig.is_factor_enabled (config self) factor_id)
             (ScoringFactor.references factor))
        (_factors self) in
  mkMethodology VERSION
    (ScoringConfig.normalization_method (config self))
    (ScoringConfig.minimum_factors (config self))
    factors_info
    (List.length (_factors self))
    (List.length (ScoringConfig.get_enabled_factors (config self))).

(** One step of the loop of [get_factors_by_category]. *)
Definition add_factor_id (result : list (string * list string))
    (entry : string * ScoringFactor.t) : list (string * list string) :=
  let '(factor_id, factor) := entry in
  let category := FactorCategory.value (ScoringFactor.category factor) in
  let result :=
    match Py.dict_get result category with
    | None => Py.dict_set result category []
    | Some _ => result
    end in
  match Py.dict_get result category with
  | Some l => Py.dict_set result category (l ++ [factor_id])%list
  | None => result
  end.

Definition get_factors_by_category (self : t) : list (string * list string) :=
  fold_left add_factor_id (_factors self) [].

End ScoringEngine.

(** [create_default_engine()] *)
Definition create_default_engine : Py.Outcome ScoringEngine.t :=
  engine <- ScoringEngine.init None [] ;;
  Py.Returned (fold_left ScoringEngine.register_factor get_all_factors engine).

(** ** Database row: [app/models/exoplanet.py] *)

Module Exoplanet.

(** The columns the mappers read into the entities the scoring core uses;
    the discovery, position and bookkeeping columns are left out, as in
    [ExoplanetEntity]. *)
Record t : Type := mk {
  id : Z;
  name : string;
  host_star : string;
  orbital_period_days : option R;
  semi_major_axis_au : option R;
  eccentricity : option R;
  inclination_deg : option R;
  planet_radius_earth : option R;
  planet_radius_jupiter : option R;
  planet_mass_earth : option R;
  planet_mass_jupiter : option R;
  planet_density_g_cm3 : option R;
  equilibrium_temp_k : option R;
  stellar_type : option string;
  stellar_mass_solar : option R;
  stellar_radius_solar : option R;
  stellar_temp_k : option R;
  stellar_luminosity_solar : option R;
  stellar_metallicity : option R;
  stellar_age_gyr : option R
}.

End Exoplanet.

(** ** Mappers: [app/domain/mappers.py] *)

Definition exoplanet_model_to_entity (model : Exoplanet.t) : ExoplanetEntity.t :=
  ExoplanetEntity.mk (Some (Exoplanet.id model)) (Exoplanet.name model)
    (Exoplanet.host_star model)
    (OrbitalParameters.mk
       (Exoplanet.orbital_period_days model)
       (Exoplanet.semi_major_axis_au model)
       (Exoplanet.eccentricity model)
       (Exoplanet.inclination_deg model))
    (PhysicalParameters.mk
       (Exoplanet.planet_radius_earth model)
       (Exoplanet.planet_radius_jupiter model)
       (Exoplanet.planet_mass_earth model)
       (Exoplanet.planet_mass_jupiter model)
       (Exoplanet.planet_density_g_cm3 model)
       (Exoplanet.equilibrium_temp_k model)).

(** The star entity of a row; [luminosity_log] is never filled in. *)
Definition exoplanet_model_to_star_entity (model : Exoplanet.t) : StarEntity.t :=
  StarEntity.mk (Exoplanet.host_star model)
    (Exoplanet.stellar_type model)
    (Exoplanet.stellar_mass_solar model)
    (Exoplanet.stellar_radius_solar model)
    (Exoplanet.stellar_temp_k model)
    (Exoplanet.stellar_luminosity_solar model)
    None
    (Exoplanet.stellar_metallicity model)
    (Exoplanet.stellar_age_gyr model).

(** ** Scoring service: [app/services/scoring/advanced.py] *)

Definition SCORE_CATEGORIES : list (R * R * string) :=
  [ (0.0, 0.2, "Very Low");
    (0.2, 0.4, "Low");
    (0.4, 0.6, "Moderate");
    (0.6, 0.8, "High");
    (0.8, 1.0, "Very High") ].

(** The first band [lower <= score < upper], else the fallback. *)
Definition get_score_category (score : R) : string :=
  match find (fun band => let '(lower, upper, _) := band in
                          (lower <=? score) && (score <? upper))
             SCORE_CATEGORIES with
  | Some (_, _, category) => category
  | None => if score >=? 0.8 then "Very High" else "Very Low"
  end.

(** The keyword arguments of [ScoringFactorResult(...)]. *)
Module ScoringFactorResult.

Record t : Type := mk {
  factor_name : string;
  score : R;
  weight : R;
  weighted_contribution : R;
  input_value : option Text;
  explanation : Text;
  confidence : string
}.

End ScoringFactorResult.

(** The keyword arguments of [HabitabilityScoreResponse(...)] that vary with
    the row; the disclaimer and the methodology summary are fixed texts. *)
Module HabitabilityScoreResponse.

Record t : Type := mk {
  exoplanet_id : Z;
  exoplanet_name : string;
  total_score : R;
  score_category : string;
  factors : list ScoringFactorResult.t;
  data_completeness : R;
  missing_parameters : list string
}.

End HabitabilityScoreResponse.

Module AdvancedHabitabilityScorer.

Definition VERSION : string := "2.0.0".

Record t : Type := mk { _engine : ScoringEngine.t }.

(** [self._engine = ScoringEngine(factors=get_all_factors())] *)
Definition init : Py.Outcome t :=
  engine <- ScoringEngine.init None get_all_factors ;;
  Py.Returned (mk engine).

Definition calculate_score (self : t) (now : Z) (exoplanet : Exoplanet.t)
  : HabitabilityScoreResponse.t :=
  let exoplanet_entity := exoplanet_model_to_entity exoplanet in
  let star_entity := exoplanet_model_to_star_entity exoplanet in
  let assessment := ScoringEngine.evaluate (_engine self) now exoplanet_entity star_entity in
  let factors :=
    map (fun fs =>
           ScoringFactorResult.mk
             (FactorScore.factor_id fs)
             (FactorScore.raw_score fs)
             (FactorScore.weight fs)
             (FactorScore.weighted_score fs)
             (FactorScore.input_value fs)
             (FactorScore.explanation fs)
             (ConfidenceLevel.value (FactorScore.confidence fs)))
        (HabitabilityAssessment.factor_scores assessment) in
  let category := get_score_category (HabitabilityAssessment.total_score assessment) in
  HabitabilityScoreResponse.mk
    (Exoplanet.id exoplanet)
    (Exoplanet.name exoplanet)
    (HabitabilityAssessment.total_score assessment)
    category
    factors
    (HabitabilityAssessment.data_completeness assessment)
    (HabitabilityAssessment.missing_parameters assessment).

(** One entry of the ["factors"] list of the service's [get_methodology]. *)
Record FactorInfo : Type := mkFactorInfo {
  info_id : string;
  info_name : string;
  info_category : string;
  info_description : string;
  info_weight : R;
  info_references : list string
}.

(** The ["factors"] of [get_methodology]: one entry per registered id whose
    factor is found (and truthy, as every factor object is). *)
Definition methodology_factors (self : t) : list FactorInfo :=
  flat_map
    (fun factor_id =>
       match ScoringEngine.get_factor (_engine self) factor_id with
       | Some factor =>
           [ mkFactorInfo (ScoringFactor.factor_id factor)
               (ScoringFactor.factor_name factor)
               (FactorCategory.value (ScoringFactor.category factor))
               (ScoringFactor.description factor)
               (ScoringConfig.get_weight (ScoringEngine.config (_engine self)) factor_id)
               (ScoringFactor.references factor) ]
       | None => []
       end)
    (ScoringEngine.get_registered_factors (_engine self)).

End AdvancedHabitabilityScorer.

(** * Specification-side definitions and concrete inputs *)

(** The planet-radius score table as the specification words it. *)
Definition radius_table (radius : R) : R :=
  if radius <? 0.5 then 0.3
  else if radius <? 0.8 then 0.6
  else if radius <? 1.25 then 1.0
  else if radius <? 1.75 then 0.85
  else if radius <? 2.5 then 0.4
  else if radius <? 4.0 then 0.15
  else 0.05.

(** An exoplanet and a star with every optional field absent. *)
Definition empty_exoplanet (name host : string) : ExoplanetEntity.t :=
  ExoplanetEntity.mk None name host
    (OrbitalParameters.mk None None None None)
    (PhysicalParameters.mk None None None None None None).

Definition empty_star (name : string) : StarEntity.t :=
  StarEntity.mk name None None None None None None None None.

(** An exoplanet of which only the physical parameters are known. *)
Definition exoplanet_with (p : PhysicalParameters.t) : ExoplanetEntity.t :=
  ExoplanetEntity.mk None "" "" (OrbitalParameters.mk None None None None) p.

(** An exoplanet of which only the eccentricity is known. *)
Definition exoplanet_with_eccentricity (ecc : R) : ExoplanetEntity.t :=
  ExoplanetEntity.mk None "" ""
    (OrbitalParameters.mk None None (Some ecc) None)
    (PhysicalParameters.mk None None None None None None).

(** [PhysicalParameters(mass_earth=1.0, radius_earth=0.0)] *)
Definition zero_radius : PhysicalParameters.t :=
  PhysicalParameters.mk (Some 0.0) None (Some 1.0) None None None.

(** A star like Sirius A:
    [StarEntity(name="Sirius A", spectral_type="A1V", temperature_k=9940,
                luminosity_solar=25.4)] *)
Definition hot_star : StarEntity.t :=
  StarEntity.mk "Sirius A" (Some "A1V") None None (Some 9940) (Some 25.4) None None None.

(** [StarEntity(name="Sun", spectral_type="G2V", temperature_k=5778,
    luminosity_solar=1.0)] *)
Definition sun : StarEntity.t :=
  StarEntity.mk "Sun" (Some "G2V") None None (Some 5778) (Some 1.0) None None None.

(** [ScoringConfig()]: the built-in configuration. *)
Definition default_config : ScoringConfig.t :=
  ScoringConfig.mk "2.0.0"
    (map (fun kv => (fst kv, FactorWeightConfig.mk (fst kv) (snd kv) true))
         ScoringConfig.DEFAULT_WEIGHTS)
    "weighted_average" 3 ScoringConfig.DEFAULT_CONFIDENCE_THRESHOLDS.

(** The engine [create_default_engine()] builds. *)
Definition default_engine : ScoringEngine.t :=
  ScoringEngine.mk default_config
    (map (fun f => (ScoringFactor.factor_id f, f)) get_all_factors).

(** A configuration that gives [planet_mass] the weight 0.99 and
    [planet_density] the weight 0.01. *)
Definition skewed_config : ScoringConfig.t :=
  ScoringConfig.mk "2.0.0"
    [ ("planet_mass", FactorWeightConfig.mk "planet_mass" 0.99 true);
      ("planet_density", FactorWeightConfig.mk "planet_density" 0.01 true) ]
    "weighted_average" 3 ScoringConfig.DEFAULT_CONFIDENCE_THRESHOLDS.

(** [ScoringEngine(config=skewed_config,
                   factors=[PlanetMassFactor(), PlanetDensityFactor()])] *)
Definition skewed_engine : ScoringEngine.t :=
  ScoringEngine.mk skewed_config
    [ ("planet_mass", PlanetMassFactor.factor);
      ("planet_density", PlanetDensityFactor.factor) ].

(** [ScoringEngine(factors=[PlanetDensityFactor()])] with the built-in
    configuration. *)
Definition density_engine : ScoringEngine.t :=
  ScoringEngine.mk default_config [ ("planet_density", PlanetDensityFactor.factor) ].

(** The [FactorScore] the engine derives from a factor that returned
    [result]. *)
Definition score_of_result (normalized_weights : list (string * R))
    (factor_id : string) (factor : ScoringFactor.t) (result : FactorResult.t)
  : FactorScore.t :=
  FactorScore.mk factor_id (ScoringFactor.factor_name factor)
    (FactorCategory.value (ScoringFactor.category factor))
    (FactorResult.score result)
    (ScoringEngine.weight_or_default normalized_weights factor_id)
    (FactorResult.score result * ScoringEngine.weight_or_default normalized_weights factor_id)
    (FactorResult.input_value result) (FactorResult.input_unit result)
    (FactorResult.optimal_range result) (FactorResult.explanation result)
    (FactorResult.confidence result)
    (ScoringEngine.references_or (FactorResult.references result)
                                 (ScoringFactor.references factor)).

(** The [FactorScore] the engine records for a factor that raised [e]. *)
Definition score_of_error (normalized_weights : list (string * R))
    (factor_id : string) (factor : ScoringFactor.t) (e : Py.Exc) : FactorScore.t :=
  FactorScore.mk factor_id (ScoringFactor.factor_name factor)
    (FactorCategory.value (ScoringFactor.category factor))
    0.5 (ScoringEngine.weight_or_default normalized_weights factor_id) 0.05
    None None None
    (Lit "Error during evaluation: " :: Py.exc_str e)
    ConfidenceLevel.VERY_LOW [].

(** The [FactorScore] of one registry entry. *)
Definition score_of_entry (normalized_weights : list (string * R))
    (exoplanet : ExoplanetEntity.t) (star : StarEntity.t)
    (entry : string * ScoringFactor.t) : FactorScore.t :=
  match ScoringFactor.evaluate (snd entry) exoplanet star with
  | Py.Returned result => score_of_result normalized_weights (fst entry) (snd entry) result
  | Py.Raised e => score_of_error normalized_weights (fst entry) (snd entry) e
  end.

(** Whether a registry entry counts as applicable, and what it adds to the
    list of missing parameters. *)
Definition entry_applicable (exoplanet : ExoplanetEntity.t) (star : StarEntity.t)
    (entry : string * ScoringFactor.t) : bool :=
  match ScoringFactor.evaluate (snd entry) exoplanet star with
  | Py.Returned result => FactorResult.is_applicable result
  | Py.Raised _ => false
  end.

Definition entry_missing (exoplanet : ExoplanetEntity.t) (star : StarEntity.t)
    (entry : string * ScoringFactor.t) : list string :=
  match ScoringFactor.evaluate (snd entry) exoplanet star with
  | Py.Returned result =>
      if FactorResult.is_applicable result then []
      else match FactorResult.missing_data result with
           | Some (String c s) => [String c s]
           | _ => []
           end
  | Py.Raised _ => []
  end.

(** The registry entries the configuration enables. *)
Definition entry_enabled (self : ScoringEngine.t) (entry : string * ScoringFactor.t) : bool :=
  ScoringConfig.is_factor_enabled (ScoringEngine.config self) (fst entry).

Definition enabled_entries (self : ScoringEngine.t) : list (string * ScoringFactor.t) :=
  filter (entry_enabled self) (ScoringEngine._factors self).

(** The factor scores the engine reports: one per enabled entry, in registry
    order, with the normalized weights of its configuration. *)
Definition expected_scores (self : ScoringEngine.t)
    (exoplanet : ExoplanetEntity.t) (star : StarEntity.t) : list FactorScore.t :=
  map (score_of_entry (ScoringConfig.normalize_weights (ScoringEngine.config self))
                      exoplanet star)
      (enabled_entries self).

(** Every weight entry of the configuration went through the validating
    constructor. *)
Definition validated (c : ScoringConfig.t) : Prop :=
  Forall (fun kv => FactorWeightConfig.__post_init__ (snd kv) = Py.Returned (snd kv))
         (ScoringConfig.factor_weights c).

(** The temperature the habitable-zone polynomials are evaluated at is at
    most 9000 K: the temperature is absent, or lies in [0, 9000]. *)
Definition temperate (star : StarEntity.t) : Prop :=
  match StarEntity.temperature_k star with
  | Some temp => 0 <= temp <= 9000
  | None => True
  end.

(** The normalized weights of the built-in configuration, whose weights sum
    to 1. *)
Definition default_normalized : list (string * R) :=
  map (fun kv => (fst kv, snd kv / 1)) ScoringConfig.DEFAULT_WEIGHTS.

(** The step shared by the two grouping loops ([factors_by_category] of an
    assessment and [get_factors_by_category] of the engine): a key seen for
    the first time gets an empty list, then the value is appended to the list
    of its key. *)
Definition group_step {A : Type} (result : list (string * list A)) (key : string) (x : A)
  : list (string * list A) :=
  let result :=
    match Py.dict_get result key with
    | None => Py.dict_set result key []
    | Some _ => result
    end in
  match Py.dict_get result key with
  | Some l => Py.dict_set result key (l ++ [x])%list
  | None => result
  end.

(** An outcome whose result, if there is one, has its score in [0, 1]. *)
Definition clamped (o : Py.Outcome FactorResult.t) : Prop :=
  match o with
  | Py.Returned result => 0 <= FactorResult.score result <= 1
  | Py.Raised _ => True
  end.

(** The call returns a value, and the call raises. *)
Definition returns {A : Type} (o : Py.Outcome A) : Prop := exists a, o = Py.Returned a.




(** The Earth, as an exoplanet of the Sun. *)
Definition earth : ExoplanetEntity.t :=
  ExoplanetEntity.mk (Some 1%Z) "Earth" "Sun"
    (OrbitalParameters.mk (Some 365.25) (Some 1.0) (Some 0.0167) None)
    (PhysicalParameters.mk (Some 1.0) None (Some 1.0) None None (Some 255)).


(** The score bands of the eccentricity, mass, density, temperature and
    tidal-locking factors, as written in their [evaluate]. *)
Definition eccentricity_table (ecc : R) : R :=
  if ecc <? 0.02 then 1.0
  else if ecc <? 0.1 then 0.9
  else if ecc <? 0.2 then 0.7
  else if ecc <? 0.3 then 0.5
  else if ecc <? 0.5 then 0.25
  else if ecc <? 0.8 then 0.1
  else 0.02.

Definition mass_table (mass : R) : R :=
  if mass <? 0.1 then 0.15
  else if mass <? 0.5 then 0.4
  else if mass <? 2.0 then 1.0
  else if mass <? 5.0 then 0.8
  else if mass <? 10.0 then 0.4
  else 0.1.

Definition density_table (density : R) : R :=
  if density <? 1.0 then 0.05
  else if density <? 2.0 then 0.2
  else if density <? 3.5 then 0.5
  else if density <? 5.0 then 0.85
  else if density <? 6.5 then 1.0
  else 0.7.

Definition temperature_table (temp : R) : R :=
  if temp <? 150 then 0.05
  else if temp <? 200 then 0.3
  else if temp <? 230 then 0.6
  else if temp <? 260 then 0.9
  else if temp <? 300 then 1.0
  else if temp <? 350 then 0.6
  else if temp <? 450 then 0.2
  else 0.02.


(** A configuration that disables the density factor, and an engine with it
    in which the mass and density factors are registered. *)
Definition muted_config : ScoringConfig.t :=
  ScoringConfig.mk "2.0.0"
    [ ("planet_mass", FactorWeightConfig.mk "planet_mass" 0.08 true);
      ("planet_density", FactorWeightConfig.mk "planet_density" 0.05 false) ]
    "weighted_average" 3 ScoringConfig.DEFAULT_CONFIDENCE_THRESHOLDS.

Definition muted_engine : ScoringEngine.t :=
  ScoringEngine.mk muted_config
    [ ("planet_mass", PlanetMassFactor.factor);
      ("planet_density", PlanetDensityFactor.factor) ].

(** An engine in which only the disabled density factor is registered. *)
Definition silent_engine : ScoringEngine.t :=
  ScoringEngine.mk muted_config [ ("planet_density", PlanetDensityFactor.factor) ].

(** The built-in weights with the method ["minimum"]. *)
Definition minimum_config : ScoringConfig.t :=
  ScoringConfig.mk "2.0.0" (ScoringConfig.factor_weights default_config)
    "minimum" 3 ScoringConfig.DEFAULT_CONFIDENCE_THRESHOLDS.

Definition minimum_engine : ScoringEngine.t :=
  ScoringEngine.mk minimum_config (ScoringEngine._factors default_engine).


(** * Proofs *)

(** ** Deciding float comparisons *)

Lemma ltb_true (x y : R) : x < y -> (x <? y) = true.
Proof. intros H. unfold Py.ltb. destruct (Rlt_dec x y); [reflexivity | contradiction]. Qed.

Lemma ltb_false (x y : R) : y <= x -> (x <? y) = false.
Proof. intros H. unfold Py.ltb. destruct (Rlt_dec x y); [lra | reflexivity]. Qed.

Lemma leb_true (x y : R) : x <= y -> (x <=? y) = true.
Proof. intros H. unfold Py.leb. destruct (Rle_dec x y); [reflexivity | contradiction]. Qed.

Lemma leb_false (x y : R) : y < x -> (x <=? y) = false.
Proof. intros H. unfold Py.leb. destruct (Rle_dec x y); [lra | reflexivity]. Qed.

Lemma eqb_true (x y : R) : x = y -> (x =? y) = true.
Proof. intros H. unfold Py.eqb. destruct (Req_dec_T x y); [reflexivity | contradiction]. Qed.

Lemma eqb_false (x y : R) : x <> y -> (x =? y) = false.
Proof. intros H. unfold Py.eqb. destruct (Req_dec_T x y); [contradiction | reflexivity]. Qed.

Lemma ltb_cases (x y : R) : (x < y /\ (x <? y) = true) \/ (y <= x /\ (x <? y) = false).
Proof.
  destruct (Rlt_le_dec x y) as [H | H].
  - left. split; [exact H | now apply ltb_true].
  - right. split; [exact H | now apply ltb_false].
Qed.

Lemma leb_cases (x y : R) : (x <= y /\ (x <=? y) = true) \/ (y < x /\ (x <=? y) = false).
Proof.
  destruct (Rle_lt_dec x y) as [H | H].
  - left. split; [exact H | now apply leb_true].
  - right. split; [exact H | now apply leb_false].
Qed.

Lemma eqb_cases (x y : R) : (x = y /\ (x =? y) = true) \/ (x <> y /\ (x =? y) = false).
Proof.
  destruct (Req_dec_T x y) as [H | H].
  - left. split; [exact H | now apply eqb_true].
  - right. split; [exact H | now apply eqb_false].
Qed.

(** Settle every comparison of the goal whose outcome [lra] can establish. *)
Ltac py_decide :=
  unfold Py.gtb, Py.geb in *;
  repeat match goal with
    | |- context [Py.ltb ?a ?b] =>
        first [ rewrite (ltb_true a b) by lra | rewrite (ltb_false a b) by lra ]
    | |- context [Py.leb ?a ?b] =>
        first [ rewrite (leb_true a b) by lra | rewrite (leb_false a b) by lra ]
    | |- context [Py.eqb ?a ?b] =>
        first [ rewrite (eqb_true a b) by lra | rewrite (eqb_false a b) by lra ]
    end.

(** Split on the first comparison of the goal. *)
Ltac py_split :=
  match goal with
  | |- context [Py.ltb ?a ?b] =>
      let H := fresh "Hcmp" in let E := fresh "Ecmp" in
      destruct (ltb_cases a b) as [[H E] | [H E]]; rewrite E
  | |- context [Py.leb ?a ?b] =>
      let H := fresh "Hcmp" in let E := fresh "Ecmp" in
      destruct (leb_cases a b) as [[H E] | [H E]]; rewrite E
  | |- context [Py.eqb ?a ?b] =>
      let H := fresh "Hcmp" in let E := fresh "Ecmp" in
      destruct (eqb_cases a b) as [[H E] | [H E]]; rewrite E
  end.

Lemma max_spec (a b : R) : Py.max a b = Rmax a b.
Proof.
  unfold Py.max, Py.gtb, Rmax.
  destruct (ltb_cases a b) as [[H E] | [H E]]; rewrite E;
    destruct (Rle_dec a b); lra.
Qed.

Lemma min_spec (a b : R) : Py.min a b = Rmin a b.
Proof.
  unfold Py.min, Rmin.
  destruct (ltb_cases b a) as [[H E] | [H E]]; rewrite E;
    destruct (Rle_dec a b); lra.
Qed.

(** The clamp of [FactorResult.__post_init__] leaves a score of [0, 1]
    unchanged, and always lands in [0, 1]. *)
Lemma clamp_id (s : R) : 0 <= s <= 1 -> Py.max 0.0 (Py.min 1.0 s) = s.
Proof.
  intros H. rewrite max_spec, min_spec. unfold Rmax, Rmin.
  destruct (Rle_dec 1.0 s); destruct (Rle_dec 0.0 _); lra.
Qed.

Lemma clamp_bounds (s : R) : 0 <= Py.max 0.0 (Py.min 1.0 s) <= 1.
Proof.
  rewrite max_spec, min_spec. unfold Rmax, Rmin.
  destruct (Rle_dec 1.0 s); destruct (Rle_dec 0.0 _); lra.
Qed.

(** ** Derived properties of the entities *)

(** [surface_gravity_earth] never raises: the guard on the radius keeps the
    divisor positive. *)
Lemma surface_gravity_earth_total (p : PhysicalParameters.t) :
  exists g, PhysicalParameters.surface_gravity_earth p = Py.Returned g.
Proof.
  unfold PhysicalParameters.surface_gravity_earth.
  destruct (PhysicalParameters.mass_earth p) as [mass |];
    destruct (PhysicalParameters.radius_earth p) as [radius |];
    try (eexists; reflexivity).
  py_split; [eexists; reflexivity |].
  unfold Py.div. rewrite eqb_false by nra. eexists; reflexivity.
Qed.

(** It is absent when an input is missing or the radius is not positive. *)
Lemma surface_gravity_earth_guarded (p : PhysicalParameters.t) (radius : R) :
  PhysicalParameters.radius_earth p = Some radius -> radius <= 0 ->
  PhysicalParameters.surface_gravity_earth p = Py.Returned None.
Proof.
  intros Hr Hle. unfold PhysicalParameters.surface_gravity_earth. rewrite Hr.
  destruct (PhysicalParameters.mass_earth p); [| reflexivity].
  rewrite leb_true by exact Hle. reflexivity.
Qed.

(** [classify_planet_type] has no failing operation; without a radius the
    type is unknown. *)
Lemma classify_planet_type_absent (p : PhysicalParameters.t) :
  PhysicalParameters.radius_earth p = None ->
  PhysicalParameters.classify_planet_type p = PlanetType.UNKNOWN.
Proof. intros H. unfold PhysicalParameters.classify_planet_type. now rewrite H. Qed.

(** [escape_velocity_km_s] guards the radius but not the sign of the mass. *)
Lemma escape_velocity_raises_on_negative_mass :
  PhysicalParameters.escape_velocity_km_s
    (PhysicalParameters.mk (Some 1.0) None (Some (-1.0)) None None None)
  = Py.Raised Py.ValueError_sqrt.
Proof.
  unfold PhysicalParameters.escape_velocity_km_s; simpl. py_decide.
  unfold Py.div. py_decide. simpl. unfold Py.sqrt. py_decide. reflexivity.
Qed.

(** [estimate_density] returns whenever the radius is not exactly zero. *)
Lemma estimate_density_returns (p : PhysicalParameters.t) :
  PhysicalParameters.radius_earth p <> Some 0 ->
  exists d, PhysicalParameters.estimate_density p = Py.Returned d.
Proof.
  intros Hr. unfold PhysicalParameters.estimate_density.
  destruct (PhysicalParameters.density_g_cm3 p); [eexists; reflexivity |].
  destruct (PhysicalParameters.mass_earth p) as [mass |];
    destruct (PhysicalParameters.radius_earth p) as [radius |];
    try (eexists; reflexivity).
  assert (Hne : radius <> 0) by (intros ->; now apply Hr).
  unfold Py.div. rewrite eqb_false.
  - eexists; reflexivity.
  - simpl. repeat apply Rmult_integral_contrapositive_currified; lra.
Qed.

(** With mass 1 and radius 0, [estimate_density] divides by zero. *)
Lemma estimate_density_zero_radius :
  PhysicalParameters.estimate_density zero_radius = Py.Raised Py.ZeroDivisionError.
Proof.
  unfold PhysicalParameters.estimate_density, zero_radius; simpl.
  unfold Py.div. py_decide. reflexivity.
Qed.

(** C6 (the failing input): [estimate_density] has no guard on the radius,
    unlike [surface_gravity_earth] and [escape_velocity_km_s]; with
    [mass_earth = 1.0] and [radius_earth = 0.0] it divides by zero and raises
    [ZeroDivisionError] instead of returning an absent value, while its two
    siblings return an absent value on the same input. *)
Theorem estimate_density_raises_on_zero_radius :
  PhysicalParameters.estimate_density zero_radius = Py.Raised Py.ZeroDivisionError
  /\ PhysicalParameters.surface_gravity_earth zero_radius = Py.Returned None
  /\ PhysicalParameters.escape_velocity_km_s zero_radius = Py.Returned None.
Proof.
  split; [exact estimate_density_zero_radius |].
  unfold PhysicalParameters.surface_gravity_earth,
    PhysicalParameters.escape_velocity_km_s, zero_radius; simpl.
  split; py_decide; reflexivity.
Qed.

(** ** Single factors *)

(** The score of a constructed result is the clamped argument. *)
Lemma score_init fid s iv iu orng ex c refs app md :
  FactorResult.score (FactorResult.init fid s iv iu orng ex c refs app md)
  = Py.max 0.0 (Py.min 1.0 s).
Proof. reflexivity. Qed.

(** Every constructed result has its score in [0, 1]. *)
Lemma score_init_bounds fid s iv iu orng ex c refs app md :
  0 <= FactorResult.score (FactorResult.init fid s iv iu orng ex c refs app md) <= 1.
Proof. rewrite score_init. apply clamp_bounds. Qed.

(** The missing-data result: neutral score, lowest confidence, not
    applicable, and the name of the missing field. *)
Lemma missing_data_result_spec (fid field : string) :
  let r := BaseScoringFactor._create_missing_data_result fid field in
  FactorResult.factor_id r = fid
  /\ FactorResult.score r = 0.5
  /\ FactorResult.confidence r = ConfidenceLevel.VERY_LOW
  /\ FactorResult.is_applicable r = false
  /\ FactorResult.missing_data r = Some field.
Proof.
  simpl. repeat split.
  rewrite clamp_id; lra.
Qed.

(** The score of [PlanetRadiusFactor.evaluate] follows the table. *)
Lemma planet_radius_follows_table
    (exoplanet : ExoplanetEntity.t) (star : StarEntity.t) (radius : R) :
  PhysicalParameters.radius_earth (ExoplanetEntity.physical exoplanet) = Some radius ->
  exists result,
    PlanetRadiusFactor.evaluate exoplanet star = Py.Returned result
    /\ FactorResult.score result = radius_table radius
    /\ FactorResult.is_applicable result = true.
Proof.
  intros H. unfold PlanetRadiusFactor.evaluate, radius_table. rewrite H.
  repeat py_split; cbv zeta beta iota;
    (eexists; split; [reflexivity | split; [| reflexivity]]);
    rewrite score_init; apply clamp_id; lra.
Qed.

(** C7: for every known radius, [PlanetRadiusFactor.evaluate] returns a
    result whose score is exactly the tabulated one: below 0.5 gives 0.3,
    [0.5, 0.8) gives 0.6, [0.8, 1.25) gives 1.0, [1.25, 1.75) gives 0.85,
    [1.75, 2.5) gives 0.4, [2.5, 4.0) gives 0.15 and 4.0 or more gives 0.05. *)
Theorem planet_radius_score_table
    (exoplanet : ExoplanetEntity.t) (star : StarEntity.t) (radius : R) :
  PhysicalParameters.radius_earth (ExoplanetEntity.physical exoplanet) = Some radius ->
  exists result,
    PlanetRadiusFactor.evaluate exoplanet star = Py.Returned result
    /\ (radius < 0.5 -> FactorResult.score result = 0.3)
    /\ (0.5 <= radius < 0.8 -> FactorResult.score result = 0.6)
    /\ (0.8 <= radius < 1.25 -> FactorResult.score result = 1.0)
    /\ (1.25 <= radius < 1.75 -> FactorResult.score result = 0.85)
    /\ (1.75 <= radius < 2.5 -> FactorResult.score result = 0.4)
    /\ (2.5 <= radius < 4.0 -> FactorResult.score result = 0.15)
    /\ (4.0 <= radius -> FactorResult.score result = 0.05).
Proof.
  intros H.
  destruct (planet_radius_follows_table exoplanet star radius H) as [result [Hev [Hs _]]].
  exists result. split; [exact Hev |].
  rewrite Hs. unfold radius_table.
  repeat split; intros Hband; py_decide; reflexivity.
Qed.

(** The table read off for an Earth-sized planet. *)
Lemma planet_radius_score_table_witness :
  exists result,
    PlanetRadiusFactor.evaluate
      (exoplanet_with (PhysicalParameters.mk (Some 1.0) None None None None None))
      (empty_star "") = Py.Returned result
    /\ (1.0 < 0.5 -> FactorResult.score result = 0.3)
    /\ (0.5 <= 1.0 < 0.8 -> FactorResult.score result = 0.6)
    /\ (0.8 <= 1.0 < 1.25 -> FactorResult.score result = 1.0)
    /\ (1.25 <= 1.0 < 1.75 -> FactorResult.score result = 0.85)
    /\ (1.75 <= 1.0 < 2.5 -> FactorResult.score result = 0.4)
    /\ (2.5 <= 1.0 < 4.0 -> FactorResult.score result = 0.15)
    /\ (4.0 <= 1.0 -> FactorResult.score result = 0.05).
Proof.
  apply (planet_radius_score_table
           (exoplanet_with (PhysicalParameters.mk (Some 1.0) None None None None None))
           (empty_star "") 1.0).
  reflexivity.
Defined.

(** The table at its breakpoints, and for a Jupiter-sized planet. *)
Lemma radius_table_values :
  radius_table 0.4 = 0.3 /\ radius_table 0.5 = 0.6 /\ radius_table 0.8 = 1.0
  /\ radius_table 1.25 = 0.85 /\ radius_table 1.75 = 0.4 /\ radius_table 2.5 = 0.15
  /\ radius_table 4.0 = 0.05 /\ radius_table 11.2 = 0.05.
Proof. unfold radius_table. repeat split; py_decide; reflexivity. Qed.

(** What [OrbitalEccentricityFactor.evaluate] returns for an eccentricity
    below 1, where the flux ratio is finite. *)
Lemma eccentricity_score (ecc s : R) :
  ecc < 1 ->
  s = (if ecc <? 0.02 then 1.0 else if ecc <? 0.1 then 0.9 else if ecc <? 0.2 then 0.7
       else if ecc <? 0.3 then 0.5 else if ecc <? 0.5 then 0.25
       else if ecc <? 0.8 then 0.1 else 0.02) ->
  exists result,
    OrbitalEccentricityFactor.evaluate (exoplanet_with_eccentricity ecc) (empty_star "")
    = Py.Returned result
    /\ FactorResult.score result = s
    /\ FactorResult.confidence result = ConfidenceLevel.HIGH.
Proof.
  intros Hecc ->. unfold OrbitalEccentricityFactor.evaluate, exoplanet_with_eccentricity.
  cbn [ExoplanetEntity.orbital OrbitalParameters.eccentricity].
  rewrite (ltb_true ecc 1.0) by lra.
  unfold Py.div. rewrite (eqb_false (1 - ecc) 0) by lra. cbn [Py.bind].
  repeat py_split; cbv zeta beta iota;
    (eexists; split; [reflexivity | split; [| reflexivity]]);
    rewrite score_init; apply clamp_id; lra.
Qed.

(** An eccentricity of 1 or more has an infinite flux ratio and the lowest
    score. *)
Lemma eccentricity_unbound (ecc : R) :
  1 <= ecc ->
  exists result,
    OrbitalEccentricityFactor.evaluate (exoplanet_with_eccentricity ecc) (empty_star "")
    = Py.Returned result
    /\ FactorResult.score result = 0.02.
Proof.
  intros Hecc. unfold OrbitalEccentricityFactor.evaluate, exoplanet_with_eccentricity.
  cbn [ExoplanetEntity.orbital OrbitalParameters.eccentricity].
  py_decide. cbn [Py.bind]. cbv zeta beta iota.
  eexists; split; [reflexivity |]. rewrite score_init. apply clamp_id. lra.
Qed.

(** The bands on either side of the 0.2 threshold: 0.19 is in the band
    worded "moderate", 0.206 in the band worded "high". *)
Lemma eccentricity_band_texts :
  (exists result flux_ratio,
     OrbitalEccentricityFactor.evaluate (exoplanet_with_eccentricity 0.19) (empty_star "")
     = Py.Returned result
     /\ FactorResult.score result = 0.7
     /\ FactorResult.explanation result
        = OrbitalEccentricityFactor.explanation_l114 0.19 flux_ratio)
  /\ (exists result flux_ratio,
     OrbitalEccentricityFactor.evaluate (exoplanet_with_eccentricity 0.206) (empty_star "")
     = Py.Returned result
     /\ FactorResult.score result = 0.5
     /\ FactorResult.explanation result
        = OrbitalEccentricityFactor.explanation_l122 0.206 flux_ratio).
Proof.
  split; unfold OrbitalEccentricityFactor.evaluate, exoplanet_with_eccentricity;
    cbn [ExoplanetEntity.orbital OrbitalParameters.eccentricity];
    unfold Py.div; py_decide; cbn [Py.bind]; cbv zeta beta iota;
    (do 2 eexists; split; [reflexivity | split; [| reflexivity]]);
    rewrite score_init; apply clamp_id; lra.
Qed.

(** C4 (the failing input): an eccentricity of 0.206 is not below the 0.2
    threshold, so the factor returns 0.5, the score of the band
    [0.2, 0.3), and not the 0.7 of the band whose text names Mercury's
    0.206.  The two other round numbers behave as stated: 0.0 scores 1.0
    and 0.99 scores 0.02. *)
Theorem eccentricity_round_numbers :
  (exists result,
     OrbitalEccentricityFactor.evaluate (exoplanet_with_eccentricity 0.206) (empty_star "")
     = Py.Returned result /\ FactorResult.score result = 0.5)
  /\ (exists result,
     OrbitalEccentricityFactor.evaluate (exoplanet_with_eccentricity 0.0) (empty_star "")
     = Py.Returned result /\ FactorResult.score result = 1.0)
  /\ (exists result,
     OrbitalEccentricityFactor.evaluate (exoplanet_with_eccentricity 0.99) (empty_star "")
     = Py.Returned result /\ FactorResult.score result = 0.02).
Proof.
  repeat split.
  - destruct (eccentricity_score 0.206 0.5) as [r [H1 [H2 _]]];
      [lra | py_decide; reflexivity |]. exists r. now split.
  - destruct (eccentricity_score 0.0 1.0) as [r [H1 [H2 _]]];
      [lra | py_decide; reflexivity |]. exists r. now split.
  - destruct (eccentricity_score 0.99 0.02) as [r [H1 [H2 _]]];
      [lra | py_decide; reflexivity |]. exists r. now split.
Qed.

(** ** Weight normalization *)

Lemma fold_left_plus (xs : list R) (acc : R) :
  fold_left Rplus xs acc = acc + fold_right Rplus 0 xs.
Proof.
  revert acc. induction xs as [| x xs IH]; intros acc; simpl.
  - lra.
  - rewrite IH. lra.
Qed.

Lemma sum_nil : Py.sum [] = 0.
Proof. reflexivity. Qed.

Lemma sum_cons (x : R) (xs : list R) : Py.sum (x :: xs) = x + Py.sum xs.
Proof. unfold Py.sum. simpl. rewrite !fold_left_plus. lra. Qed.

Lemma sum_app (xs ys : list R) : Py.sum (xs ++ ys) = Py.sum xs + Py.sum ys.
Proof.
  induction xs as [| x xs IH]; simpl.
  - rewrite sum_nil. lra.
  - rewrite !sum_cons, IH. lra.
Qed.

Lemma sum_map_div {A : Type} (f : A -> R) (total : R) (l : list A) :
  Py.sum (map (fun x => f x / total) l) = Py.sum (map f l) / total.
Proof.
  induction l as [| x l IH]; simpl.
  - rewrite sum_nil. unfold Rdiv. lra.
  - rewrite !sum_cons, IH. unfold Rdiv. lra.
Qed.

Lemma sum_nonneg (xs : list R) : Forall (fun x => 0 <= x) xs -> 0 <= Py.sum xs.
Proof.
  induction 1 as [| x xs Hx _ IH].
  - rewrite sum_nil. lra.
  - rewrite sum_cons. lra.
Qed.

Lemma sum_ge_member (xs : list R) (x : R) :
  Forall (fun y => 0 <= y) xs -> In x xs -> x <= Py.sum xs.
Proof.
  induction 1 as [| y ys Hy Hys IH]; intros Hin.
  - contradiction.
  - rewrite sum_cons. destruct Hin as [-> | Hin].
    + pose proof (sum_nonneg ys Hys). lra.
    + specialize (IH Hin). lra.
Qed.

Lemma sum_all_zero (xs : list R) : Forall (fun x => x = 0) xs -> Py.sum xs = 0.
Proof.
  induction 1 as [| x xs Hx _ IH].
  - apply sum_nil.
  - rewrite sum_cons, Hx, IH. lra.
Qed.

(** The validation accepts exactly the weights of [0, 1]. *)
Lemma post_init_returned (c c' : FactorWeightConfig.t) :
  FactorWeightConfig.__post_init__ c = Py.Returned c' ->
  0 <= FactorWeightConfig.weight c <= 1 /\ c' = c.
Proof.
  unfold FactorWeightConfig.__post_init__.
  destruct (leb_cases 0.0 (FactorWeightConfig.weight c)) as [[H1 E1] | [H1 E1]];
    rewrite E1;
    destruct (leb_cases (FactorWeightConfig.weight c) 1.0) as [[H2 E2] | [H2 E2]];
    rewrite E2; simpl; intros H; inversion H; subst.
  split; [lra | reflexivity].
Qed.

Lemma FactorWeightConfig_init_accepts (fid : string) (w : R) (en : bool) :
  0 <= w <= 1 ->
  FactorWeightConfig.init fid w en = Py.Returned (FactorWeightConfig.mk fid w en).
Proof.
  intros H. unfold FactorWeightConfig.init, FactorWeightConfig.__post_init__.
  cbn [FactorWeightConfig.weight].
  rewrite (leb_true 0.0 w), (leb_true w 1.0) by lra. reflexivity.
Qed.

Lemma FactorWeightConfig_init_rejects (fid : string) (w : R) (en : bool) :
  w < 0 \/ 1 < w ->
  FactorWeightConfig.init fid w en = Py.Raised (FactorWeightConfig.ValueError w).
Proof.
  intros [H | H]; unfold FactorWeightConfig.init, FactorWeightConfig.__post_init__;
    cbn [FactorWeightConfig.weight].
  - rewrite (leb_false 0.0 w) by lra. reflexivity.
  - rewrite (leb_false w 1.0) by lra. now rewrite andb_false_r.
Qed.

Lemma validated_weights_nonneg (c : ScoringConfig.t) :
  validated c ->
  Forall (fun x => 0 <= x)
    (map (fun kv => FactorWeightConfig.weight (snd kv))
         (filter (fun kv => FactorWeightConfig.enabled (snd kv))
                 (ScoringConfig.factor_weights c))).
Proof.
  unfold validated. intros Hv.
  induction Hv as [| kv l Hkv _ IH]; simpl.
  - constructor.
  - destruct (FactorWeightConfig.enabled (snd kv)); [| exact IH].
    simpl. constructor; [| exact IH].
    apply post_init_returned in Hkv. lra.
Qed.

(** The normalized table lists exactly the enabled ids, in order. *)
Lemma normalize_weights_keys (c : ScoringConfig.t) :
  ScoringConfig.get_total_weight c <> 0 ->
  map fst (ScoringConfig.normalize_weights c) = ScoringConfig.get_enabled_factors c.
Proof.
  intros H. unfold ScoringConfig.normalize_weights, ScoringConfig.get_enabled_factors.
  rewrite eqb_false by exact H. rewrite map_map. reflexivity.
Qed.

(** C8: for every configuration whose weights passed the constructor's
    validation, the normalized weights sum to 1 as soon as one factor is
    enabled with a positive weight, and the normalized table is empty (no
    division takes place) when every factor is disabled or has weight 0. *)
Theorem normalize_weights_sum (c : ScoringConfig.t) :
  validated c ->
  ((exists kv, In kv (ScoringConfig.factor_weights c)
               /\ FactorWeightConfig.enabled (snd kv) = true
               /\ 0 < FactorWeightConfig.weight (snd kv)) ->
   Py.sum (map snd (ScoringConfig.normalize_weights c)) = 1)
  /\ ((forall kv, In kv (ScoringConfig.factor_weights c) ->
                  FactorWeightConfig.enabled (snd kv) = false
                  \/ FactorWeightConfig.weight (snd kv) = 0) ->
      ScoringConfig.normalize_weights c = []).
Proof.
  intros Hv. split.
  - intros [kv [Hin [Hen Hpos]]].
    assert (Htot : 0 < ScoringConfig.get_total_weight c).
    { unfold ScoringConfig.get_total_weight.
      apply Rlt_le_trans with (FactorWeightConfig.weight (snd kv)); [exact Hpos |].
      apply sum_ge_member; [now apply validated_weights_nonneg |].
      apply in_map_iff. exists kv. split; [reflexivity |].
      apply filter_In. now split. }
    unfold ScoringConfig.normalize_weights. rewrite eqb_false by lra.
    rewrite map_map. cbn [snd].
    rewrite (sum_map_div (fun kv => FactorWeightConfig.weight (snd kv))).
    fold (ScoringConfig.get_total_weight c). field. lra.
  - intros Hall. unfold ScoringConfig.normalize_weights.
    rewrite eqb_true; [reflexivity |].
    unfold ScoringConfig.get_total_weight. apply sum_all_zero.
    apply Forall_forall. intros x Hx.
    apply in_map_iff in Hx. destruct Hx as [kv [<- Hkv]].
    apply filter_In in Hkv. destruct Hkv as [Hin Hen].
    destruct (Hall kv Hin) as [Hd | Hz]; [congruence | exact Hz].
Qed.

(** The built-in configuration is validated, and it is what
    [load_default_config] returns. *)
Lemma validated_default_config : validated default_config.
Proof.
  unfold validated, default_config, ScoringConfig.DEFAULT_WEIGHTS.
  cbn [ScoringConfig.factor_weights map fst snd].
  repeat (constructor;
          [apply (FactorWeightConfig_init_accepts _ _ true); cbn; lra |]).
  constructor.
Qed.

Lemma load_default_config_returns : load_default_config = Py.Returned default_config.
Proof.
  unfold load_default_config, ScoringConfig.init, ScoringConfig.__post_init__,
    ScoringConfig.DEFAULT_WEIGHTS.
  cbn [ScoringConfig.factor_weights ScoringConfig.default_factor_weights].
  repeat (rewrite FactorWeightConfig_init_accepts by lra; cbn [Py.bind]).
  reflexivity.
Qed.

(** The normalized weights of the built-in configuration sum to 1, and a
    configuration with every factor disabled normalizes to the empty
    table. *)
Lemma normalize_weights_sum_witness :
  (Py.sum (map snd (ScoringConfig.normalize_weights default_config)) = 1)
  /\ ((forall kv, In kv (ScoringConfig.factor_weights default_config) ->
                  FactorWeightConfig.enabled (snd kv) = false
                  \/ FactorWeightConfig.weight (snd kv) = 0) ->
      ScoringConfig.normalize_weights default_config = []).
Proof.
  destruct (normalize_weights_sum default_config validated_default_config) as [Hsum Hempty].
  split; [| exact Hempty].
  apply Hsum.
  exists ("stellar_type", FactorWeightConfig.mk "stellar_type" 0.12 true).
  split; [left; reflexivity | split; [reflexivity | cbn; lra]].
Defined.

(** The weights of the built-in table sum to 1, so normalization leaves them
    unchanged. *)
Lemma default_total_weight : ScoringConfig.get_total_weight default_config = 1.
Proof.
  unfold ScoringConfig.get_total_weight, default_config, ScoringConfig.DEFAULT_WEIGHTS.
  cbn [ScoringConfig.factor_weights map filter fst snd
       FactorWeightConfig.enabled FactorWeightConfig.weight].
  repeat rewrite sum_cons. rewrite sum_nil. lra.
Qed.

Lemma normalize_default_config :
  ScoringConfig.normalize_weights default_config = default_normalized.
Proof.
  unfold ScoringConfig.normalize_weights. rewrite default_total_weight.
  rewrite eqb_false by lra. reflexivity.
Qed.

(** A configuration in which a negative weight was written after
    construction escapes the validation, and its normalized weights need not
    sum to 1: the hypothesis of the theorem is needed. *)
Lemma unvalidated_weights_cancel :
  ScoringConfig.normalize_weights
    (ScoringConfig.mk "2.0.0"
       [ ("a", FactorWeightConfig.mk "a" 0.5 true);
         ("b", FactorWeightConfig.mk "b" (-0.5) true) ]
       "weighted_average" 3 [])
  = [].
Proof.
  unfold ScoringConfig.normalize_weights, ScoringConfig.get_total_weight.
  cbn [ScoringConfig.factor_weights map filter fst snd
       FactorWeightConfig.enabled FactorWeightConfig.weight].
  rewrite !sum_cons, sum_nil. rewrite eqb_true by lra. reflexivity.
Qed.

(** ** The engine's loop *)

Section Loop.

Variable self : ScoringEngine.t.
Variable exoplanet : ExoplanetEntity.t.
Variable star : StarEntity.t.
Variable nw : list (string * R).

(** One iteration, in terms of the entry's outcome. *)
Lemma evaluate_factor_step (st : ScoringEngine.Loop) (entry : string * ScoringFactor.t) :
  ScoringEngine.evaluate_factor self nw exoplanet star st entry
  = if ScoringConfig.is_factor_enabled (ScoringEngine.config self) (fst entry) then
      ScoringEngine.mkLoop
        (ScoringEngine.factor_scores st ++ [score_of_entry nw exoplanet star entry])
        (ScoringEngine.missing_parameters st ++ entry_missing exoplanet star entry)
        (if entry_applicable exoplanet star entry
         then S (ScoringEngine.applicable_factors st)
         else ScoringEngine.applicable_factors st)
        (S (ScoringEngine.total_applicable_factors st))
    else st.
Proof.
  destruct entry as [fid factor].
  unfold ScoringEngine.evaluate_factor, score_of_entry, entry_missing,
    entry_applicable, score_of_result, score_of_error.
  cbn [fst snd].
  destruct (ScoringConfig.is_factor_enabled (ScoringEngine.config self) fid);
    cbn [negb]; [| reflexivity].
  destruct (ScoringFactor.evaluate factor exoplanet star) as [result | e].
  - destruct (FactorResult.is_applicable result).
    + now rewrite app_nil_r.
    + destruct (FactorResult.missing_data result) as [[| c s] |];
        cbn [Py.truthy_str]; now rewrite ?app_nil_r.
  - now rewrite app_nil_r.
Qed.

(** The loop appends one [FactorScore] per enabled entry, in registry order,
    and counts the applicable ones. *)
Lemma loop_spec (l : list (string * ScoringFactor.t)) (st : ScoringEngine.Loop) :
  fold_left (ScoringEngine.evaluate_factor self nw exoplanet star) l st
  = ScoringEngine.mkLoop
      (ScoringEngine.factor_scores st
       ++ map (score_of_entry nw exoplanet star) (filter (entry_enabled self) l))
      (ScoringEngine.missing_parameters st
       ++ flat_map (entry_missing exoplanet star) (filter (entry_enabled self) l))
      (ScoringEngine.applicable_factors st
       + List.length (filter (entry_applicable exoplanet star)
                             (filter (entry_enabled self) l)))
      (ScoringEngine.total_applicable_factors st
       + List.length (filter (entry_enabled self) l)).
Proof.
  revert st. induction l as [| entry l IH]; intros st.
  - simpl. rewrite !app_nil_r, !Nat.add_0_r. now destruct st.
  - cbn [fold_left]. rewrite IH, evaluate_factor_step. clear IH.
    cbn [filter]. fold (entry_enabled self entry).
    destruct (entry_enabled self entry); [| reflexivity].
    cbn [ScoringEngine.factor_scores ScoringEngine.missing_parameters
         ScoringEngine.applicable_factors ScoringEngine.total_applicable_factors
         filter map flat_map].
    rewrite <- !app_assoc. cbn [app].
    destruct (entry_applicable exoplanet star entry); cbn [List.length];
      f_equal; lia.
Qed.

End Loop.

Section Report.

Variable self : ScoringEngine.t.
Variable now : Z.
Variable exoplanet : ExoplanetEntity.t.
Variable star : StarEntity.t.

(** The report, field by field. *)
Lemma evaluate_factor_scores :
  HabitabilityAssessment.factor_scores (ScoringEngine.evaluate self now exoplanet star)
  = expected_scores self exoplanet star.
Proof.
  unfold ScoringEngine.evaluate. cbn [HabitabilityAssessment.factor_scores].
  rewrite loop_spec. reflexivity.
Qed.

Lemma evaluate_total_score :
  HabitabilityAssessment.total_score (ScoringEngine.evaluate self now exoplanet star)
  = ScoringEngine._calculate_total_score self (expected_scores self exoplanet star).
Proof.
  unfold ScoringEngine.evaluate. cbn [HabitabilityAssessment.total_score].
  rewrite loop_spec. reflexivity.
Qed.

Lemma evaluate_missing_parameters :
  HabitabilityAssessment.missing_parameters
    (ScoringEngine.evaluate self now exoplanet star)
  = flat_map (entry_missing exoplanet star) (enabled_entries self).
Proof.
  unfold ScoringEngine.evaluate. cbn [HabitabilityAssessment.missing_parameters].
  rewrite loop_spec. reflexivity.
Qed.

Lemma evaluate_data_completeness :
  HabitabilityAssessment.data_completeness
    (ScoringEngine.evaluate self now exoplanet star)
  = if (0 <? List.length (enabled_entries self))%nat
    then INR (List.length (filter (entry_applicable exoplanet star)
                                  (enabled_entries self)))
         / INR (List.length (enabled_entries self))
    else 0.0.
Proof.
  unfold ScoringEngine.evaluate. cbn [HabitabilityAssessment.data_completeness].
  rewrite loop_spec. reflexivity.
Qed.

End Report.

(** ** Partial failure isolation *)

(** A factor that returned keeps the invariant
    [weighted_score = raw_score * weight]. *)
Lemma score_of_result_weighted nw fid factor result :
  FactorScore.weighted_score (score_of_result nw fid factor result)
  = FactorScore.raw_score (score_of_result nw fid factor result)
    * FactorScore.weight (score_of_result nw fid factor result).
Proof. reflexivity. Qed.

(** The degraded score of a factor that raised. *)
Lemma score_of_error_spec nw fid factor e :
  let fs := score_of_error nw fid factor e in
  FactorScore.factor_id fs = fid
  /\ FactorScore.raw_score fs = 0.5
  /\ FactorScore.weighted_score fs = 0.05
  /\ FactorScore.weight fs = ScoringEngine.weight_or_default nw fid
  /\ FactorScore.confidence fs = ConfidenceLevel.VERY_LOW
  /\ FactorScore.explanation fs = Lit "Error during evaluation: " :: Py.exc_str e.
Proof. simpl. repeat split. Qed.

(** A factor that raised keeps the invariant only under the fallback weight
    0.1, for which the hard-coded 0.05 was computed. *)
Lemma score_of_error_weighted_fallback nw fid factor e :
  Py.dict_get nw fid = None ->
  FactorScore.weighted_score (score_of_error nw fid factor e)
  = FactorScore.raw_score (score_of_error nw fid factor e)
    * FactorScore.weight (score_of_error nw fid factor e).
Proof.
  intros H. unfold score_of_error, ScoringEngine.weight_or_default. rewrite H.
  cbn [FactorScore.weighted_score FactorScore.raw_score FactorScore.weight]. lra.
Qed.

Lemma factor_id_score_of_entry nw exoplanet star (entry : string * ScoringFactor.t) :
  FactorScore.factor_id (score_of_entry nw exoplanet star entry) = fst entry.
Proof.
  unfold score_of_entry. now destruct (ScoringFactor.evaluate (snd entry) exoplanet star).
Qed.

(** The weight of a factor score depends on the factor id alone, not on what
    the factor returned. *)
Lemma weight_score_of_entry nw exoplanet star (entry : string * ScoringFactor.t) :
  FactorScore.weight (score_of_entry nw exoplanet star entry)
  = ScoringEngine.weight_or_default nw (fst entry).
Proof.
  unfold score_of_entry. now destruct (ScoringFactor.evaluate (snd entry) exoplanet star).
Qed.

(** C1: when the [evaluate] of a registered, enabled factor raises, the
    engine still returns an assessment with one factor score per enabled
    registered factor, in registry order; every factor that returned keeps
    its own result; and the faulty factor is present with raw score 0.5,
    confidence very_low and the exception's text embedded in its
    explanation. *)
Theorem partial_failure_isolation
    (self : ScoringEngine.t) (now : Z) (exoplanet : ExoplanetEntity.t) (star : StarEntity.t)
    (fid : string) (factor : ScoringFactor.t) (e : Py.Exc) :
  In (fid, factor) (ScoringEngine._factors self) ->
  ScoringConfig.is_factor_enabled (ScoringEngine.config self) fid = true ->
  ScoringFactor.evaluate factor exoplanet star = Py.Raised e ->
  let assessment := ScoringEngine.evaluate self now exoplanet star in
  map FactorScore.factor_id (HabitabilityAssessment.factor_scores assessment)
  = map fst (enabled_entries self)
  /\ (forall fid' factor' result,
        In (fid', factor') (enabled_entries self) ->
        ScoringFactor.evaluate factor' exoplanet star = Py.Returned result ->
        exists fs, In fs (HabitabilityAssessment.factor_scores assessment)
                   /\ FactorScore.factor_id fs = fid'
                   /\ FactorScore.raw_score fs = FactorResult.score result
                   /\ FactorScore.confidence fs = FactorResult.confidence result
                   /\ FactorScore.explanation fs = FactorResult.explanation result)
  /\ (exists fs, In fs (HabitabilityAssessment.factor_scores assessment)
                 /\ FactorScore.factor_id fs = fid
                 /\ FactorScore.raw_score fs = 0.5
                 /\ FactorScore.confidence fs = ConfidenceLevel.VERY_LOW
                 /\ FactorScore.explanation fs
                    = Lit "Error during evaluation: " :: Py.exc_str e).
Proof.
  intros Hin Hen Hraise assessment. subst assessment.
  rewrite evaluate_factor_scores. unfold expected_scores.
  set (nw := ScoringConfig.normalize_weights (ScoringEngine.config self)).
  repeat split.
  - rewrite map_map. apply map_ext. intros entry. apply factor_id_score_of_entry.
  - intros fid' factor' result Hin' Hret.
    exists (score_of_entry nw exoplanet star (fid', factor')). split.
    + apply in_map. exact Hin'.
    + unfold score_of_entry. cbn [fst snd]. rewrite Hret. repeat split.
  - exists (score_of_entry nw exoplanet star (fid, factor)). split.
    + apply in_map. unfold enabled_entries. apply filter_In.
      split; [exact Hin | exact Hen].
    + unfold score_of_entry. cbn [fst snd]. rewrite Hraise. repeat split.
Qed.

(** The density factor raises on a planet of mass 1 and radius 0. *)
Lemma planet_density_raises_on_zero_radius (star : StarEntity.t) :
  PlanetDensityFactor.evaluate (exoplanet_with zero_radius) star
  = Py.Raised Py.ZeroDivisionError.
Proof.
  unfold PlanetDensityFactor.evaluate, exoplanet_with. cbn [ExoplanetEntity.physical].
  rewrite estimate_density_zero_radius. reflexivity.
Qed.

(** The mass factor gives such a planet the score 1.0. *)
Lemma planet_mass_earthlike (star : StarEntity.t) :
  exists result,
    PlanetMassFactor.evaluate (exoplanet_with zero_radius) star = Py.Returned result
    /\ FactorResult.score result = 1.0.
Proof.
  unfold PlanetMassFactor.evaluate, exoplanet_with, zero_radius.
  cbn [ExoplanetEntity.physical PhysicalParameters.mass_earth].
  py_decide. cbv zeta beta iota.
  eexists; split; [reflexivity |]. rewrite score_init. apply clamp_id. lra.
Qed.

(** With the mass factor and the density factor registered, a planet of
    mass 1 and radius 0 makes the density factor raise while the mass factor
    returns the score 1.0: the assessment is returned all the same, the mass
    factor keeps its own result and the density factor is present with its
    degraded score. *)
Lemma partial_failure_isolation_witness :
  let exoplanet := exoplanet_with zero_radius in
  let star := empty_star "" in
  let assessment := ScoringEngine.evaluate skewed_engine 0 exoplanet star in
  (In ("planet_mass", PlanetMassFactor.factor) (enabled_entries skewed_engine)
   /\ exists result,
        ScoringFactor.evaluate PlanetMassFactor.factor exoplanet star = Py.Returned result
        /\ FactorResult.score result = 1.0)
  /\ map FactorScore.factor_id (HabitabilityAssessment.factor_scores assessment)
     = map fst (enabled_entries skewed_engine)
  /\ (forall fid' factor' result,
        In (fid', factor') (enabled_entries skewed_engine) ->
        ScoringFactor.evaluate factor' exoplanet star = Py.Returned result ->
        exists fs, In fs (HabitabilityAssessment.factor_scores assessment)
                   /\ FactorScore.factor_id fs = fid'
                   /\ FactorScore.raw_score fs = FactorResult.score result
                   /\ FactorScore.confidence fs = FactorResult.confidence result
                   /\ FactorScore.explanation fs = FactorResult.explanation result)
  /\ (exists fs, In fs (HabitabilityAssessment.factor_scores assessment)
                 /\ FactorScore.factor_id fs = "planet_density"
                 /\ FactorScore.raw_score fs = 0.5
                 /\ FactorScore.confidence fs = ConfidenceLevel.VERY_LOW
                 /\ FactorScore.explanation fs
                    = Lit "Error during evaluation: " :: Py.exc_str Py.ZeroDivisionError).
Proof.
  split.
  - split; [left; reflexivity | apply planet_mass_earthlike].
  - apply (partial_failure_isolation skewed_engine 0 (exoplanet_with zero_radius)
             (empty_star "") "planet_density" PlanetDensityFactor.factor
             Py.ZeroDivisionError).
    + right. left. reflexivity.
    + reflexivity.
    + apply planet_density_raises_on_zero_radius.
Defined.

(** ** The degraded score and the total *)

(** The normalized weights of the skewed configuration. *)
Lemma normalize_skewed_config :
  ScoringConfig.normalize_weights skewed_config
  = [("planet_mass", 0.99 / 1); ("planet_density", 0.01 / 1)].
Proof.
  assert (Htot : ScoringConfig.get_total_weight skewed_config = 1).
  { unfold ScoringConfig.get_total_weight, skewed_config.
    cbn [ScoringConfig.factor_weights map filter fst snd
         FactorWeightConfig.enabled FactorWeightConfig.weight].
    rewrite !sum_cons, sum_nil. lra. }
  unfold ScoringConfig.normalize_weights. rewrite Htot.
  rewrite eqb_false by lra. reflexivity.
Qed.

(** The scores the two engines report for a planet of mass 1 and radius 0. *)
Lemma density_engine_scores :
  expected_scores density_engine (exoplanet_with zero_radius) (empty_star "")
  = [score_of_error default_normalized "planet_density" PlanetDensityFactor.factor
       Py.ZeroDivisionError].
Proof.
  unfold expected_scores.
  change (ScoringEngine.config density_engine) with default_config.
  rewrite normalize_default_config.
  change (enabled_entries density_engine)
    with [("planet_density", PlanetDensityFactor.factor)].
  cbn [map]. unfold score_of_entry. cbn [fst snd].
  change (ScoringFactor.evaluate PlanetDensityFactor.factor)
    with PlanetDensityFactor.evaluate.
  rewrite planet_density_raises_on_zero_radius. reflexivity.
Qed.

Lemma skewed_engine_scores :
  exists result,
    FactorResult.score result = 1.0
    /\ expected_scores skewed_engine (exoplanet_with zero_radius) (empty_star "")
       = [score_of_result [("planet_mass", 0.99 / 1); ("planet_density", 0.01 / 1)]
            "planet_mass" PlanetMassFactor.factor result;
          score_of_error [("planet_mass", 0.99 / 1); ("planet_density", 0.01 / 1)]
            "planet_density" PlanetDensityFactor.factor Py.ZeroDivisionError].
Proof.
  destruct (planet_mass_earthlike (empty_star "")) as [result [Hev Hscore]].
  exists result. split; [exact Hscore |].
  unfold expected_scores.
  change (ScoringEngine.config skewed_engine) with skewed_config.
  rewrite normalize_skewed_config.
  change (enabled_entries skewed_engine)
    with [("planet_mass", PlanetMassFactor.factor);
          ("planet_density", PlanetDensityFactor.factor)].
  cbn [map]. unfold score_of_entry. cbn [fst snd].
  change (ScoringFactor.evaluate PlanetDensityFactor.factor)
    with PlanetDensityFactor.evaluate.
  change (ScoringFactor.evaluate PlanetMassFactor.factor)
    with PlanetMassFactor.evaluate.
  rewrite planet_density_raises_on_zero_radius, Hev. reflexivity.
Qed.

(** C3 (the failing input): with the built-in configuration and the density
    factor registered, a planet of mass 1 and radius 0 makes the factor
    raise; its degraded score carries the normalized weight 0.05 but the
    hard-coded weighted score 0.05, which is not [raw_score * weight]
    (0.025). *)
Theorem degraded_weighted_score_mismatch :
  exists fs,
    HabitabilityAssessment.factor_scores
      (ScoringEngine.evaluate density_engine 0 (exoplanet_with zero_radius) (empty_star ""))
    = [fs]
    /\ FactorScore.factor_id fs = "planet_density"
    /\ FactorScore.raw_score fs = 0.5
    /\ FactorScore.weight fs = 0.05
    /\ FactorScore.weighted_score fs = 0.05
    /\ FactorScore.weighted_score fs <> FactorScore.raw_score fs * FactorScore.weight fs.
Proof.
  rewrite evaluate_factor_scores, density_engine_scores.
  eexists. split; [reflexivity |].
  unfold score_of_error, ScoringEngine.weight_or_default. cbn.
  repeat split; lra.
Qed.

(** C10 (the failing input): with weights 0.99 for the mass factor and 0.01
    for the density factor, a planet of mass 1 and radius 0 scores 1.0 on
    mass while the density factor raises; the degraded score contributes the
    hard-coded 0.05 against a weight of 0.01, and the weighted average is
    1.04, above 1. *)
Theorem total_score_exceeds_one :
  HabitabilityAssessment.total_score
    (ScoringEngine.evaluate skewed_engine 0 (exoplanet_with zero_radius) (empty_star ""))
  = 1.04.
Proof.
  rewrite evaluate_total_score.
  destruct skewed_engine_scores as [result [Hscore ->]].
  unfold ScoringEngine._calculate_total_score.
  change (ScoringConfig.normalization_method (ScoringEngine.config skewed_engine))
    with "weighted_average".
  change (String.eqb "weighted_average" "weighted_average") with true. cbv iota.
  unfold ScoringEngine.weighted_average, score_of_result, score_of_error.
  cbn [map FactorScore.weight FactorScore.weighted_score].
  change (ScoringEngine.weight_or_default
            [("planet_mass", 0.99 / 1); ("planet_density", 0.01 / 1)] "planet_mass")
    with (0.99 / 1).
  change (ScoringEngine.weight_or_default
            [("planet_mass", 0.99 / 1); ("planet_density", 0.01 / 1)] "planet_density")
    with (0.01 / 1).
  rewrite !sum_cons, sum_nil, Hscore.
  rewrite eqb_false by lra. lra.
Qed.

(** ** The default engine *)

Lemma create_default_engine_returns :
  create_default_engine = Py.Returned default_engine.
Proof.
  unfold create_default_engine, ScoringEngine.init.
  rewrite load_default_config_returns. reflexivity.
Qed.

(** Every registered factor of the default engine is enabled: twelve by
    their entry in the weight table, [magnetic_field] for want of one. *)
Lemma enabled_entries_default :
  enabled_entries default_engine = ScoringEngine._factors default_engine.
Proof. reflexivity. Qed.

Lemma expected_scores_default (exoplanet : ExoplanetEntity.t) (star : StarEntity.t) :
  expected_scores default_engine exoplanet star
  = map (score_of_entry default_normalized exoplanet star)
        (ScoringEngine._factors default_engine).
Proof.
  unfold expected_scores. rewrite enabled_entries_default.
  change (ScoringEngine.config default_engine) with default_config.
  now rewrite normalize_default_config.
Qed.

(** The weights the default engine applies, in registry order. *)
Lemma default_applied_weights :
  map (fun entry : string * ScoringFactor.t =>
         ScoringEngine.weight_or_default default_normalized (fst entry))
      (ScoringEngine._factors default_engine)
  = [0.12 / 1; 0.08 / 1; 0.05 / 1; 0.05 / 1; 0.12 / 1; 0.08 / 1; 0.05 / 1; 0.10 / 1;
     0.05 / 1; 0.08 / 1; 0.07 / 1; 0.08 / 1; 0.1].
Proof. reflexivity. Qed.

Lemma default_weights_of_scores (exoplanet : ExoplanetEntity.t) (star : StarEntity.t) :
  map FactorScore.weight (expected_scores default_engine exoplanet star)
  = [0.12 / 1; 0.08 / 1; 0.05 / 1; 0.05 / 1; 0.12 / 1; 0.08 / 1; 0.05 / 1; 0.10 / 1;
     0.05 / 1; 0.08 / 1; 0.07 / 1; 0.08 / 1; 0.1].
Proof.
  rewrite expected_scores_default, map_map, <- default_applied_weights.
  apply map_ext. intros entry. apply weight_score_of_entry.
Qed.

Lemma default_weights_sum (exoplanet : ExoplanetEntity.t) (star : StarEntity.t) :
  Py.sum (map FactorScore.weight (expected_scores default_engine exoplanet star)) = 1.03.
Proof. rewrite default_weights_of_scores. rewrite !sum_cons, sum_nil. lra. Qed.

(** An id without an entry in the weight table is enabled. *)
Lemma is_factor_enabled_unconfigured (c : ScoringConfig.t) (fid : string) :
  Py.dict_get (ScoringConfig.factor_weights c) fid = None ->
  ScoringConfig.is_factor_enabled c fid = true.
Proof. intros H. unfold ScoringConfig.is_factor_enabled. now rewrite H. Qed.

(** C9: the magnetic-field factor registers under the id ["magnetic_field"]
    while the weight table has the key ["magnetic_field_potential"].  In the
    default engine the factor is therefore enabled (an id the configuration
    does not know is enabled), absent from the normalized weights, and
    scored with the fallback weight 0.1; the weights applied in an
    evaluation sum to 1.03, more than 1. *)
Theorem magnetic_field_weight_mismatch :
  MagneticFieldPotentialFactor.factor_id = "magnetic_field"
  /\ Py.dict_get ScoringConfig.DEFAULT_WEIGHTS "magnetic_field_potential" = Some 0.07
  /\ Py.dict_get ScoringConfig.DEFAULT_WEIGHTS "magnetic_field" = None
  /\ create_default_engine = Py.Returned default_engine
  /\ (forall c fid,
        Py.dict_get (ScoringConfig.factor_weights c) fid = None ->
        ScoringConfig.is_factor_enabled c fid = true)
  /\ ScoringConfig.is_factor_enabled (ScoringEngine.config default_engine) "magnetic_field"
     = true
  /\ Py.dict_get (ScoringConfig.normalize_weights (ScoringEngine.config default_engine))
                 "magnetic_field" = None
  /\ forall (now : Z) (exoplanet : ExoplanetEntity.t) (star : StarEntity.t),
       let assessment := ScoringEngine.evaluate default_engine now exoplanet star in
       (exists fs, In fs (HabitabilityAssessment.factor_scores assessment)
                   /\ FactorScore.factor_id fs = "magnetic_field"
                   /\ FactorScore.weight fs = 0.1)
       /\ Py.sum (map FactorScore.weight (HabitabilityAssessment.factor_scores assessment))
          = 1.03
       /\ 1.0 < Py.sum (map FactorScore.weight
                            (HabitabilityAssessment.factor_scores assessment)).
Proof.
  split; [reflexivity |]. split; [reflexivity |]. split; [reflexivity |].
  split; [exact create_default_engine_returns |].
  split; [exact is_factor_enabled_unconfigured |]. split; [reflexivity |].
  split.
  { change (ScoringEngine.config default_engine) with default_config.
    rewrite normalize_default_config. reflexivity. }
  intros now exoplanet star assessment. subst assessment.
  rewrite evaluate_factor_scores.
  split; [| rewrite default_weights_sum; split; lra].
  rewrite expected_scores_default.
  exists (score_of_entry default_normalized exoplanet star
            ("magnetic_field", MagneticFieldPotentialFactor.factor)).
  split.
  - apply in_map. unfold default_engine, get_all_factors.
    cbn [ScoringEngine._factors map]. do 12 right. left. reflexivity.
  - split; [apply factor_id_score_of_entry |].
    rewrite weight_score_of_entry. reflexivity.
Qed.

(** ** The fully-empty scenario *)

Lemma weighted_average_const (s : R) (l : list FactorScore.t) :
  Forall (fun fs => FactorScore.weighted_score fs = s * FactorScore.weight fs) l ->
  Py.sum (map FactorScore.weight l) <> 0 ->
  ScoringEngine.weighted_average l = s.
Proof.
  intros Hall Hne. unfold ScoringEngine.weighted_average.
  rewrite eqb_false by exact Hne.
  assert (Hsum : Py.sum (map FactorScore.weighted_score l)
                 = s * Py.sum (map FactorScore.weight l)).
  { clear Hne. induction Hall as [| fs l Hfs _ IH]; simpl.
    - rewrite sum_nil. lra.
    - rewrite !sum_cons, IH, Hfs. lra. }
  rewrite Hsum. field. exact Hne.
Qed.

Section Empty.

Variables name host sname : string.

(** What each default factor returns on the empty pair: the luminosity-class
    factor scores the [UNKNOWN] class; every other factor reports its missing
    field. *)
Lemma stellar_factors_on_empty :
  StellarTypeFactor.evaluate (empty_exoplanet name host) (empty_star sname)
  = Py.Returned (BaseScoringFactor._create_missing_data_result
                   "stellar_type" "stellar_type")
  /\ StellarLuminosityFactor.evaluate (empty_exoplanet name host) (empty_star sname)
     = Py.Returned (FactorResult.init "stellar_luminosity" 0.5
         (Some (text "UNKNOWN")) (Some "Luminosity Class")
         (Some (text "V (Main Sequence)"))
         StellarLuminosityFactor.explanation_l284 ConfidenceLevel.LOW [] true None)
  /\ StellarAgeFactor.evaluate (empty_exoplanet name host) (empty_star sname)
     = Py.Returned (BaseScoringFactor._create_missing_data_result
                      "stellar_age" "stellar_age_gyr")
  /\ HabitableZonePositionFactor.evaluate (empty_exoplanet name host) (empty_star sname)
     = Py.Returned (BaseScoringFactor._create_missing_data_result
                      "habitable_zone_position" "semi_major_axis_au").
Proof. repeat split. Qed.

Lemma planetary_factors_on_empty :
  PlanetRadiusFactor.evaluate (empty_exoplanet name host) (empty_star sname)
  = Py.Returned (BaseScoringFactor._create_missing_data_result
                   "planet_radius" "planet_radius_earth")
  /\ PlanetMassFactor.evaluate (empty_exoplanet name host) (empty_star sname)
     = Py.Returned (BaseScoringFactor._create_missing_data_result
                      "planet_mass" "planet_mass_earth")
  /\ PlanetDensityFactor.evaluate (empty_exoplanet name host) (empty_star sname)
     = Py.Returned (BaseScoringFactor._create_missing_data_result
                      "planet_density" "planet_density")
  /\ EquilibriumTemperatureFactor.evaluate (empty_exoplanet name host) (empty_star sname)
     = Py.Returned (BaseScoringFactor._create_missing_data_result
                      "equilibrium_temperature" "equilibrium_temp_k")
  /\ SurfaceGravityFactor.evaluate (empty_exoplanet name host) (empty_star sname)
     = Py.Returned (BaseScoringFactor._create_missing_data_result
                      "surface_gravity" "surface_gravity").
Proof. repeat split. Qed.

Lemma orbital_derived_factors_on_empty :
  OrbitalEccentricityFactor.evaluate (empty_exoplanet name host) (empty_star sname)
  = Py.Returned (BaseScoringFactor._create_missing_data_result
                   "orbital_eccentricity" "orbital_eccentricity")
  /\ TidalLockingFactor.evaluate (empty_exoplanet name host) (empty_star sname)
     = Py.Returned (BaseScoringFactor._create_missing_data_result
                      "tidal_locking" "orbital_period or semi_major_axis")
  /\ AtmosphereRetentionFactor.evaluate (empty_exoplanet name host) (empty_star sname)
     = Py.Returned (BaseScoringFactor._create_missing_data_result
                      "atmosphere_retention" "planet_mass or planet_radius")
  /\ MagneticFieldPotentialFactor.evaluate (empty_exoplanet name host) (empty_star sname)
     = Py.Returned (BaseScoringFactor._create_missing_data_result
                      "magnetic_field" "planet_mass or planet_radius").
Proof. repeat split. Qed.

(** Every default factor returns the neutral score; only the luminosity-class
    factor is applicable. *)
Lemma default_factors_on_empty (f : ScoringFactor.t) :
  In f get_all_factors ->
  exists result,
    ScoringFactor.evaluate f (empty_exoplanet name host) (empty_star sname)
    = Py.Returned result
    /\ FactorResult.score result = 0.5
    /\ FactorResult.is_applicable result
       = String.eqb (ScoringFactor.factor_id f) "stellar_luminosity".
Proof.
  destruct stellar_factors_on_empty as [S1 [S2 [S3 S4]]].
  destruct planetary_factors_on_empty as [P1 [P2 [P3 [P4 P5]]]].
  destruct orbital_derived_factors_on_empty as [D1 [D2 [D3 D4]]].
  unfold get_all_factors. intros Hin.
  repeat (destruct Hin as [<- | Hin];
          [eexists; split; [eassumption |];
           split; [unfold BaseScoringFactor._create_missing_data_result;
                   rewrite score_init; apply clamp_id; lra
                  | reflexivity] |]).
  contradiction.
Qed.

Lemma luminosity_factor_on_empty :
  exists result,
    StellarLuminosityFactor.evaluate (empty_exoplanet name host) (empty_star sname)
    = Py.Returned result
    /\ FactorResult.is_applicable result = true
    /\ FactorResult.confidence result = ConfidenceLevel.LOW
    /\ FactorResult.missing_data result = None.
Proof. eexists. split; [reflexivity |]. repeat split. Qed.

Lemma applicable_on_empty :
  filter (entry_applicable (empty_exoplanet name host) (empty_star sname))
         (ScoringEngine._factors default_engine)
  = [("stellar_luminosity", StellarLuminosityFactor.factor)].
Proof. reflexivity. Qed.

Lemma missing_on_empty :
  flat_map (entry_missing (empty_exoplanet name host) (empty_star sname))
           (ScoringEngine._factors default_engine)
  = [ "stellar_type"; "stellar_age_gyr"; "semi_major_axis_au"; "planet_radius_earth";
      "planet_mass_earth"; "planet_density"; "equilibrium_temp_k"; "surface_gravity";
      "orbital_eccentricity"; "orbital_period or semi_major_axis";
      "planet_mass or planet_radius"; "planet_mass or planet_radius" ].
Proof. reflexivity. Qed.

Lemma scores_on_empty :
  Forall (fun fs => FactorScore.raw_score fs = 0.5
                    /\ FactorScore.weighted_score fs = 0.5 * FactorScore.weight fs)
         (expected_scores default_engine (empty_exoplanet name host) (empty_star sname)).
Proof.
  rewrite expected_scores_default.
  apply Forall_forall. intros fs Hfs.
  apply in_map_iff in Hfs. destruct Hfs as [[fid f] [<- Hin]].
  assert (Hf : In f get_all_factors).
  { unfold default_engine in Hin. cbn [ScoringEngine._factors] in Hin.
    apply in_map_iff in Hin. destruct Hin as [g [Hg Hin]].
    inversion Hg; subst. exact Hin. }
  destruct (default_factors_on_empty f Hf) as [result [Hev [Hs _]]].
  unfold score_of_entry. cbn [fst snd]. rewrite Hev.
  unfold score_of_result.
  cbn [FactorScore.raw_score FactorScore.weighted_score FactorScore.weight].
  rewrite Hs. split; reflexivity.
Qed.

(** The report of the default engine on the empty pair. *)
Lemma empty_report (now : Z) :
  let assessment :=
    ScoringEngine.evaluate default_engine now (empty_exoplanet name host)
                           (empty_star sname) in
  List.length (HabitabilityAssessment.factor_scores assessment) = 13%nat
  /\ Forall (fun fs => FactorScore.raw_score fs = 0.5)
            (HabitabilityAssessment.factor_scores assessment)
  /\ List.length (HabitabilityAssessment.missing_parameters assessment) = 12%nat
  /\ HabitabilityAssessment.data_completeness assessment = 1 / 13
  /\ HabitabilityAssessment.total_score assessment = 0.5.
Proof.
  intros assessment. subst assessment.
  rewrite evaluate_factor_scores, evaluate_data_completeness, evaluate_total_score,
    evaluate_missing_parameters.
  rewrite enabled_entries_default.
  split; [rewrite expected_scores_default; reflexivity |]. split; [| split; [| split]].
  - eapply Forall_impl; [| apply scores_on_empty]. intros fs [H _]. exact H.
  - rewrite missing_on_empty. reflexivity.
  - rewrite applicable_on_empty.
    change (List.length (ScoringEngine._factors default_engine)) with 13%nat.
    change (List.length [("stellar_luminosity", StellarLuminosityFactor.factor)])
      with 1%nat.
    change (0 <? 13)%nat with true. cbv iota.
    replace (INR 13) with 13 by (simpl; lra). replace (INR 1) with 1 by (simpl; lra).
    reflexivity.
  - unfold ScoringEngine._calculate_total_score.
    change (ScoringConfig.normalization_method (ScoringEngine.config default_engine))
      with "weighted_average".
    change (String.eqb "weighted_average" "weighted_average") with true. cbv iota.
    assert (Havg : ScoringEngine.weighted_average
                     (expected_scores default_engine (empty_exoplanet name host)
                                      (empty_star sname)) = 0.5).
    { apply weighted_average_const.
      - eapply Forall_impl; [| apply scores_on_empty]. intros fs [_ H]. exact H.
      - rewrite default_weights_sum. lra. }
    destruct (expected_scores default_engine (empty_exoplanet name host)
                              (empty_star sname)) eqn:E.
    + rewrite expected_scores_default in E. discriminate E.
    + exact Havg.
Qed.

End Empty.

(** The luminosity-class factor and its sibling on one and the same star
    without a spectral type: the spectral-type factor reports the missing
    field, the luminosity-class factor scores the [UNKNOWN] class as an
    applicable result. *)
Lemma spectral_type_guard_on_empty (name host sname : string) :
  (exists result,
     StellarLuminosityFactor.evaluate (empty_exoplanet name host) (empty_star sname)
     = Py.Returned result
     /\ FactorResult.score result = 0.5
     /\ FactorResult.is_applicable result = true
     /\ FactorResult.missing_data result = None
     /\ FactorResult.confidence result = ConfidenceLevel.LOW
     /\ FactorResult.input_value result = Some (text "UNKNOWN"))
  /\ (exists result,
        StellarTypeFactor.evaluate (empty_exoplanet name host) (empty_star sname)
        = Py.Returned result
        /\ FactorResult.score result = 0.5
        /\ FactorResult.is_applicable result = false
        /\ FactorResult.missing_data result = Some "stellar_type"
        /\ FactorResult.confidence result = ConfidenceLevel.VERY_LOW).
Proof.
  destruct (stellar_factors_on_empty name host sname) as [S1 [S2 _]].
  split; eexists; (split; [eassumption |]).
  - rewrite score_init. repeat split. apply clamp_id. lra.
  - unfold BaseScoringFactor._create_missing_data_result. rewrite score_init.
    repeat split. apply clamp_id. lra.
Qed.

(** C2 (the failing input): for an exoplanet and a star with every optional
    field absent, the default engine is built without error and returns an
    assessment in which every default factor has the neutral score 0.5 and
    the total score is 0.5, as claimed.  But only twelve factors report
    [is_applicable = false]: the luminosity-class factor has no missing-data
    guard (its sibling, the spectral-type factor, has one for the same
    absent spectral type) and returns an applicable result for the unknown
    class, with no missing field and with confidence low.  Twelve
    parameters are reported missing and the data completeness is 1/13, not
    0. *)
Theorem empty_entities_assessment (now : Z) (name host sname : string) :
  let exoplanet := empty_exoplanet name host in
  let star := empty_star sname in
  let assessment := ScoringEngine.evaluate default_engine now exoplanet star in
  create_default_engine = Py.Returned default_engine
  /\ List.length get_all_factors = 13%nat
  /\ ScoringConfig.normalization_method (ScoringEngine.config default_engine)
     = "weighted_average"
  /\ (forall f, In f get_all_factors ->
        exists result,
          ScoringFactor.evaluate f exoplanet star = Py.Returned result
          /\ FactorResult.score result = 0.5
          /\ FactorResult.is_applicable result
             = String.eqb (ScoringFactor.factor_id f) "stellar_luminosity")
  /\ In StellarLuminosityFactor.factor get_all_factors
  /\ (exists result,
        StellarLuminosityFactor.evaluate exoplanet star = Py.Returned result
        /\ FactorResult.score result = 0.5
        /\ FactorResult.is_applicable result = true
        /\ FactorResult.missing_data result = None
        /\ FactorResult.confidence result = ConfidenceLevel.LOW
        /\ FactorResult.input_value result = Some (text "UNKNOWN"))
  /\ (exists result,
        StellarTypeFactor.evaluate exoplanet star = Py.Returned result
        /\ FactorResult.score result = 0.5
        /\ FactorResult.is_applicable result = false
        /\ FactorResult.missing_data result = Some "stellar_type"
        /\ FactorResult.confidence result = ConfidenceLevel.VERY_LOW)
  /\ List.length (HabitabilityAssessment.factor_scores assessment) = 13%nat
  /\ Forall (fun fs => FactorScore.raw_score fs = 0.5)
            (HabitabilityAssessment.factor_scores assessment)
  /\ List.length (HabitabilityAssessment.missing_parameters assessment) = 12%nat
  /\ HabitabilityAssessment.data_completeness assessment = 1 / 13
  /\ HabitabilityAssessment.data_completeness assessment <> 0.0
  /\ HabitabilityAssessment.total_score assessment = 0.5.
Proof.
  intros exoplanet star assessment.
  split; [exact create_default_engine_returns |].
  split; [reflexivity |]. split; [reflexivity |].
  split; [intros f Hf; apply default_factors_on_empty; exact Hf |].
  split; [unfold get_all_factors; right; left; reflexivity |].
  destruct (spectral_type_guard_on_empty name host sname) as [Hlum Htype].
  split; [exact Hlum |]. split; [exact Htype |].
  destruct (empty_report name host sname now) as [H1 [H2 [H3 [H4 H5]]]].
  fold exoplanet star assessment in H1, H2, H3, H4, H5.
  repeat (split; [assumption |]).
  split; [rewrite H4; lra | exact H5].
Qed.

(** The scenario as the specification words it fails: on the empty pair the
    luminosity-class factor reports [is_applicable = true], so not every
    factor is inapplicable and the data completeness is not 0. *)
Lemma empty_entities_not_all_inapplicable :
  ~ ((forall f result,
        In f get_all_factors ->
        ScoringFactor.evaluate f (empty_exoplanet "" "") (empty_star "")
        = Py.Returned result ->
        FactorResult.is_applicable result = false /\ FactorResult.score result = 0.5)
     /\ HabitabilityAssessment.data_completeness
          (ScoringEngine.evaluate default_engine 0 (empty_exoplanet "" "") (empty_star ""))
        = 0.0).
Proof.
  intros [Hall _].
  destruct (luminosity_factor_on_empty "" "" "") as [result [Hev [Happ _]]].
  destruct (Hall StellarLuminosityFactor.factor result) as [Hfalse _].
  - unfold get_all_factors. right. left. reflexivity.
  - exact Hev.
  - congruence.
Qed.

(** ** Habitable-zone boundaries *)

(** The four flux polynomials keep their order
    [early_mars <= max_greenhouse < runaway <= recent_venus], and stay
    positive, for [t_star] in [-5780, 3220], that is for effective
    temperatures from 0 K to 9000 K. *)
Ltac split_range t :=
  destruct (Rle_lt_dec t (-4000));
    [| destruct (Rle_lt_dec t (-2000));
       [| destruct (Rle_lt_dec t 0); [| destruct (Rle_lt_dec t 2000)]]];
  nra.

Lemma s_early_mars_pos (t : R) : -5780 <= t <= 3220 -> 0 < StarEntity.s_early_mars t.
Proof. unfold StarEntity.s_early_mars. intros H. split_range t. Qed.

Lemma s_early_mars_le_max_greenhouse (t : R) :
  -5780 <= t <= 3220 -> StarEntity.s_early_mars t <= StarEntity.s_max_greenhouse t.
Proof. unfold StarEntity.s_early_mars, StarEntity.s_max_greenhouse. intros H. split_range t. Qed.

Lemma s_max_greenhouse_lt_runaway (t : R) :
  -5780 <= t <= 3220 -> StarEntity.s_max_greenhouse t < StarEntity.s_runaway t.
Proof. unfold StarEntity.s_max_greenhouse, StarEntity.s_runaway. intros H. split_range t. Qed.

Lemma s_runaway_le_recent_venus (t : R) :
  -5780 <= t <= 3220 -> StarEntity.s_runaway t <= StarEntity.s_recent_venus t.
Proof. unfold StarEntity.s_runaway, StarEntity.s_recent_venus. intros H. split_range t. Qed.

(** The temperature offset of a temperate star. *)
Lemma temperate_t_star (star : StarEntity.t) :
  temperate star ->
  -5780 <= Py.or_else (StarEntity.temperature_k star) StarEntity.SOLAR_TEMP_K - 5780
        <= 3220.
Proof.
  unfold temperate, Py.or_else, StarEntity.SOLAR_TEMP_K.
  destruct (StarEntity.temperature_k star) as [temp |]; [| lra].
  intros H. destruct (eqb_cases temp 0) as [[_ E] | [_ E]]; rewrite E; lra.
Qed.

Lemma sqrt_returns (x : R) : 0 <= x -> Py.sqrt x = Py.Returned (sqrt x).
Proof. intros H. unfold Py.sqrt. rewrite ltb_false by lra. reflexivity. Qed.

(** A positive flux gives a boundary distance. *)
Lemma hz_distance_pos (sqrt_l s : R) :
  0 < s -> StarEntity.hz_distance sqrt_l s = Py.Returned (Some (sqrt_l / sqrt s)).
Proof.
  intros H. unfold StarEntity.hz_distance, Py.gtb. rewrite ltb_true by lra.
  rewrite sqrt_returns by lra. cbn [Py.bind].
  unfold Py.div. rewrite eqb_false; [reflexivity |].
  pose proof (sqrt_lt_R0 s H). lra.
Qed.

(** A larger flux puts the boundary closer to the star. *)
Lemma distance_antitone (a s1 s2 : R) :
  0 < a -> 0 < s1 -> s1 <= s2 -> a / sqrt s2 <= a / sqrt s1.
Proof.
  intros Ha H1 H12.
  pose proof (sqrt_lt_R0 s1 H1) as Hs1.
  assert (Hs : sqrt s1 <= sqrt s2) by (apply sqrt_le_1_alt; exact H12).
  unfold Rdiv. apply Rmult_le_compat_l; [lra |].
  apply Rinv_le_contravar; lra.
Qed.

Lemma distance_strictly_antitone (a s1 s2 : R) :
  0 < a -> 0 < s1 -> s1 < s2 -> a / sqrt s2 < a / sqrt s1.
Proof.
  intros Ha H1 H12.
  pose proof (sqrt_lt_R0 s1 H1) as Hs1.
  assert (Hs : sqrt s1 < sqrt s2) by (apply sqrt_lt_1_alt; lra).
  unfold Rdiv. apply Rmult_lt_compat_l; [lra |].
  apply Rinv_lt_contravar; [nra | lra].
Qed.

(** The zone of a star of positive luminosity whose four fluxes are
    positive. *)
Lemma calculate_habitable_zone_value (star : StarEntity.t) (l : R) :
  StarEntity.estimate_luminosity star = Some l -> 0 <= l ->
  let t_star := Py.or_else (StarEntity.temperature_k star) StarEntity.SOLAR_TEMP_K - 5780 in
  0 < StarEntity.s_runaway t_star -> 0 < StarEntity.s_max_greenhouse t_star ->
  0 < StarEntity.s_recent_venus t_star -> 0 < StarEntity.s_early_mars t_star ->
  StarEntity.calculate_habitable_zone star
  = Py.Returned (Some (sqrt l / sqrt (StarEntity.s_runaway t_star),
                       sqrt l / sqrt (StarEntity.s_max_greenhouse t_star),
                       sqrt l / sqrt (StarEntity.s_recent_venus t_star),
                       sqrt l / sqrt (StarEntity.s_early_mars t_star))).
Proof.
  intros Hl Hpos t_star H1 H2 H3 H4.
  unfold StarEntity.calculate_habitable_zone. rewrite Hl.
  fold t_star. cbv zeta.
  rewrite sqrt_returns by exact Hpos. cbn [Py.bind].
  rewrite !hz_distance_pos by assumption. reflexivity.
Qed.

(** C5 (amended): for every star whose luminosity is known or estimable and
    positive, and whose effective temperature is absent or lies between 0 K
    and 9000 K, [calculate_habitable_zone] returns a tuple, and the tuple
    satisfies [conservative_inner < conservative_outer] and
    [optimistic_inner <= conservative_inner <= conservative_outer
     <= optimistic_outer]. *)
Theorem habitable_zone_ordering (star : StarEntity.t) (l : R) :
  StarEntity.estimate_luminosity star = Some l -> 0 < l -> temperate star ->
  exists ci co oi oo,
    StarEntity.calculate_habitable_zone star = Py.Returned (Some (ci, co, oi, oo))
    /\ ci < co /\ oi <= ci /\ ci <= co /\ co <= oo.
Proof.
  intros Hl Hpos Htemp.
  pose proof (temperate_t_star star Htemp) as Ht.
  set (t_star := Py.or_else (StarEntity.temperature_k star) StarEntity.SOLAR_TEMP_K - 5780) in *.
  pose proof (s_early_mars_pos t_star Ht) as Hem.
  pose proof (s_early_mars_le_max_greenhouse t_star Ht) as Hmg.
  pose proof (s_max_greenhouse_lt_runaway t_star Ht) as Hrw.
  pose proof (s_runaway_le_recent_venus t_star Ht) as Hrv.
  pose proof (sqrt_lt_R0 l Hpos) as Hsl.
  do 4 eexists. split.
  - apply (calculate_habitable_zone_value star l Hl); fold t_star; lra.
  - fold t_star.
    assert (Hstrict : sqrt l / sqrt (StarEntity.s_runaway t_star)
                      < sqrt l / sqrt (StarEntity.s_max_greenhouse t_star))
      by (apply distance_strictly_antitone; lra).
    repeat split.
    + exact Hstrict.
    + apply distance_antitone; lra.
    + lra.
    + apply distance_antitone; lra.
Qed.

(** The ordering for a Sun-like star: luminosity 1, temperature 5778 K. *)
Lemma habitable_zone_ordering_witness :
  exists ci co oi oo,
    StarEntity.calculate_habitable_zone sun = Py.Returned (Some (ci, co, oi, oo))
    /\ ci < co /\ oi <= ci /\ ci <= co /\ co <= oo.
Proof.
  apply (habitable_zone_ordering sun 1.0).
  - reflexivity.
  - lra.
  - cbn. lra.
Defined.

(** The fluxes at 9940 K: all positive, with the early-Mars flux above the
    maximum-greenhouse flux. *)
Lemma fluxes_at_9940 :
  0 < StarEntity.s_runaway 4160 /\ 0 < StarEntity.s_recent_venus 4160
  /\ 0 < StarEntity.s_max_greenhouse 4160
  /\ StarEntity.s_max_greenhouse 4160 < StarEntity.s_early_mars 4160.
Proof.
  unfold StarEntity.s_runaway, StarEntity.s_recent_venus, StarEntity.s_max_greenhouse,
    StarEntity.s_early_mars.
  repeat split; simpl; lra.
Qed.

(** The zone of the hot star, and its two outer boundaries. *)
Lemma hot_star_zone :
  StarEntity.calculate_habitable_zone hot_star
  = Py.Returned (Some (sqrt 25.4 / sqrt (StarEntity.s_runaway 4160),
                       sqrt 25.4 / sqrt (StarEntity.s_max_greenhouse 4160),
                       sqrt 25.4 / sqrt (StarEntity.s_recent_venus 4160),
                       sqrt 25.4 / sqrt (StarEntity.s_early_mars 4160)))
  /\ sqrt 25.4 / sqrt (StarEntity.s_early_mars 4160)
     < sqrt 25.4 / sqrt (StarEntity.s_max_greenhouse 4160).
Proof.
  destruct fluxes_at_9940 as [H1 [H2 [H3 H4]]].
  assert (Ht : Py.or_else (StarEntity.temperature_k hot_star) StarEntity.SOLAR_TEMP_K - 5780
               = 4160).
  { unfold hot_star, Py.or_else. cbn [StarEntity.temperature_k].
    rewrite eqb_false by lra. lra. }
  split.
  - rewrite (calculate_habitable_zone_value hot_star 25.4); try rewrite Ht;
      try reflexivity; lra.
  - apply distance_strictly_antitone; try lra.
    apply sqrt_lt_R0. lra.
Qed.

(** C5 (as stated) fails: for a star of 9940 K and 25.4 solar luminosities
    the function returns a tuple, with the optimistic outer boundary inside
    the conservative outer one. *)
Lemma hot_star_zone_out_of_order :
  ~ (forall ci co oi oo,
       StarEntity.calculate_habitable_zone hot_star = Py.Returned (Some (ci, co, oi, oo)) ->
       ci < co /\ oi <= ci /\ ci <= co /\ co <= oo).
Proof.
  intros Hclaim. destruct hot_star_zone as [Hzone Hlt].
  destruct (Hclaim _ _ _ _ Hzone) as [_ [_ [_ Hle]]]. lra.
Qed.

(** A star of luminosity 0 gets a zone whose four boundaries are 0: the
    strict inequality of the ordering needs a positive luminosity. *)
Lemma dark_star_zone :
  StarEntity.calculate_habitable_zone
    (StarEntity.mk "" None None None (Some 5778) (Some 0) None None None)
  = Py.Returned (Some (0 / sqrt (StarEntity.s_runaway (-2)),
                       0 / sqrt (StarEntity.s_max_greenhouse (-2)),
                       0 / sqrt (StarEntity.s_recent_venus (-2)),
                       0 / sqrt (StarEntity.s_early_mars (-2)))).
Proof.
  set (star := StarEntity.mk "" None None None (Some 5778) (Some 0) None None None).
  assert (Ht : Py.or_else (StarEntity.temperature_k star) StarEntity.SOLAR_TEMP_K - 5780
               = -2).
  { unfold star, Py.or_else. cbn [StarEntity.temperature_k].
    rewrite eqb_false by lra. lra. }
  assert (Hrange : -5780 <= -2 <= 3220) by lra.
  pose proof (s_early_mars_pos _ Hrange).
  pose proof (s_early_mars_le_max_greenhouse _ Hrange).
  pose proof (s_max_greenhouse_lt_runaway _ Hrange).
  pose proof (s_runaway_le_recent_venus _ Hrange).
  rewrite (calculate_habitable_zone_value star 0); try rewrite Ht;
    try reflexivity; try lra.
  now rewrite sqrt_0.
Qed.

(** A negative luminosity makes [math.sqrt] raise. *)
Lemma negative_luminosity_raises :
  StarEntity.calculate_habitable_zone
    (StarEntity.mk "" None None None (Some 5778) (Some (-1)) None None None)
  = Py.Raised Py.ValueError_sqrt.
Proof.
  unfold StarEntity.calculate_habitable_zone, StarEntity.estimate_luminosity,
    StarEntity.luminosity_linear.
  cbn [StarEntity.luminosity_solar]. unfold Py.sqrt at 1.
  rewrite ltb_true by lra. reflexivity.
Qed.

(** ** Where the total score stays in [0, 1] *)

Lemma sum_pairwise_le {A : Type} (f g : A -> R) (l : list A) :
  Forall (fun x => f x <= g x) l -> Py.sum (map f l) <= Py.sum (map g l).
Proof.
  induction 1 as [| x l Hx _ IH]; simpl.
  - lra.
  - rewrite !sum_cons. lra.
Qed.

(** A weighted average of contributions between 0 and the weight lies in
    [0, 1]. *)
Lemma weighted_average_bounds (l : list FactorScore.t) :
  Forall (fun fs => 0 <= FactorScore.weight fs
                    /\ 0 <= FactorScore.weighted_score fs <= FactorScore.weight fs) l ->
  0 <= ScoringEngine.weighted_average l <= 1.
Proof.
  intros Hall. unfold ScoringEngine.weighted_average.
  assert (Hs : 0 <= Py.sum (map FactorScore.weighted_score l)).
  { apply sum_nonneg. apply Forall_map. eapply Forall_impl; [| exact Hall].
    intros fs H. cbv beta in H. lra. }
  assert (Hle : Py.sum (map FactorScore.weighted_score l)
                <= Py.sum (map FactorScore.weight l)).
  { apply sum_pairwise_le. eapply Forall_impl; [| exact Hall].
    intros fs H. cbv beta in H. lra. }
  destruct (eqb_cases (Py.sum (map FactorScore.weight l)) 0) as [[H0 E] | [H0 E]];
    rewrite E; [lra |].
  assert (Hpos : 0 < Py.sum (map FactorScore.weight l)) by lra.
  split.
  - apply Rmult_le_pos; [exact Hs | left; now apply Rinv_0_lt_compat].
  - apply Rmult_le_reg_r with (Py.sum (map FactorScore.weight l)); [exact Hpos |].
    unfold Rdiv. rewrite Rmult_assoc, Rinv_l by lra. lra.
Qed.

(** The floored product of scores that do not exceed 1 is positive and at
    most 1. *)
Lemma floored_product_bounds (l : list FactorScore.t) :
  Forall (fun fs => FactorScore.raw_score fs <= 1) l ->
  0 < ScoringEngine.floored_product l <= 1.
Proof.
  unfold ScoringEngine.floored_product. intros Hall.
  assert (Hgen : forall acc, 0 < acc <= 1 ->
            0 < fold_left (fun product f => product * Py.max (FactorScore.raw_score f) 0.01)
                          l acc <= 1).
  { induction Hall as [| fs l Hfs _ IH]; intros acc Hacc; simpl.
    - exact Hacc.
    - apply IH. rewrite max_spec. unfold Rmax.
      destruct (Rle_dec (FactorScore.raw_score fs) 0.01); nra. }
  apply Hgen. lra.
Qed.

Lemma Rpower_unit_interval (p e : R) : 0 < p <= 1 -> 0 <= e -> 0 < Rpower p e <= 1.
Proof.
  intros Hp He. unfold Rpower. split; [apply exp_pos |].
  assert (Hln : ln p <= 0).
  { destruct (Req_dec p 1) as [-> | Hne]; [rewrite ln_1; lra |].
    rewrite <- ln_1. left. apply ln_increasing; lra. }
  assert (Hprod : e * ln p <= 0) by nra.
  destruct Hprod as [Hlt | Heq].
  - left. rewrite <- exp_0. now apply exp_increasing.
  - rewrite Heq, exp_0. lra.
Qed.

(** The smallest of scores of [0, 1] is in [0, 1]. *)
Lemma min_raw_score_bounds (l : list FactorScore.t) :
  Forall (fun fs => 0 <= FactorScore.raw_score fs <= 1) l ->
  0 <= ScoringEngine.min_raw_score l <= 1.
Proof.
  unfold ScoringEngine.min_raw_score. intros Hall.
  destruct Hall as [| f rest Hf Hrest]; [lra |].
  revert Hf. generalize (FactorScore.raw_score f).
  induction Hrest as [| g rest Hg _ IH]; intros best Hbest; simpl.
  - exact Hbest.
  - apply IH. rewrite min_spec. unfold Rmin.
    destruct (Rle_dec best (FactorScore.raw_score g)); lra.
Qed.

(** The normalized weights of a validated configuration are not negative, and
    neither is the fallback weight. *)
Lemma normalize_weights_nonneg (c : ScoringConfig.t) :
  validated c -> Forall (fun kv => 0 <= snd kv) (ScoringConfig.normalize_weights c).
Proof.
  intros Hv. pose proof (validated_weights_nonneg c Hv) as Hnn.
  pose proof (sum_nonneg _ Hnn) as Htot. fold (ScoringConfig.get_total_weight c) in Htot.
  unfold ScoringConfig.normalize_weights.
  destruct (eqb_cases (ScoringConfig.get_total_weight c) 0) as [[H0 E] | [H0 E]];
    rewrite E; [constructor |].
  apply Forall_forall. intros x Hx.
  apply in_map_iff in Hx. destruct Hx as [kv [<- Hkv]].
  apply filter_In in Hkv. destruct Hkv as [Hin _].
  unfold validated in Hv. rewrite Forall_forall in Hv.
  destruct (post_init_returned _ _ (Hv kv Hin)) as [Hw _].
  cbn [snd]. apply Rmult_le_pos; [lra |]. left. apply Rinv_0_lt_compat. lra.
Qed.

Lemma dict_get_member {A : Type} (d : list (string * A)) (key : string) (v : A) :
  Py.dict_get d key = Some v -> exists k, In (k, v) d.
Proof.
  induction d as [| [k x] d IH]; simpl; [discriminate |].
  destruct (String.eqb k key).
  - intros H. inversion H; subst. exists k. now left.
  - intros H. destruct (IH H) as [k' Hk']. exists k'. now right.
Qed.

Lemma weight_or_default_nonneg (nw : list (string * R)) (fid : string) :
  Forall (fun kv => 0 <= snd kv) nw -> 0 <= ScoringEngine.weight_or_default nw fid.
Proof.
  intros Hnw. unfold ScoringEngine.weight_or_default.
  destruct (Py.dict_get nw fid) as [w |] eqn:E; [| lra].
  destruct (dict_get_member nw fid w E) as [k Hk].
  rewrite Forall_forall in Hnw. exact (Hnw (k, w) Hk).
Qed.

Section Bounds.

Variable self : ScoringEngine.t.
Variable now : Z.
Variable exoplanet : ExoplanetEntity.t.
Variable star : StarEntity.t.

(** Every result an enabled factor returns has its score in [0, 1], which
    [FactorResult.__post_init__] ensures for every constructed result. *)
Hypothesis results_clamped :
  forall entry result,
    In entry (enabled_entries self) ->
    ScoringFactor.evaluate (snd entry) exoplanet star = Py.Returned result ->
    0 <= FactorResult.score result <= 1.

Lemma raw_scores_bounded :
  Forall (fun fs => 0 <= FactorScore.raw_score fs <= 1)
         (expected_scores self exoplanet star).
Proof.
  unfold expected_scores. apply Forall_map. apply Forall_forall. intros entry Hin.
  unfold score_of_entry.
  destruct (ScoringFactor.evaluate (snd entry) exoplanet star) as [result | e] eqn:E.
  - cbn [score_of_result FactorScore.raw_score]. exact (results_clamped entry result Hin E).
  - cbn [score_of_error FactorScore.raw_score]. lra.
Qed.

(** Under geometric_mean and under minimum the total stays in [0, 1], whether
    or not factors raise. *)
Lemma total_score_bounds_geometric_minimum :
  ScoringConfig.normalization_method (ScoringEngine.config self) = "geometric_mean"
  \/ ScoringConfig.normalization_method (ScoringEngine.config self) = "minimum" ->
  0 <= HabitabilityAssessment.total_score (ScoringEngine.evaluate self now exoplanet star)
    <= 1.
Proof.
  intros Hmethod. rewrite evaluate_total_score.
  pose proof raw_scores_bounded as Hraw.
  unfold ScoringEngine._calculate_total_score.
  destruct (expected_scores self exoplanet star) as [| f rest]; [lra |].
  destruct Hmethod as [-> | ->]; cbn [String.eqb Ascii.eqb Bool.eqb andb].
  - assert (Hp : 0 < ScoringEngine.floored_product (f :: rest) <= 1).
    { apply floored_product_bounds. eapply Forall_impl; [| exact Hraw].
      intros fs H. cbv beta in H. lra. }
    assert (He : 0 <= 1.0 / INR (List.length (f :: rest))).
    { assert (0 < INR (List.length (f :: rest))) by (apply lt_0_INR; simpl; lia).
      apply Rmult_le_pos; [lra |]. left. now apply Rinv_0_lt_compat. }
    pose proof (Rpower_unit_interval _ _ Hp He). lra.
  - apply min_raw_score_bounds. exact Hraw.
Qed.

(** Under weighted_average, and under an unrecognized method, the total stays
    in [0, 1] as long as no enabled factor raises. *)
Lemma total_score_bounds_when_factors_return :
  validated (ScoringEngine.config self) ->
  (forall entry, In entry (enabled_entries self) ->
     exists result, ScoringFactor.evaluate (snd entry) exoplanet star = Py.Returned result) ->
  0 <= HabitabilityAssessment.total_score (ScoringEngine.evaluate self now exoplanet star)
    <= 1.
Proof.
  intros Hv Hret.
  destruct (String.eqb_spec
              (ScoringConfig.normalization_method (ScoringEngine.config self))
              "geometric_mean") as [Hg | Hg];
    [apply total_score_bounds_geometric_minimum; now left |].
  destruct (String.eqb_spec
              (ScoringConfig.normalization_method (ScoringEngine.config self))
              "minimum") as [Hm | Hm];
    [apply total_score_bounds_geometric_minimum; now right |].
  rewrite evaluate_total_score.
  assert (Havg : 0 <= ScoringEngine.weighted_average (expected_scores self exoplanet star)
                   <= 1).
  { apply weighted_average_bounds. unfold expected_scores.
    apply Forall_map. apply Forall_forall. intros entry Hin.
    destruct (Hret entry Hin) as [result Hres].
    pose proof (results_clamped entry result Hin Hres) as Hs.
    unfold score_of_entry. rewrite Hres.
    cbn [score_of_result FactorScore.weight FactorScore.weighted_score].
    pose proof (weight_or_default_nonneg _ (fst entry)
                  (normalize_weights_nonneg _ Hv)) as Hw.
    nra. }
  unfold ScoringEngine._calculate_total_score.
  destruct (expected_scores self exoplanet star) as [| f rest]; [lra |].
  apply String.eqb_neq in Hg, Hm. rewrite Hg, Hm.
  destruct (String.eqb _ "weighted_average"); exact Havg.
Qed.

End Bounds.

(** * Further properties of the code *)

(** ** Dictionaries *)

Lemma dict_get_set (A : Type) (d : list (string * A)) (k k' : string) (v : A) :
  Py.dict_get (Py.dict_set d k v) k'
  = if String.eqb k k' then Some v else Py.dict_get d k'.
Proof.
  induction d as [| [k0 x] d IH]; simpl.
  - reflexivity.
  - destruct (String.eqb_spec k0 k) as [-> | Hne]; simpl.
    + destruct (String.eqb k k'); reflexivity.
    + rewrite IH. destruct (String.eqb_spec k0 k') as [-> | Hne'].
      * apply String.eqb_neq in Hne. rewrite String.eqb_sym in Hne. now rewrite Hne.
      * reflexivity.
Qed.

Lemma dict_get_del (A : Type) (d : list (string * A)) (k k' : string) :
  Py.dict_get (Py.dict_del d k) k'
  = if String.eqb k k' then None else Py.dict_get d k'.
Proof.
  unfold Py.dict_del.
  induction d as [| [k0 x] d IH]; simpl.
  - now destruct (String.eqb k k').
  - destruct (String.eqb_spec k0 k) as [-> | Hne]; simpl.
    + rewrite IH. destruct (String.eqb k k'); reflexivity.
    + rewrite IH. destruct (String.eqb_spec k0 k') as [-> | Hne'].
      * apply String.eqb_neq in Hne. rewrite String.eqb_sym in Hne. now rewrite Hne.
      * reflexivity.
Qed.

Lemma dict_get_none (A : Type) (d : list (string * A)) (k : string) :
  Py.dict_get d k = None <-> ~ In k (map fst d).
Proof.
  induction d as [| [k0 x] d IH]; simpl.
  - tauto.
  - destruct (String.eqb_spec k0 k) as [-> | Hne].
    + split; [discriminate | intros H; exfalso; apply H; now left].
    + rewrite IH. tauto.
Qed.

(** The keys after [d[k] = v]: unchanged when [k] is present, [k] appended
    otherwise. *)
Lemma dict_keys_set (A : Type) (d : list (string * A)) (k : string) (v : A) :
  map fst (Py.dict_set d k v)
  = match Py.dict_get d k with
    | Some _ => map fst d
    | None => (map fst d ++ [k])%list
    end.
Proof.
  induction d as [| [k0 x] d IH]; simpl.
  - reflexivity.
  - destruct (String.eqb_spec k0 k) as [-> | Hne]; simpl.
    + reflexivity.
    + rewrite IH. now destruct (Py.dict_get d k).
Qed.

Lemma dict_keys_del (A : Type) (d : list (string * A)) (k : string) :
  map fst (Py.dict_del d k) = filter (fun k0 => negb (String.eqb k0 k)) (map fst d).
Proof.
  unfold Py.dict_del. induction d as [| [k0 x] d IH]; simpl.
  - reflexivity.
  - destruct (String.eqb k0 k); simpl; now rewrite IH.
Qed.

Lemma dict_del_absent (A : Type) (d : list (string * A)) (k : string) :
  Py.dict_get d k = None -> Py.dict_del d k = d.
Proof.
  unfold Py.dict_del. induction d as [| [k0 x] d IH]; simpl.
  - reflexivity.
  - destruct (String.eqb k0 k); [discriminate |]. intros H. simpl. now rewrite IH.
Qed.

Lemma dict_del_set_fresh (A : Type) (d : list (string * A)) (k : string) (v : A) :
  Py.dict_get d k = None -> Py.dict_del (Py.dict_set d k v) k = d.
Proof.
  unfold Py.dict_del. induction d as [| [k0 x] d IH]; simpl.
  - now rewrite String.eqb_refl.
  - destruct (String.eqb k0 k) eqn:E; [discriminate |].
    intros H. simpl. rewrite E. simpl. now rewrite IH.
Qed.

Lemma NoDup_filter (A : Type) (f : A -> bool) (l : list A) :
  NoDup l -> NoDup (filter f l).
Proof.
  induction 1 as [| x l Hx _ IH]; simpl.
  - constructor.
  - destruct (f x); [| exact IH].
    constructor; [| exact IH]. intros Hin. apply filter_In in Hin. tauto.
Qed.

Lemma NoDup_snoc (A : Type) (l : list A) (x : A) :
  NoDup l -> ~ In x l -> NoDup (l ++ [x]).
Proof.
  intros Hl Hx. induction Hl as [| y l Hy _ IH]; simpl.
  - constructor; [tauto | constructor].
  - constructor.
    + rewrite in_app_iff. simpl. intros [H | [H | []]]; [tauto |].
      subst. apply Hx. now left.
    + apply IH. intros H. apply Hx. now right.
Qed.

(** ** The engine's registry *)

Lemma fold_register_snoc (self : ScoringEngine.t) (l : list ScoringFactor.t)
    (factor : ScoringFactor.t) :
  fold_left ScoringEngine.register_factor (l ++ [factor]) self
  = ScoringEngine.register_factor (fold_left ScoringEngine.register_factor l self) factor.
Proof. now rewrite fold_left_app. Qed.

Lemma config_fold_register (l : list ScoringFactor.t) (self : ScoringEngine.t) :
  ScoringEngine.config (fold_left ScoringEngine.register_factor l self)
  = ScoringEngine.config self.
Proof.
  revert self. induction l as [| f l IH]; intros self; simpl; [reflexivity |].
  now rewrite IH.
Qed.

Lemma get_factor_register (self : ScoringEngine.t) (factor : ScoringFactor.t)
    (factor_id : string) :
  ScoringEngine.get_factor (ScoringEngine.register_factor self factor) factor_id
  = if String.eqb (ScoringFactor.factor_id factor) factor_id then Some factor
    else ScoringEngine.get_factor self factor_id.
Proof.
  unfold ScoringEngine.get_factor, ScoringEngine.register_factor.
  cbn [ScoringEngine._factors]. apply dict_get_set.
Qed.

Lemma registered_ids_register (self : ScoringEngine.t) (factor : ScoringFactor.t) :
  ScoringEngine.get_registered_factors (ScoringEngine.register_factor self factor)
  = match ScoringEngine.get_factor self (ScoringFactor.factor_id factor) with
    | Some _ => ScoringEngine.get_registered_factors self
    | None => (ScoringEngine.get_registered_factors self
               ++ [ScoringFactor.factor_id factor])%list
    end.
Proof.
  unfold ScoringEngine.get_registered_factors, ScoringEngine.register_factor,
    ScoringEngine.get_factor.
  cbn [ScoringEngine._factors]. apply dict_keys_set.
Qed.

Lemma registered_ids_register_NoDup (self : ScoringEngine.t) (factor : ScoringFactor.t) :
  NoDup (ScoringEngine.get_registered_factors self) ->
  NoDup (ScoringEngine.get_registered_factors (ScoringEngine.register_factor self factor)).
Proof.
  intros Hnd. rewrite registered_ids_register.
  destruct (ScoringEngine.get_factor self (ScoringFactor.factor_id factor)) eqn:E;
    [exact Hnd |].
  apply NoDup_snoc; [exact Hnd |]. now apply dict_get_none.
Qed.

Lemma registered_ids_fold_NoDup (l : list ScoringFactor.t) (self : ScoringEngine.t) :
  NoDup (ScoringEngine.get_registered_factors self) ->
  NoDup (ScoringEngine.get_registered_factors
           (fold_left ScoringEngine.register_factor l self)).
Proof.
  revert self. induction l as [| f l IH]; intros self Hnd; simpl.
  - exact Hnd.
  - apply IH. now apply registered_ids_register_NoDup.
Qed.

(** X1: looking up a factor after [register_factor] finds the factor just
    registered under its own id, whether the id was new or taken, and finds
    under every other id what was there before. *)
Theorem register_factor_then_get_factor
    (self : ScoringEngine.t) (factor : ScoringFactor.t) (factor_id : string) :
  ScoringEngine.get_factor (ScoringEngine.register_factor self factor)
                           (ScoringFactor.factor_id factor)
  = Some factor
  /\ (factor_id <> ScoringFactor.factor_id factor ->
      ScoringEngine.get_factor (ScoringEngine.register_factor self factor) factor_id
      = ScoringEngine.get_factor self factor_id).
Proof.
  split.
  - rewrite get_factor_register. now rewrite String.eqb_refl.
  - intros Hne. rewrite get_factor_register.
    destruct (String.eqb_spec (ScoringFactor.factor_id factor) factor_id) as [E | _];
      [congruence | reflexivity].
Qed.

(** X2: the ids of the registry are always pairwise distinct.  A fresh engine
    built from any list of factors has distinct ids; registering a factor
    whose id is taken replaces it in place (the list of ids is unchanged),
    while a new id goes to the end; and both [register_factor] and
    [unregister_factor] keep the ids distinct. *)
Theorem registered_ids_stay_distinct :
  (forall config factors engine,
     ScoringEngine.init config factors = Py.Returned engine ->
     NoDup (ScoringEngine.get_registered_factors engine))
  /\ (forall self factor,
        ScoringEngine.get_registered_factors (ScoringEngine.register_factor self factor)
        = if existsb (String.eqb (ScoringFactor.factor_id factor))
                     (ScoringEngine.get_registered_factors self)
          then ScoringEngine.get_registered_factors self
          else (ScoringEngine.get_registered_factors self
                ++ [ScoringFactor.factor_id factor])%list)
  /\ (forall self factor,
        NoDup (ScoringEngine.get_registered_factors self) ->
        NoDup (ScoringEngine.get_registered_factors
                 (ScoringEngine.register_factor self factor)))
  /\ (forall self factor_id,
        NoDup (ScoringEngine.get_registered_factors self) ->
        NoDup (ScoringEngine.get_registered_factors
                 (fst (ScoringEngine.unregister_factor self factor_id)))).
Proof.
  split; [| split; [| split]].
  - intros config factors engine. unfold ScoringEngine.init.
    destruct (match config with
              | Some c => Py.Returned c
              | None => load_default_config
              end) as [cfg | e]; cbn [Py.bind]; [| discriminate].
    intros H. inversion H; subst. apply registered_ids_fold_NoDup.
    cbn. constructor.
  - intros self factor. rewrite registered_ids_register.
    destruct (ScoringEngine.get_factor self (ScoringFactor.factor_id factor)) eqn:E.
    + assert (Hin : In (ScoringFactor.factor_id factor)
                       (ScoringEngine.get_registered_factors self)).
      { destruct (in_dec string_dec (ScoringFactor.factor_id factor)
                         (ScoringEngine.get_registered_factors self)) as [H | H];
          [exact H |].
        apply dict_get_none in H. unfold ScoringEngine.get_factor in E. congruence. }
      assert (Hex : existsb (String.eqb (ScoringFactor.factor_id factor))
                            (ScoringEngine.get_registered_factors self) = true).
      { apply existsb_exists. eexists. split; [exact Hin | apply String.eqb_refl]. }
      now rewrite Hex.
    + assert (Hex : existsb (String.eqb (ScoringFactor.factor_id factor))
                            (ScoringEngine.get_registered_factors self) = false).
      { apply not_true_is_false. intros Hex. apply existsb_exists in Hex.
        destruct Hex as [k [Hin Hk]]. apply String.eqb_eq in Hk. subst k.
        apply dict_get_none in E. exact (E Hin). }
      now rewrite Hex.
  - exact registered_ids_register_NoDup.
  - intros self factor_id Hnd. unfold ScoringEngine.unregister_factor.
    destruct (Py.dict_get (ScoringEngine._factors self) factor_id); cbn [fst];
      [| exact Hnd].
    unfold ScoringEngine.get_registered_factors. cbn [ScoringEngine._factors].
    rewrite dict_keys_del. now apply NoDup_filter.
Qed.

(** X3: [unregister_factor] answers [True] exactly when the id was
    registered; afterwards the id is not found and every other id is found
    as before; and unregistering a factor just registered under a new id
    gives back the engine as it was. *)
Theorem unregister_factor_removes
    (self : ScoringEngine.t) (factor_id other : string) (factor : ScoringFactor.t) :
  let '(engine, removed) := ScoringEngine.unregister_factor self factor_id in
  (removed = true <-> In factor_id (ScoringEngine.get_registered_factors self))
  /\ ScoringEngine.get_factor engine factor_id = None
  /\ (other <> factor_id ->
      ScoringEngine.get_factor engine other = ScoringEngine.get_factor self other)
  /\ (ScoringEngine.get_factor self (ScoringFactor.factor_id factor) = None ->
      ScoringEngine.unregister_factor (ScoringEngine.register_factor self factor)
                                      (ScoringFactor.factor_id factor)
      = (self, true)).
Proof.
  unfold ScoringEngine.unregister_factor at 1.
  destruct (Py.dict_get (ScoringEngine._factors self) factor_id) as [f |] eqn:E.
  - split; [| split; [| split]].
    + split; [intros _ | reflexivity].
      destruct (in_dec string_dec factor_id (ScoringEngine.get_registered_factors self))
        as [H | H]; [exact H |].
      apply dict_get_none in H. congruence.
    + unfold ScoringEngine.get_factor. cbn [ScoringEngine._factors].
      rewrite dict_get_del. now rewrite String.eqb_refl.
    + intros Hne. unfold ScoringEngine.get_factor. cbn [ScoringEngine._factors].
      rewrite dict_get_del.
      destruct (String.eqb_spec factor_id other) as [Heq | _]; [congruence | reflexivity].
    + intros Hfresh. unfold ScoringEngine.unregister_factor, ScoringEngine.register_factor.
      cbn [ScoringEngine._factors ScoringEngine.config].
      rewrite dict_get_set, String.eqb_refl.
      unfold ScoringEngine.get_factor in Hfresh.
      rewrite dict_del_set_fresh by exact Hfresh. now destruct self.
  - split; [| split; [| split]].
    + split; [discriminate |]. intros Hin. apply dict_get_none in E. contradiction.
    + exact E.
    + reflexivity.
    + intros Hfresh. unfold ScoringEngine.unregister_factor, ScoringEngine.register_factor.
      cbn [ScoringEngine._factors ScoringEngine.config].
      rewrite dict_get_set, String.eqb_refl.
      unfold ScoringEngine.get_factor in Hfresh.
      rewrite dict_del_set_fresh by exact Hfresh. now destruct self.
Qed.

(** X4: when the list of factors given to the constructor holds several
    factors with the same id, the last one is the one registered: looking up
    an id finds the last factor of the list with that id, and nothing when
    there is none. *)
Theorem init_registers_last_factor_of_each_id
    (config : ScoringConfig.t) (factors : list ScoringFactor.t) (factor_id : string) :
  exists engine,
    ScoringEngine.init (Some config) factors = Py.Returned engine
    /\ ScoringEngine.config engine = config
    /\ ScoringEngine.get_factor engine factor_id
       = find (fun factor => String.eqb (ScoringFactor.factor_id factor) factor_id)
              (rev factors).
Proof.
  unfold ScoringEngine.init. cbn [Py.bind]. eexists. split; [reflexivity |].
  split.
  - apply config_fold_register.
  - induction factors as [| f l IH] using rev_ind.
    + reflexivity.
    + rewrite fold_register_snoc, get_factor_register, rev_app_distr. simpl.
      destruct (String.eqb (ScoringFactor.factor_id f) factor_id); [reflexivity | exact IH].
Qed.

(** ** Grouping by category *)

Section Grouping.

Variables A B : Type.
Variable key : A -> string.
Variable val : A -> B.

Lemma group_step_get (result : list (string * list B)) (k k' : string) (x : B) :
  Py.dict_get (group_step result k x) k'
  = if String.eqb k k'
    then Some (match Py.dict_get result k with
               | Some l => l ++ [x]
               | None => [x]
               end)%list
    else Py.dict_get result k'.
Proof.
  unfold group_step. destruct (Py.dict_get result k) as [l |] eqn:E.
  - rewrite E. apply dict_get_set.
  - rewrite dict_get_set, String.eqb_refl. rewrite !dict_get_set.
    destruct (String.eqb k k'); reflexivity.
Qed.

Lemma group_step_keys (result : list (string * list B)) (k : string) (x : B) :
  NoDup (map fst result) -> NoDup (map fst (group_step result k x)).
Proof.
  intros Hnd. unfold group_step. destruct (Py.dict_get result k) as [l |] eqn:E.
  - rewrite E. rewrite dict_keys_set, E. exact Hnd.
  - rewrite dict_get_set, String.eqb_refl.
    rewrite dict_keys_set, dict_get_set, String.eqb_refl.
    rewrite dict_keys_set, E. apply NoDup_snoc; [exact Hnd |]. now apply dict_get_none.
Qed.

Lemma fold_group_keys (l : list A) (result : list (string * list B)) :
  NoDup (map fst result) ->
  NoDup (map fst (fold_left (fun r x => group_step r (key x) (val x)) l result)).
Proof.
  revert result. induction l as [| x l IH]; intros result Hnd; simpl.
  - exact Hnd.
  - apply IH. now apply group_step_keys.
Qed.

(** After the loop, the list filed under a key is what was there before,
    followed by the values of the elements with that key, in order. *)
Lemma fold_group_get (l : list A) (result : list (string * list B)) (k : string) :
  Py.dict_get (fold_left (fun r x => group_step r (key x) (val x)) l result) k
  = match Py.dict_get result k with
    | Some l0 => Some (l0 ++ map val (filter (fun x => String.eqb (key x) k) l))%list
    | None =>
        match map val (filter (fun x => String.eqb (key x) k) l) with
        | [] => None
        | g => Some g
        end
    end.
Proof.
  revert result. induction l as [| x l IH]; intros result.
  - simpl. destruct (Py.dict_get result k); [now rewrite app_nil_r | reflexivity].
  - cbn [fold_left filter]. rewrite IH, group_step_get.
    destruct (String.eqb_spec (key x) k) as [Heq | Hne].
    + subst k. cbn [map].
      destruct (Py.dict_get result (key x)) as [l0 |].
      * now rewrite <- app_assoc.
      * reflexivity.
    + reflexivity.
Qed.

End Grouping.

(** X5: [get_factors_by_category] files every registered factor id under
    the category of its factor: the keys of the result are pairwise
    distinct, a category without factors is no key of it, and under any
    other category stand the ids of exactly the factors of that category,
    in registration order. *)
Theorem get_factors_by_category_groups (self : ScoringEngine.t) (category : string) :
  NoDup (map fst (ScoringEngine.get_factors_by_category self))
  /\ Py.dict_get (ScoringEngine.get_factors_by_category self) category
     = match
         map fst
             (filter (fun entry : string * ScoringFactor.t =>
                        String.eqb (FactorCategory.value (ScoringFactor.category (snd entry)))
                                   category)
                     (ScoringEngine._factors self))
       with
       | [] => None
       | ids => Some ids
       end.
Proof.
  unfold ScoringEngine.get_factors_by_category.
  assert (Hstep : forall r entry,
            ScoringEngine.add_factor_id r entry
            = group_step r (FactorCategory.value (ScoringFactor.category (snd entry)))
                         (fst entry)).
  { intros r [fid factor]. reflexivity. }
  assert (Hfold : forall l r,
            fold_left ScoringEngine.add_factor_id l r
            = fold_left (fun r entry =>
                           group_step r
                             (FactorCategory.value (ScoringFactor.category (snd entry)))
                             (fst entry)) l r).
  { induction l as [| x l IH]; intros r; simpl; [reflexivity |].
    now rewrite Hstep, IH. }
  rewrite Hfold. split.
  - apply fold_group_keys. constructor.
  - now rewrite fold_group_get.
Qed.

(** X6: [factors_by_category] of an assessment groups the factor scores by
    their category: the keys are pairwise distinct, a category without
    factor scores is no key, and under any other category stand exactly the
    factor scores of that category, in report order. *)
Theorem factors_by_category_groups (self : HabitabilityAssessment.t) (category : string) :
  NoDup (map fst (HabitabilityAssessment.factors_by_category self))
  /\ Py.dict_get (HabitabilityAssessment.factors_by_category self) category
     = match
         filter (fun factor => String.eqb (FactorScore.category factor) category)
                (HabitabilityAssessment.factor_scores self)
       with
       | [] => None
       | factors => Some factors
       end.
Proof.
  unfold HabitabilityAssessment.factors_by_category.
  change HabitabilityAssessment.add_to_category
    with (fun r factor => group_step r (FactorScore.category factor) factor).
  split.
  - apply (fold_group_keys _ _ FactorScore.category (fun f => f)). constructor.
  - rewrite (fold_group_get _ _ FactorScore.category (fun f => f)). simpl.
    now rewrite map_id.
Qed.

(** ** Which factors can raise, and when *)



Lemma raised_not_returns (A : Type) (e : Py.Exc) : ~ returns (@Py.Raised A e).
Proof. intros [a H]. discriminate. Qed.


Lemma clamped_init fid s iv iu orng ex c refs app md :
  clamped (Py.Returned (FactorResult.init fid s iv iu orng ex c refs app md)).
Proof. apply score_init_bounds. Qed.

Lemma clamped_bind (A : Type) (c : Py.Outcome A) (k : A -> Py.Outcome FactorResult.t) :
  (forall a, clamped (k a)) -> clamped (Py.bind c k).
Proof. intros H. destruct c as [a | e]; [apply H | exact I]. Qed.

(** Walk down the branches of a factor to the constructor calls at its
    leaves. *)
Ltac clamp_walk :=
  unfold BaseScoringFactor._create_missing_data_result;
  repeat first
    [ apply clamped_init
    | apply clamped_bind; intros
    | match goal with
      | |- clamped (if ?b then _ else _) => destruct b
      | |- clamped (match ?x with _ => _ end) => destruct x
      end ].

(** Every result a built-in factor returns went through the clamp of
    [FactorResult.__post_init__]. *)
Lemma builtin_results_clamped (factor : ScoringFactor.t)
    (exoplanet : ExoplanetEntity.t) (star : StarEntity.t) :
  In factor get_all_factors -> clamped (ScoringFactor.evaluate factor exoplanet star).
Proof.
  intros Hin. unfold get_all_factors in Hin. cbn [In] in Hin.
  repeat (destruct Hin as [<- | Hin]); [.. | contradiction];
    cbn [ScoringFactor.evaluate
         StellarTypeFactor.factor StellarLuminosityFactor.factor StellarAgeFactor.factor
         HabitableZonePositionFactor.factor PlanetRadiusFactor.factor
         PlanetMassFactor.factor PlanetDensityFactor.factor
         EquilibriumTemperatureFactor.factor SurfaceGravityFactor.factor
         OrbitalEccentricityFactor.factor TidalLockingFactor.factor
         AtmosphereRetentionFactor.factor MagneticFieldPotentialFactor.factor].
  - unfold StellarTypeFactor.evaluate, StellarTypeFactor._create_missing_data_result.
    clamp_walk.
  - unfold StellarLuminosityFactor.evaluate. clamp_walk.
  - unfold StellarAgeFactor.evaluate, StellarAgeFactor._create_missing_data_result.
    clamp_walk.
  - unfold HabitableZonePositionFactor.evaluate,
      HabitableZonePositionFactor._create_missing_data_result.
    clamp_walk.
  - unfold PlanetRadiusFactor.evaluate, PlanetRadiusFactor._create_missing_data_result.
    clamp_walk.
  - unfold PlanetMassFactor.evaluate, PlanetMassFactor._create_missing_data_result.
    clamp_walk.
  - unfold PlanetDensityFactor.evaluate, PlanetDensityFactor._create_missing_data_result.
    clamp_walk.
  - unfold EquilibriumTemperatureFactor.evaluate,
      EquilibriumTemperatureFactor._create_missing_data_result.
    clamp_walk.
  - unfold SurfaceGravityFactor.evaluate, SurfaceGravityFactor._create_missing_data_result.
    clamp_walk.
  - unfold OrbitalEccentricityFactor.evaluate,
      OrbitalEccentricityFactor._create_missing_data_result.
    clamp_walk.
  - unfold TidalLockingFactor.evaluate, TidalLockingFactor._create_missing_data_result.
    clamp_walk.
  - unfold AtmosphereRetentionFactor.evaluate,
      AtmosphereRetentionFactor._create_missing_data_result.
    clamp_walk.
  - unfold MagneticFieldPotentialFactor.evaluate,
      MagneticFieldPotentialFactor._create_missing_data_result.
    clamp_walk.
Qed.










(** ** The habitable zone and its factor *)




Lemma get_hz_position_on_zone (star : StarEntity.t) (d ci co oi oo : R) :
  StarEntity.calculate_habitable_zone star = Py.Returned (Some (ci, co, oi, oo)) ->
  StarEntity.get_hz_position star d
  = Py.Returned (Some (if d <? oi then "too_hot"
                       else if d <? ci then "optimistic_inner_edge"
                       else if d <=? co then "conservative_hz"
                       else if d <=? oo then "optimistic_outer_edge"
                       else "too_cold")).
Proof. intros H. unfold StarEntity.get_hz_position. now rewrite H. Qed.

Lemma is_in_habitable_zone_on_zone (star : StarEntity.t) (d ci co oi oo : R)
    (conservative : bool) :
  StarEntity.calculate_habitable_zone star = Py.Returned (Some (ci, co, oi, oo)) ->
  StarEntity.is_in_habitable_zone star d conservative
  = Py.Returned (Some (if conservative then (ci <=? d) && (d <=? co)
                       else (oi <=? d) && (d <=? oo))).
Proof. intros H. unfold StarEntity.is_in_habitable_zone. now rewrite H. Qed.

(** The score of the habitable-zone factor, by the place of the distance
    among the four boundaries. *)
Lemma hz_factor_on_zone (exoplanet : ExoplanetEntity.t) (star : StarEntity.t)
    (d ci co oi oo : R) :
  OrbitalParameters.semi_major_axis_au (ExoplanetEntity.orbital exoplanet) = Some d ->
  StarEntity.calculate_habitable_zone star = Py.Returned (Some (ci, co, oi, oo)) ->
  oi <> 0 -> oo <> 0 ->
  exists result,
    HabitableZonePositionFactor.evaluate exoplanet star = Py.Returned result
    /\ FactorResult.is_applicable result = true
    /\ (d < oi ->
        FactorResult.score result
        = Py.max 0.0 (Py.min 1.0 (Py.max 0.0 (0.3 - (oi - d) / oi))))
    /\ (oi <= d -> d < ci -> FactorResult.score result = 0.7)
    /\ (oi <= d -> ci <= d -> d <= co -> FactorResult.score result = 1.0)
    /\ (oi <= d -> ci <= d -> co < d -> d <= oo -> FactorResult.score result = 0.7)
    /\ (oi <= d -> ci <= d -> co < d -> oo < d ->
        FactorResult.score result
        = Py.max 0.0 (Py.min 1.0 (Py.max 0.0 (0.3 - (d - oo) / oo * 0.5)))).
Proof.
  intros Hd Hzone Hoi Hoo.
  unfold HabitableZonePositionFactor.evaluate. rewrite Hd, Hzone. cbn [Py.bind].
  rewrite (get_hz_position_on_zone star d ci co oi oo Hzone). cbn [Py.bind].
  destruct (ltb_cases d oi) as [[H1 E1] | [H1 E1]]; rewrite E1.
  - cbn [String.eqb Ascii.eqb Bool.eqb andb]. unfold Py.div. rewrite eqb_false by exact Hoi.
    cbn [Py.bind]. eexists. split; [reflexivity |]. split; [reflexivity |].
    repeat split; intros; lra.
  - destruct (ltb_cases d ci) as [[H2 E2] | [H2 E2]]; rewrite E2.
    + cbn [String.eqb Ascii.eqb Bool.eqb andb Py.bind].
      eexists. split; [reflexivity |]. split; [reflexivity |].
      repeat split; intros; try lra. rewrite score_init. apply clamp_id. lra.
    + destruct (leb_cases d co) as [[H3 E3] | [H3 E3]]; rewrite E3.
      * cbn [String.eqb Ascii.eqb Bool.eqb andb Py.bind].
        eexists. split; [reflexivity |]. split; [reflexivity |].
        repeat split; intros; try lra. rewrite score_init. apply clamp_id. lra.
      * destruct (leb_cases d oo) as [[H4 E4] | [H4 E4]]; rewrite E4.
        -- cbn [String.eqb Ascii.eqb Bool.eqb andb Py.bind].
           eexists. split; [reflexivity |]. split; [reflexivity |].
           repeat split; intros; try lra. rewrite score_init. apply clamp_id. lra.
        -- cbn [String.eqb Ascii.eqb Bool.eqb andb]. unfold Py.div.
           rewrite eqb_false by exact Hoo.
           cbn [Py.bind]. eexists. split; [reflexivity |]. split; [reflexivity |].
           repeat split; intros; lra.
Qed.

(** The zone of a temperate star of positive luminosity: four positive
    distances in the order optimistic inner, conservative inner,
    conservative outer, optimistic outer. *)
Lemma temperate_zone (star : StarEntity.t) (l : R) :
  StarEntity.estimate_luminosity star = Some l -> 0 < l -> temperate star ->
  exists ci co oi oo,
    StarEntity.calculate_habitable_zone star = Py.Returned (Some (ci, co, oi, oo))
    /\ 0 < oi /\ oi <= ci /\ ci < co /\ co <= oo.
Proof.
  intros Hl Hpos Htemp.
  pose proof (temperate_t_star star Htemp) as Ht.
  set (t_star := Py.or_else (StarEntity.temperature_k star) StarEntity.SOLAR_TEMP_K - 5780)
    in *.
  pose proof (s_early_mars_pos t_star Ht) as Hem.
  pose proof (s_early_mars_le_max_greenhouse t_star Ht) as Hmg.
  pose proof (s_max_greenhouse_lt_runaway t_star Ht) as Hrw.
  pose proof (s_runaway_le_recent_venus t_star Ht) as Hrv.
  pose proof (sqrt_lt_R0 l Hpos) as Hsl.
  do 4 eexists. split.
  - apply (calculate_habitable_zone_value star l Hl); fold t_star; lra.
  - fold t_star. repeat split.
    + apply Rdiv_lt_0_compat; [exact Hsl | apply sqrt_lt_R0; lra].
    + apply distance_antitone; lra.
    + apply distance_strictly_antitone; lra.
    + apply distance_antitone; lra.
Qed.





(** X12: for a star of positive luminosity and a temperature of at most
    9000 K, the two ways of asking where a distance lies agree:
    [is_in_habitable_zone] with the conservative boundaries says yes exactly
    when [get_hz_position] says ["conservative_hz"]; with the optimistic
    boundaries it says yes exactly when the position is one of the two
    optimistic edges or the conservative zone; and the conservative zone lies
    within the optimistic one. *)
Theorem habitable_zone_membership_matches_position (star : StarEntity.t) (l d : R) :
  StarEntity.estimate_luminosity star = Some l -> 0 < l -> temperate star ->
  exists position in_conservative in_optimistic,
    StarEntity.get_hz_position star d = Py.Returned (Some position)
    /\ StarEntity.is_in_habitable_zone star d true = Py.Returned (Some in_conservative)
    /\ StarEntity.is_in_habitable_zone star d false = Py.Returned (Some in_optimistic)
    /\ (in_conservative = true <-> position = "conservative_hz")
    /\ (in_optimistic = true
        <-> position = "optimistic_inner_edge" \/ position = "conservative_hz"
            \/ position = "optimistic_outer_edge")
    /\ (in_conservative = true -> in_optimistic = true).
Proof.
  intros Hl Hpos Htemp.
  destruct (temperate_zone star l Hl Hpos Htemp)
    as [ci [co [oi [oo [Hzone [H0 [H1 [H2 H3]]]]]]]].
  do 3 eexists.
  rewrite (get_hz_position_on_zone star d ci co oi oo Hzone).
  rewrite !(is_in_habitable_zone_on_zone star d ci co oi oo _ Hzone).
  split; [reflexivity |]. split; [reflexivity |]. split; [reflexivity |].
  destruct (ltb_cases d oi) as [[Ha Ea] | [Ha Ea]]; rewrite Ea;
    [| destruct (ltb_cases d ci) as [[Hb Eb] | [Hb Eb]]; rewrite Eb;
       [| destruct (leb_cases d co) as [[Hc Ec] | [Hc Ec]]; rewrite Ec;
          [| destruct (leb_cases d oo) as [[Hd Ed] | [Hd Ed]]; rewrite Ed]]];
    py_decide; cbn [andb];
    repeat split; try discriminate; try reflexivity; try tauto;
    intros; repeat match goal with H : _ \/ _ |- _ => destruct H end;
    try discriminate; auto.
Qed.

(** X13: for a star of positive luminosity and a temperature of at most
    9000 K and a planet of known orbital distance, the habitable-zone factor
    returns an applicable result whose score is 1.0 inside the conservative
    zone, 0.7 inside the optimistic zone but outside the conservative one,
    and below 0.3 (never negative) outside the optimistic zone. *)
Theorem habitable_zone_score_follows_membership
    (exoplanet : ExoplanetEntity.t) (star : StarEntity.t) (l d : R) :
  StarEntity.estimate_luminosity star = Some l -> 0 < l -> temperate star ->
  OrbitalParameters.semi_major_axis_au (ExoplanetEntity.orbital exoplanet) = Some d ->
  exists result in_conservative in_optimistic,
    HabitableZonePositionFactor.evaluate exoplanet star = Py.Returned result
    /\ StarEntity.is_in_habitable_zone star d true = Py.Returned (Some in_conservative)
    /\ StarEntity.is_in_habitable_zone star d false = Py.Returned (Some in_optimistic)
    /\ FactorResult.is_applicable result = true
    /\ (in_conservative = true -> FactorResult.score result = 1.0)
    /\ (in_conservative = false -> in_optimistic = true -> FactorResult.score result = 0.7)
    /\ (in_optimistic = false -> 0 <= FactorResult.score result < 0.3).
Proof.
  intros Hl Hpos Htemp Hd.
  destruct (temperate_zone star l Hl Hpos Htemp)
    as [ci [co [oi [oo [Hzone [H0 [H1 [H2 H3]]]]]]]].
  destruct (hz_factor_on_zone exoplanet star d ci co oi oo Hd Hzone)
    as [result [Hr [Happ [S1 [S2 [S3 [S4 S5]]]]]]]; [lra | lra |].
  exists result. do 2 eexists.
  rewrite !(is_in_habitable_zone_on_zone star d ci co oi oo _ Hzone).
  split; [exact Hr |]. split; [reflexivity |]. split; [reflexivity |].
  split; [exact Happ |].
  assert (Hnear : d < oi -> 0 <= FactorResult.score result < 0.3).
  { intros Ha. rewrite S1 by exact Ha.
    assert (He : 0 < (oi - d) / oi) by (apply Rdiv_lt_0_compat; lra).
    split; [apply clamp_bounds |].
    rewrite clamp_id; rewrite max_spec; unfold Rmax;
      destruct (Rle_dec 0.0 (0.3 - (oi - d) / oi)); lra. }
  assert (Hfar : oo < d -> 0 <= FactorResult.score result < 0.3).
  { intros Ha. rewrite S5 by lra.
    assert (He : 0 < (d - oo) / oo) by (apply Rdiv_lt_0_compat; lra).
    split; [apply clamp_bounds |].
    rewrite clamp_id; rewrite max_spec; unfold Rmax;
      destruct (Rle_dec 0.0 (0.3 - (d - oo) / oo * 0.5)); lra. }
  destruct (leb_cases ci d) as [[Ha Ea] | [Ha Ea]]; rewrite Ea;
    destruct (leb_cases d co) as [[Hb Eb] | [Hb Eb]]; rewrite Eb;
    destruct (leb_cases oi d) as [[Hc Ec] | [Hc Ec]]; rewrite Ec;
    destruct (leb_cases d oo) as [[He Ee] | [He Ee]]; rewrite Ee;
    cbn [andb];
    (split; [intros Ht | split; [intros Hf Ht | intros Hf]]);
    try discriminate; try lra;
    first [ now apply S3; lra | now apply S2; lra | now apply S4; lra
          | now apply Hnear; lra | now apply Hfar; lra | idtac ].
Qed.

(** The Earth at 1 AU from the Sun. *)
Lemma habitable_zone_score_follows_membership_witness :
  exists result in_conservative in_optimistic,
    HabitableZonePositionFactor.evaluate earth sun = Py.Returned result
    /\ StarEntity.is_in_habitable_zone sun 1.0 true = Py.Returned (Some in_conservative)
    /\ StarEntity.is_in_habitable_zone sun 1.0 false = Py.Returned (Some in_optimistic)
    /\ FactorResult.is_applicable result = true
    /\ (in_conservative = true -> FactorResult.score result = 1.0)
    /\ (in_conservative = false -> in_optimistic = true -> FactorResult.score result = 0.7)
    /\ (in_optimistic = false -> 0 <= FactorResult.score result < 0.3).
Proof.
  apply (habitable_zone_score_follows_membership earth sun 1.0 1.0).
  - reflexivity.
  - lra.
  - cbn. lra.
  - reflexivity.
Defined.

(** A distance of 1 AU from the Sun. *)
Lemma habitable_zone_membership_matches_position_witness :
  exists position in_conservative in_optimistic,
    StarEntity.get_hz_position sun 1.0 = Py.Returned (Some position)
    /\ StarEntity.is_in_habitable_zone sun 1.0 true = Py.Returned (Some in_conservative)
    /\ StarEntity.is_in_habitable_zone sun 1.0 false = Py.Returned (Some in_optimistic)
    /\ (in_conservative = true <-> position = "conservative_hz")
    /\ (in_optimistic = true
        <-> position = "optimistic_inner_edge" \/ position = "conservative_hz"
            \/ position = "optimistic_outer_edge")
    /\ (in_conservative = true -> in_optimistic = true).
Proof.
  apply (habitable_zone_membership_matches_position sun 1.0 1.0).
  - reflexivity.
  - lra.
  - cbn. lra.
Defined.



(** ** Derived quantities of the entities *)




(** ** Linear interpolation of a score *)


(** ** Score bands *)

Ltac table_leaf :=
  cbv zeta beta iota;
  (eexists; split; [reflexivity | split; [| reflexivity]]);
  rewrite score_init; apply clamp_id; lra.

Lemma eccentricity_follows_table
    (exoplanet : ExoplanetEntity.t) (star : StarEntity.t) (ecc : R) :
  OrbitalParameters.eccentricity (ExoplanetEntity.orbital exoplanet) = Some ecc ->
  exists result,
    OrbitalEccentricityFactor.evaluate exoplanet star = Py.Returned result
    /\ FactorResult.score result = eccentricity_table ecc
    /\ FactorResult.is_applicable result = true.
Proof.
  intros H. unfold OrbitalEccentricityFactor.evaluate, eccentricity_table. rewrite H.
  destruct (ltb_cases ecc 1.0) as [[H1 E1] | [H1 E1]]; rewrite E1.
  - unfold Py.div. rewrite (eqb_false (1 - ecc) 0) by lra. cbn [Py.bind].
    repeat py_split; table_leaf.
  - cbn [Py.bind]. py_decide. table_leaf.
Qed.

Lemma planet_mass_follows_table
    (exoplanet : ExoplanetEntity.t) (star : StarEntity.t) (mass : R) :
  PhysicalParameters.mass_earth (ExoplanetEntity.physical exoplanet) = Some mass ->
  exists result,
    PlanetMassFactor.evaluate exoplanet star = Py.Returned result
    /\ FactorResult.score result = mass_table mass
    /\ FactorResult.is_applicable result = true.
Proof.
  intros H. unfold PlanetMassFactor.evaluate, mass_table. rewrite H.
  repeat py_split; table_leaf.
Qed.

Lemma planet_density_follows_table
    (exoplanet : ExoplanetEntity.t) (star : StarEntity.t) (density : R) :
  PhysicalParameters.density_g_cm3 (ExoplanetEntity.physical exoplanet) = Some density ->
  exists result,
    PlanetDensityFactor.evaluate exoplanet star = Py.Returned result
    /\ FactorResult.score result = density_table density
    /\ FactorResult.is_applicable result = true.
Proof.
  intros H. unfold PlanetDensityFactor.evaluate, density_table,
    PhysicalParameters.estimate_density.
  rewrite H. cbn [Py.bind].
  repeat py_split; table_leaf.
Qed.

Lemma equilibrium_temperature_follows_table
    (exoplanet : ExoplanetEntity.t) (star : StarEntity.t) (temp : R) :
  PhysicalParameters.equilibrium_temp_k (ExoplanetEntity.physical exoplanet) = Some temp ->
  exists result,
    EquilibriumTemperatureFactor.evaluate exoplanet star = Py.Returned result
    /\ FactorResult.score result = temperature_table temp
    /\ FactorResult.is_applicable result = true.
Proof.
  intros H. unfold EquilibriumTemperatureFactor.evaluate, temperature_table. rewrite H.
  repeat py_split; table_leaf.
Qed.


(** X18: the eccentricity score never rises with the eccentricity: of two
    planets, the one on the more eccentric orbit scores at most as much as
    the other, whatever their stars; every score lies between 0.02 and 1. *)
Theorem eccentricity_score_never_rises
    (exoplanet1 exoplanet2 : ExoplanetEntity.t) (star1 star2 : StarEntity.t) (e1 e2 : R) :
  OrbitalParameters.eccentricity (ExoplanetEntity.orbital exoplanet1) = Some e1 ->
  OrbitalParameters.eccentricity (ExoplanetEntity.orbital exoplanet2) = Some e2 ->
  e1 <= e2 ->
  exists result1 result2,
    OrbitalEccentricityFactor.evaluate exoplanet1 star1 = Py.Returned result1
    /\ OrbitalEccentricityFactor.evaluate exoplanet2 star2 = Py.Returned result2
    /\ FactorResult.score result2 <= FactorResult.score result1
    /\ 0.02 <= FactorResult.score result2
    /\ FactorResult.score result1 <= 1.
Proof.
  intros H1 H2 Hle.
  destruct (eccentricity_follows_table exoplanet1 star1 e1 H1) as [r1 [E1 [S1 _]]].
  destruct (eccentricity_follows_table exoplanet2 star2 e2 H2) as [r2 [E2 [S2 _]]].
  exists r1, r2. split; [exact E1 |]. split; [exact E2 |].
  rewrite S1, S2. unfold eccentricity_table.
  repeat py_split; lra.
Qed.

Lemma eccentricity_score_never_rises_witness :
  exists result1 result2,
    OrbitalEccentricityFactor.evaluate earth sun = Py.Returned result1
    /\ OrbitalEccentricityFactor.evaluate (exoplanet_with_eccentricity 0.206) sun
       = Py.Returned result2
    /\ FactorResult.score result2 <= FactorResult.score result1
    /\ 0.02 <= FactorResult.score result2
    /\ FactorResult.score result1 <= 1.
Proof.
  apply (eccentricity_score_never_rises earth (exoplanet_with_eccentricity 0.206)
           sun sun 0.0167 0.206).
  - reflexivity.
  - reflexivity.
  - lra.
Defined.





(** X20: the planetary scores have a single peak.  For the radius, the
    mass, the measured density and the equilibrium temperature, of two
    planets the one with the larger value scores at least as much as the
    other as long as both values lie below the end of the optimal band
    (1.25 Earth radii, 2 Earth masses, 6.5 g/cm3, 300 K), and at most as
    much as soon as both lie at or above its start (0.8 Earth radii, 0.5
    Earth masses, 5 g/cm3, 260 K). *)
Theorem planetary_scores_have_a_single_peak
    (exoplanet1 exoplanet2 : ExoplanetEntity.t) (star1 star2 : StarEntity.t) :
  let physical1 := ExoplanetEntity.physical exoplanet1 in
  let physical2 := ExoplanetEntity.physical exoplanet2 in
  (forall x1 x2,
     PhysicalParameters.radius_earth physical1 = Some x1 ->
     PhysicalParameters.radius_earth physical2 = Some x2 ->
     x1 <= x2 ->
     exists result1 result2,
       PlanetRadiusFactor.evaluate exoplanet1 star1 = Py.Returned result1
       /\ PlanetRadiusFactor.evaluate exoplanet2 star2 = Py.Returned result2
       /\ (x2 < 1.25 -> FactorResult.score result1 <= FactorResult.score result2)
       /\ (0.8 <= x1 -> FactorResult.score result2 <= FactorResult.score result1))
  /\ (forall x1 x2,
        PhysicalParameters.mass_earth physical1 = Some x1 ->
        PhysicalParameters.mass_earth physical2 = Some x2 ->
        x1 <= x2 ->
        exists result1 result2,
          PlanetMassFactor.evaluate exoplanet1 star1 = Py.Returned result1
          /\ PlanetMassFactor.evaluate exoplanet2 star2 = Py.Returned result2
          /\ (x2 < 2.0 -> FactorResult.score result1 <= FactorResult.score result2)
          /\ (0.5 <= x1 -> FactorResult.score result2 <= FactorResult.score result1))
  /\ (forall x1 x2,
        PhysicalParameters.density_g_cm3 physical1 = Some x1 ->
        PhysicalParameters.density_g_cm3 physical2 = Some x2 ->
        x1 <= x2 ->
        exists result1 result2,
          PlanetDensityFactor.evaluate exoplanet1 star1 = Py.Returned result1
          /\ PlanetDensityFactor.evaluate exoplanet2 star2 = Py.Returned result2
          /\ (x2 < 6.5 -> FactorResult.score result1 <= FactorResult.score result2)
          /\ (5.0 <= x1 -> FactorResult.score result2 <= FactorResult.score result1))
  /\ (forall x1 x2,
        PhysicalParameters.equilibrium_temp_k physical1 = Some x1 ->
        PhysicalParameters.equilibrium_temp_k physical2 = Some x2 ->
        x1 <= x2 ->
        exists result1 result2,
          EquilibriumTemperatureFactor.evaluate exoplanet1 star1 = Py.Returned result1
          /\ EquilibriumTemperatureFactor.evaluate exoplanet2 star2 = Py.Returned result2
          /\ (x2 < 300 -> FactorResult.score result1 <= FactorResult.score result2)
          /\ (260 <= x1 -> FactorResult.score result2 <= FactorResult.score result1)).
Proof.
  cbv zeta. split; [| split; [| split]]; intros x1 x2 H1 H2 Hle.
  - destruct (planet_radius_follows_table exoplanet1 star1 x1 H1) as [r1 [F1 [S1 _]]].
    destruct (planet_radius_follows_table exoplanet2 star2 x2 H2) as [r2 [F2 [S2 _]]].
    exists r1, r2. split; [exact F1 |]. split; [exact F2 |].
    rewrite S1, S2. unfold radius_table. split; intros Hlimit; repeat py_split; lra.
  - destruct (planet_mass_follows_table exoplanet1 star1 x1 H1) as [r1 [F1 [S1 _]]].
    destruct (planet_mass_follows_table exoplanet2 star2 x2 H2) as [r2 [F2 [S2 _]]].
    exists r1, r2. split; [exact F1 |]. split; [exact F2 |].
    rewrite S1, S2. unfold mass_table. split; intros Hlimit; repeat py_split; lra.
  - destruct (planet_density_follows_table exoplanet1 star1 x1 H1) as [r1 [F1 [S1 _]]].
    destruct (planet_density_follows_table exoplanet2 star2 x2 H2) as [r2 [F2 [S2 _]]].
    exists r1, r2. split; [exact F1 |]. split; [exact F2 |].
    rewrite S1, S2. unfold density_table. split; intros Hlimit; repeat py_split; lra.
  - destruct (equilibrium_temperature_follows_table exoplanet1 star1 x1 H1)
      as [r1 [F1 [S1 _]]].
    destruct (equilibrium_temperature_follows_table exoplanet2 star2 x2 H2)
      as [r2 [F2 [S2 _]]].
    exists r1, r2. split; [exact F1 |]. split; [exact F2 |].
    rewrite S1, S2. unfold temperature_table. split; intros Hlimit; repeat py_split; lra.
Qed.

(** X21: the radius score agrees with the classification of the planet.  The
    radius factor returns for every planet; a planet that is not
    [is_potentially_rocky] (a radius of 1.75 Earth radii or more, or an
    unknown radius) scores at most 0.5, and a score of 0.6 or more is only
    given to a potentially rocky planet, namely to every one with a radius
    of at least 0.5 Earth radii. *)
Theorem radius_score_agrees_with_rocky_classification
    (exoplanet : ExoplanetEntity.t) (star : StarEntity.t) :
  exists result,
    PlanetRadiusFactor.evaluate exoplanet star = Py.Returned result
    /\ (ExoplanetEntity.is_potentially_rocky exoplanet = false ->
        FactorResult.score result <= 0.5)
    /\ (0.6 <= FactorResult.score result ->
        ExoplanetEntity.is_potentially_rocky exoplanet = true)
    /\ (forall radius,
          PhysicalParameters.radius_earth (ExoplanetEntity.physical exoplanet)
          = Some radius ->
          0.5 <= radius ->
          ExoplanetEntity.is_potentially_rocky exoplanet = true ->
          0.6 <= FactorResult.score result).
Proof.
  unfold ExoplanetEntity.is_potentially_rocky, ExoplanetEntity.planet_type,
    PhysicalParameters.classify_planet_type.
  destruct (PhysicalParameters.radius_earth (ExoplanetEntity.physical exoplanet))
    as [radius |] eqn:Hr.
  - destruct (planet_radius_follows_table exoplanet star radius Hr) as [r [E [S _]]].
    exists r. split; [exact E |]. rewrite S. unfold radius_table.
    split; [| split].
    + repeat py_split; intros H; try discriminate; lra.
    + repeat py_split; intros H; try reflexivity; lra.
    + intros radius' H Hge. inversion H; subst radius'.
      repeat py_split; intros Hrocky; try discriminate; lra.
  - unfold PlanetRadiusFactor.evaluate. rewrite Hr. eexists. split; [reflexivity |].
    destruct (missing_data_result_spec PlanetRadiusFactor.factor_id "planet_radius_earth")
      as [_ [Hs _]].
    unfold PlanetRadiusFactor._create_missing_data_result.
    split; [| split].
    + intros _. rewrite Hs. lra.
    + rewrite Hs. intros H. lra.
    + intros radius H. discriminate.
Qed.

(** ** The report of the engine *)

Lemma dict_get_map_values (A B : Type) (f : A -> B) (d : list (string * A)) (k : string) :
  Py.dict_get (map (fun kv => (fst kv, f (snd kv))) d) k = option_map f (Py.dict_get d k).
Proof.
  induction d as [| [k0 x] d IH]; simpl; [reflexivity |].
  destruct (String.eqb k0 k); [reflexivity | exact IH].
Qed.

Lemma dict_get_filter_values (A : Type) (p : A -> bool) (d : list (string * A))
    (k : string) :
  Py.dict_get (filter (fun kv => p (snd kv)) d) k
  = match Py.dict_get d k with
    | Some v => if p v then Some v else Py.dict_get (filter (fun kv => p (snd kv)) d) k
    | None => None
    end.
Proof.
  induction d as [| [k0 x] d IH]; simpl; [reflexivity |].
  destruct (String.eqb k0 k) eqn:E.
  - destruct (p x) eqn:Ep; simpl; [now rewrite E | reflexivity].
  - destruct (p x) eqn:Ep; simpl; [rewrite E |]; exact IH.
Qed.

(** The normalized weight of a configured, enabled factor, and of an
    unconfigured one. *)
Lemma normalized_weight_lookup (c : ScoringConfig.t) (factor_id : string) :
  ScoringConfig.get_total_weight c <> 0 ->
  Py.dict_get (ScoringConfig.normalize_weights c) factor_id
  = match Py.dict_get (ScoringConfig.factor_weights c) factor_id with
    | Some entry =>
        if FactorWeightConfig.enabled entry
        then Some (FactorWeightConfig.weight entry / ScoringConfig.get_total_weight c)
        else Py.dict_get (ScoringConfig.normalize_weights c) factor_id
    | None => None
    end.
Proof.
  intros Htot. unfold ScoringConfig.normalize_weights. rewrite eqb_false by exact Htot.
  rewrite (dict_get_map_values _ _
             (fun v => FactorWeightConfig.weight v / ScoringConfig.get_total_weight c)).
  rewrite (dict_get_filter_values _ FactorWeightConfig.enabled).
  destruct (Py.dict_get (ScoringConfig.factor_weights c) factor_id) as [entry |];
    [| reflexivity].
  destruct (FactorWeightConfig.enabled entry); reflexivity.
Qed.

Lemma normalized_weight_unconfigured (c : ScoringConfig.t) (factor_id : string) :
  Py.dict_get (ScoringConfig.factor_weights c) factor_id = None ->
  Py.dict_get (ScoringConfig.normalize_weights c) factor_id = None.
Proof.
  intros H. unfold ScoringConfig.normalize_weights.
  destruct (ScoringConfig.get_total_weight c =? 0); [reflexivity |].
  rewrite (dict_get_map_values _ _
             (fun v => FactorWeightConfig.weight v / ScoringConfig.get_total_weight c)).
  rewrite (dict_get_filter_values _ FactorWeightConfig.enabled). now rewrite H.
Qed.

Lemma enabled_entry_scored (self : ScoringEngine.t) (now : Z)
    (exoplanet : ExoplanetEntity.t) (star : StarEntity.t)
    (entry : string * ScoringFactor.t) :
  In entry (ScoringEngine._factors self) ->
  ScoringConfig.is_factor_enabled (ScoringEngine.config self) (fst entry) = true ->
  In (score_of_entry (ScoringConfig.normalize_weights (ScoringEngine.config self))
                     exoplanet star entry)
     (HabitabilityAssessment.factor_scores (ScoringEngine.evaluate self now exoplanet star)).
Proof.
  intros Hin Hen. rewrite evaluate_factor_scores. unfold expected_scores.
  apply in_map. unfold enabled_entries. apply filter_In. split; [exact Hin | exact Hen].
Qed.

(** X22: what [get_methodology] reports as the weight of a factor is not what
    [evaluate] applies.  For a registered and enabled factor, the
    methodology lists the weight as configured and [evaluate] applies that
    weight divided by the total weight of the enabled entries; for a factor
    the configuration does not know, the methodology lists the weight 0.0
    and enabled [True], while [evaluate] applies the fallback weight 0.1. *)
Theorem methodology_weight_and_applied_weight
    (self : ScoringEngine.t) (now : Z) (exoplanet : ExoplanetEntity.t) (star : StarEntity.t)
    (factor_id : string) (factor : ScoringFactor.t) :
  In (factor_id, factor) (ScoringEngine._factors self) ->
  ScoringConfig.is_factor_enabled (ScoringEngine.config self) factor_id = true ->
  exists info fs,
    In info (ScoringEngine.methodology_factors (ScoringEngine.get_methodology self))
    /\ ScoringEngine.info_id info = factor_id
    /\ ScoringEngine.info_enabled info = true
    /\ In fs (HabitabilityAssessment.factor_scores
                (ScoringEngine.evaluate self now exoplanet star))
    /\ FactorScore.factor_id fs = factor_id
    /\ match Py.dict_get (ScoringConfig.factor_weights (ScoringEngine.config self))
                         factor_id with
       | Some entry =>
           ScoringEngine.info_weight info = FactorWeightConfig.weight entry
           /\ (ScoringConfig.get_total_weight (ScoringEngine.config self) <> 0 ->
               FactorScore.weight fs
               = FactorWeightConfig.weight entry
                 / ScoringConfig.get_total_weight (ScoringEngine.config self))
       | None =>
           ScoringEngine.info_weight info = 0.0 /\ FactorScore.weight fs = 0.1
       end.
Proof.
  intros Hin Hen.
  eexists. eexists. split; [| split; [| split; [| split; [| split]]]].
  - unfold ScoringEngine.get_methodology. cbn [ScoringEngine.methodology_factors].
    apply in_map_iff. exists (factor_id, factor). split; [reflexivity | exact Hin].
  - reflexivity.
  - exact Hen.
  - apply (enabled_entry_scored self now exoplanet star (factor_id, factor) Hin Hen).
  - apply factor_id_score_of_entry.
  - cbn [ScoringEngine.info_weight]. rewrite weight_score_of_entry. cbn [fst].
    unfold ScoringConfig.get_weight, ScoringEngine.weight_or_default.
    unfold ScoringConfig.is_factor_enabled in Hen.
    destruct (Py.dict_get (ScoringConfig.factor_weights (ScoringEngine.config self))
                          factor_id) as [entry |] eqn:E.
    + rewrite Hen. split; [reflexivity |]. intros Htot.
      rewrite (normalized_weight_lookup _ factor_id Htot), E, Hen. reflexivity.
    + split; [reflexivity |]. now rewrite (normalized_weight_unconfigured _ _ E).
Qed.

Lemma methodology_weight_and_applied_weight_witness :
  exists info fs,
    In info (ScoringEngine.methodology_factors (ScoringEngine.get_methodology default_engine))
    /\ ScoringEngine.info_id info = "magnetic_field"
    /\ ScoringEngine.info_enabled info = true
    /\ In fs (HabitabilityAssessment.factor_scores
                (ScoringEngine.evaluate default_engine 0 earth sun))
    /\ FactorScore.factor_id fs = "magnetic_field"
    /\ ScoringEngine.info_weight info = 0.0 /\ FactorScore.weight fs = 0.1.
Proof.
  apply (methodology_weight_and_applied_weight default_engine 0 earth sun
           "magnetic_field" MagneticFieldPotentialFactor.factor).
  - cbn. do 12 right. left. reflexivity.
  - reflexivity.
Defined.

(** The report depends on the engine through its configuration and its
    enabled entries only. *)
Lemma evaluate_depends_on_enabled_entries (a b : ScoringEngine.t) (now : Z)
    (exoplanet : ExoplanetEntity.t) (star : StarEntity.t) :
  ScoringEngine.config a = ScoringEngine.config b ->
  enabled_entries a = enabled_entries b ->
  ScoringEngine.evaluate a now exoplanet star = ScoringEngine.evaluate b now exoplanet star.
Proof.
  intros Hc He. unfold ScoringEngine.evaluate. rewrite !loop_spec.
  unfold enabled_entries in He. rewrite He, Hc.
  unfold ScoringEngine._calculate_total_score. now rewrite Hc.
Qed.

Lemma filter_enabled_del (self : ScoringEngine.t) (factor_id : string)
    (l : list (string * ScoringFactor.t)) :
  ScoringConfig.is_factor_enabled (ScoringEngine.config self) factor_id = false ->
  filter (entry_enabled self) (Py.dict_del l factor_id) = filter (entry_enabled self) l.
Proof.
  intros Hdis. unfold Py.dict_del. induction l as [| [k f] l IH]; simpl; [reflexivity |].
  destruct (String.eqb_spec k factor_id) as [-> | Hne]; simpl.
  - unfold entry_enabled at 2. cbn [fst]. rewrite Hdis. exact IH.
  - now rewrite IH.
Qed.

(** X23: a disabled factor has no part in the assessment: unregistering a
    factor that the configuration disables leaves the assessment of every
    planet and star exactly as it was. *)
Theorem evaluate_skips_disabled_factors
    (self : ScoringEngine.t) (now : Z) (exoplanet : ExoplanetEntity.t) (star : StarEntity.t)
    (factor_id : string) :
  ScoringConfig.is_factor_enabled (ScoringEngine.config self) factor_id = false ->
  ScoringEngine.evaluate (fst (ScoringEngine.unregister_factor self factor_id))
                         now exoplanet star
  = ScoringEngine.evaluate self now exoplanet star.
Proof.
  intros Hdis. unfold ScoringEngine.unregister_factor.
  destruct (Py.dict_get (ScoringEngine._factors self) factor_id); cbn [fst];
    [| reflexivity].
  apply evaluate_depends_on_enabled_entries; [reflexivity |].
  unfold enabled_entries. cbn [ScoringEngine._factors].
  change (entry_enabled (ScoringEngine.mk (ScoringEngine.config self)
                           (Py.dict_del (ScoringEngine._factors self) factor_id)))
    with (entry_enabled self).
  now apply filter_enabled_del.
Qed.

Lemma evaluate_skips_disabled_factors_witness :
  ScoringEngine.evaluate (fst (ScoringEngine.unregister_factor muted_engine "planet_density"))
                         0 earth sun
  = ScoringEngine.evaluate muted_engine 0 earth sun.
Proof.
  apply (evaluate_skips_disabled_factors muted_engine 0 earth sun "planet_density").
  reflexivity.
Defined.

(** X24: with no enabled factor registered (no factor at all, or only
    disabled ones) the assessment is empty: no factor scores, no missing
    parameters, a total score of 0.0 and a data completeness of 0.0, under
    every aggregation method. *)
Theorem evaluate_without_enabled_factors
    (self : ScoringEngine.t) (now : Z) (exoplanet : ExoplanetEntity.t) (star : StarEntity.t) :
  (forall entry, In entry (ScoringEngine._factors self) ->
     ScoringConfig.is_factor_enabled (ScoringEngine.config self) (fst entry) = false) ->
  let assessment := ScoringEngine.evaluate self now exoplanet star in
  HabitabilityAssessment.factor_scores assessment = []
  /\ HabitabilityAssessment.missing_parameters assessment = []
  /\ HabitabilityAssessment.total_score assessment = 0.0
  /\ HabitabilityAssessment.data_completeness assessment = 0.0
  /\ HabitabilityAssessment.overall_confidence assessment = ConfidenceLevel.VERY_LOW.
Proof.
  intros Hdis. cbv zeta.
  assert (Hnone : enabled_entries self = []).
  { unfold enabled_entries.
    induction (ScoringEngine._factors self) as [| entry l IH]; [reflexivity |].
    cbn [filter]. unfold entry_enabled at 1. rewrite (Hdis entry) by now left.
    apply IH. intros e He. apply Hdis. now right. }
  assert (Hdc : HabitabilityAssessment.data_completeness
                  (ScoringEngine.evaluate self now exoplanet star) = 0.0).
  { rewrite evaluate_data_completeness, Hnone. reflexivity. }
  split; [| split; [| split; [| split]]].
  - rewrite evaluate_factor_scores. unfold expected_scores. now rewrite Hnone.
  - rewrite evaluate_missing_parameters. now rewrite Hnone.
  - rewrite evaluate_total_score. unfold expected_scores. now rewrite Hnone.
  - exact Hdc.
  - unfold HabitabilityAssessment.overall_confidence. rewrite Hdc.
    unfold Py.geb. now rewrite !leb_false by lra.
Qed.

Lemma evaluate_without_enabled_factors_witness :
  let assessment := ScoringEngine.evaluate silent_engine 0 earth sun in
  HabitabilityAssessment.factor_scores assessment = []
  /\ HabitabilityAssessment.missing_parameters assessment = []
  /\ HabitabilityAssessment.total_score assessment = 0.0
  /\ HabitabilityAssessment.data_completeness assessment = 0.0
  /\ HabitabilityAssessment.overall_confidence assessment = ConfidenceLevel.VERY_LOW.
Proof.
  apply (evaluate_without_enabled_factors silent_engine 0 earth sun).
  intros entry [<- | []]. reflexivity.
Defined.

Lemma filter_length_le (A : Type) (p : A -> bool) (l : list A) :
  (List.length (filter p l) <= List.length l)%nat.
Proof. induction l as [| x l IH]; simpl; [lia |]. destruct (p x); simpl; lia. Qed.

Lemma filter_length_all (A : Type) (p : A -> bool) (l : list A) :
  List.length (filter p l) = List.length l -> forall x, In x l -> p x = true.
Proof.
  induction l as [| y l IH]; simpl; [contradiction |].
  pose proof (filter_length_le A p l) as Hle.
  destruct (p y) eqn:E; simpl; intros Hlen x [<- | Hin]; try lia; auto.
Qed.

Lemma entry_missing_length (exoplanet : ExoplanetEntity.t) (star : StarEntity.t)
    (entry : string * ScoringFactor.t) :
  (List.length (entry_missing exoplanet star entry) <= 1)%nat
  /\ (entry_applicable exoplanet star entry = true ->
      entry_missing exoplanet star entry = []).
Proof.
  unfold entry_missing, entry_applicable.
  destruct (ScoringFactor.evaluate (snd entry) exoplanet star) as [r | e].
  - destruct (FactorResult.is_applicable r); [simpl; split; [lia | reflexivity] |].
    split; [| discriminate].
    destruct (FactorResult.missing_data r) as [[| c s] |]; simpl; lia.
  - simpl. split; [lia | reflexivity].
Qed.

Lemma flat_map_length_le (A B : Type) (f : A -> list B) (l : list A) :
  (forall x, (List.length (f x) <= 1)%nat) ->
  (List.length (flat_map f l) <= List.length l)%nat.
Proof.
  intros H. induction l as [| x l IH]; simpl; [lia |].
  rewrite length_app. specialize (H x). lia.
Qed.

Lemma flat_map_nil (A B : Type) (f : A -> list B) (l : list A) :
  (forall x, In x l -> f x = []) -> flat_map f l = [].
Proof.
  induction l as [| x l IH]; simpl; [reflexivity |]. intros H.
  rewrite (H x) by now left. apply IH. intros y Hy. apply H. now right.
Qed.

Lemma data_completeness_bounds
    (self : ScoringEngine.t) (now : Z) (exoplanet : ExoplanetEntity.t) (star : StarEntity.t) :
  0 <= HabitabilityAssessment.data_completeness
         (ScoringEngine.evaluate self now exoplanet star) <= 1.
Proof.
  rewrite evaluate_data_completeness.
  set (entries := enabled_entries self).
  set (k := List.length (filter (entry_applicable exoplanet star) entries)).
  set (n := List.length entries).
  assert (Hkn : (k <= n)%nat) by apply filter_length_le.
  destruct (Nat.ltb_spec 0 n) as [Hn | Hn]; [| lra].
  assert (Hn' : 0 < INR n) by now apply lt_0_INR.
  assert (Hk : 0 <= INR k) by apply pos_INR.
  assert (Hle : INR k <= INR n) by now apply le_INR.
  assert (Hi : 0 < / INR n) by now apply Rinv_0_lt_compat.
  split.
  - unfold Rdiv. nra.
  - apply Rmult_le_reg_r with (INR n); [exact Hn' |].
    unfold Rdiv. rewrite Rmult_assoc, Rinv_l by lra. lra.
Qed.

(** X25: the data completeness of an assessment is a fraction: it lies
    between 0 and 1 for every engine, planet and star; there are never more
    missing parameters than factor scores; a completeness of 1 means that no
    parameter is reported missing; and an assessment without factor scores
    has completeness 0. *)
Theorem data_completeness_is_a_fraction
    (self : ScoringEngine.t) (now : Z) (exoplanet : ExoplanetEntity.t) (star : StarEntity.t) :
  let assessment := ScoringEngine.evaluate self now exoplanet star in
  0 <= HabitabilityAssessment.data_completeness assessment <= 1
  /\ (List.length (HabitabilityAssessment.missing_parameters assessment)
      <= List.length (HabitabilityAssessment.factor_scores assessment))%nat
  /\ (HabitabilityAssessment.data_completeness assessment = 1 ->
      HabitabilityAssessment.missing_parameters assessment = [])
  /\ (HabitabilityAssessment.factor_scores assessment = [] ->
      HabitabilityAssessment.data_completeness assessment = 0).
Proof.
  cbv zeta. split; [apply data_completeness_bounds |].
  rewrite evaluate_data_completeness, evaluate_missing_parameters, evaluate_factor_scores.
  unfold expected_scores. rewrite length_map.
  set (entries := enabled_entries self).
  set (k := List.length (filter (entry_applicable exoplanet star) entries)).
  set (n := List.length entries).
  split; [| split].
  - apply flat_map_length_le. intros x. apply entry_missing_length.
  - destruct (Nat.ltb_spec 0 n) as [Hn | Hn]; [| lra].
    intros Hone.
    assert (Hn' : 0 < INR n) by now apply lt_0_INR.
    assert (Heq : INR k = INR n).
    { apply Rmult_eq_reg_r with (/ INR n); [| apply Rinv_neq_0_compat; lra].
      rewrite Rinv_r by lra. exact Hone. }
    apply INR_eq in Heq.
    apply flat_map_nil. intros x Hx. apply entry_missing_length.
    now apply (filter_length_all _ _ entries Heq).
  - intros Hnil. apply map_eq_nil in Hnil. unfold n. rewrite Hnil.
    cbn [List.length Nat.ltb Nat.leb]. lra.
Qed.




(** The raw scores of a report are in [0, 1] when every registered factor is
    one of the built-in ones. *)
Lemma builtin_raw_scores_bounded (self : ScoringEngine.t)
    (exoplanet : ExoplanetEntity.t) (star : StarEntity.t) :
  (forall entry, In entry (ScoringEngine._factors self) -> In (snd entry) get_all_factors) ->
  Forall (fun fs => 0 <= FactorScore.raw_score fs <= 1)
         (expected_scores self exoplanet star).
Proof.
  intros Hbuiltin. apply raw_scores_bounded. intros entry result Hin Hres.
  unfold enabled_entries in Hin. apply filter_In in Hin. destruct Hin as [Hin _].
  pose proof (builtin_results_clamped (snd entry) exoplanet star (Hbuiltin entry Hin)) as Hc.
  rewrite Hres in Hc. exact Hc.
Qed.


(** What [min] returns over the raw scores of a non-empty list. *)
Lemma min_raw_score_spec (l : list FactorScore.t) :
  l <> [] ->
  (forall fs, In fs l -> ScoringEngine.min_raw_score l <= FactorScore.raw_score fs)
  /\ exists fs, In fs l /\ ScoringEngine.min_raw_score l = FactorScore.raw_score fs.
Proof.
  destruct l as [| f rest]; [congruence |]. intros _.
  unfold ScoringEngine.min_raw_score.
  assert (Hgen : forall rest best (seen : list FactorScore.t),
            (forall fs, In fs seen -> best <= FactorScore.raw_score fs) ->
            (exists fs, In fs seen /\ best = FactorScore.raw_score fs) ->
            let m := fold_left (fun best g => Py.min best (FactorScore.raw_score g))
                               rest best in
            (forall fs, In fs (seen ++ rest) -> m <= FactorScore.raw_score fs)
            /\ exists fs, In fs (seen ++ rest) /\ m = FactorScore.raw_score fs).
  { clear. induction rest as [| g rest IH]; intros best seen Hle Hex; cbv zeta.
    - cbn [fold_left]. rewrite app_nil_r. split; assumption.
    - cbn [fold_left].
      replace (seen ++ g :: rest)%list with ((seen ++ [g]) ++ rest)%list
        by (now rewrite <- app_assoc).
      apply IH.
      + intros fs Hin. apply in_app_iff in Hin. rewrite min_spec. unfold Rmin.
        destruct (Rle_dec best (FactorScore.raw_score g)) as [H | H];
          destruct Hin as [Hin | [<- | []]]; try lra.
        * now apply Hle.
        * specialize (Hle fs Hin). lra.
      + rewrite min_spec. unfold Rmin.
        destruct (Rle_dec best (FactorScore.raw_score g)) as [H | H].
        * destruct Hex as [fs [Hin Heq]]. exists fs. split; [| exact Heq].
          apply in_app_iff. now left.
        * exists g. split; [| reflexivity]. apply in_app_iff. right. now left. }
  apply (Hgen rest (FactorScore.raw_score f) [f]).
  - intros fs [<- | []]. lra.
  - exists f. split; [now left | reflexivity].
Qed.

(** X27: under the method ["minimum"] the total score is the smallest raw
    score of the report: it is at most the raw score of every factor, it is
    the raw score of one of them when there is any, and a single enabled
    factor that raises therefore caps the total at 0.5. *)
Theorem minimum_method_reports_the_least_score
    (self : ScoringEngine.t) (now : Z) (exoplanet : ExoplanetEntity.t) (star : StarEntity.t) :
  ScoringConfig.normalization_method (ScoringEngine.config self) = "minimum" ->
  let assessment := ScoringEngine.evaluate self now exoplanet star in
  (forall fs, In fs (HabitabilityAssessment.factor_scores assessment) ->
     HabitabilityAssessment.total_score assessment <= FactorScore.raw_score fs)
  /\ (HabitabilityAssessment.factor_scores assessment <> [] ->
      exists fs,
        In fs (HabitabilityAssessment.factor_scores assessment)
        /\ HabitabilityAssessment.total_score assessment = FactorScore.raw_score fs)
  /\ (forall entry e,
        In entry (enabled_entries self) ->
        ScoringFactor.evaluate (snd entry) exoplanet star = Py.Raised e ->
        HabitabilityAssessment.total_score assessment <= 0.5).
Proof.
  intros Hmethod. cbv zeta. rewrite evaluate_total_score, evaluate_factor_scores.
  assert (Htotal : expected_scores self exoplanet star <> [] ->
            ScoringEngine._calculate_total_score self (expected_scores self exoplanet star)
            = ScoringEngine.min_raw_score (expected_scores self exoplanet star)).
  { unfold ScoringEngine._calculate_total_score. rewrite Hmethod.
    destruct (expected_scores self exoplanet star); [congruence | reflexivity]. }
  assert (Hleast : forall fs, In fs (expected_scores self exoplanet star) ->
            ScoringEngine._calculate_total_score self (expected_scores self exoplanet star)
            <= FactorScore.raw_score fs).
  { intros fs Hin.
    assert (Hne : expected_scores self exoplanet star <> [])
      by (intros E; rewrite E in Hin; contradiction).
    rewrite (Htotal Hne). now apply (min_raw_score_spec _ Hne). }
  split; [exact Hleast | split].
  - intros Hne. rewrite (Htotal Hne). apply (min_raw_score_spec _ Hne).
  - intros entry e Hin Hraise.
    assert (Hfs : In (score_of_entry
                        (ScoringConfig.normalize_weights (ScoringEngine.config self))
                        exoplanet star entry)
                     (expected_scores self exoplanet star))
      by (unfold expected_scores; now apply in_map).
    pose proof (Hleast _ Hfs) as Hle. unfold score_of_entry in Hle.
    rewrite Hraise in Hle. cbn [score_of_error FactorScore.raw_score] in Hle. exact Hle.
Qed.

Lemma minimum_method_reports_the_least_score_witness :
  let assessment := ScoringEngine.evaluate minimum_engine 0 earth sun in
  (forall fs, In fs (HabitabilityAssessment.factor_scores assessment) ->
     HabitabilityAssessment.total_score assessment <= FactorScore.raw_score fs)
  /\ (HabitabilityAssessment.factor_scores assessment <> [] ->
      exists fs,
        In fs (HabitabilityAssessment.factor_scores assessment)
        /\ HabitabilityAssessment.total_score assessment = FactorScore.raw_score fs)
  /\ (forall entry e,
        In entry (enabled_entries minimum_engine) ->
        ScoringFactor.evaluate (snd entry) earth sun = Py.Raised e ->
        HabitabilityAssessment.total_score assessment <= 0.5).
Proof.
  apply (minimum_method_reports_the_least_score minimum_engine 0 earth sun). reflexivity.
Defined.

(** ** Favorable and unfavorable factors *)

(** X28: [favorable_factors] and [unfavorable_factors] split the factor
    scores of an assessment in two: every factor score is in exactly one of
    the two lists, the favorable ones have a raw score of at least 0.5 and
    the others a raw score below 0.5.  A factor that raised during
    [evaluate], whose degraded score is 0.5, is therefore listed as
    favorable. *)
Theorem favorable_and_unfavorable_factors_partition :
  (forall assessment : HabitabilityAssessment.t,
     let favorable := HabitabilityAssessment.favorable_factors assessment in
     let unfavorable := HabitabilityAssessment.unfavorable_factors assessment in
     (forall fs, In fs (HabitabilityAssessment.factor_scores assessment)
                 <-> In fs favorable \/ In fs unfavorable)
     /\ (forall fs, ~ (In fs favorable /\ In fs unfavorable))
     /\ (List.length favorable + List.length unfavorable
         = List.length (HabitabilityAssessment.factor_scores assessment))%nat
     /\ Forall (fun fs => 0.5 <= FactorScore.raw_score fs) favorable
     /\ Forall (fun fs => FactorScore.raw_score fs < 0.5) unfavorable)
  /\ (forall self now exoplanet star entry e,
        In entry (enabled_entries self) ->
        ScoringFactor.evaluate (snd entry) exoplanet star = Py.Raised e ->
        exists fs,
          In fs (HabitabilityAssessment.favorable_factors
                   (ScoringEngine.evaluate self now exoplanet star))
          /\ FactorScore.factor_id fs = fst entry).
Proof.
  split.
  - intros assessment. cbv zeta.
    unfold HabitabilityAssessment.favorable_factors,
      HabitabilityAssessment.unfavorable_factors.
    generalize (HabitabilityAssessment.factor_scores assessment). intros l.
    split; [| split; [| split; [| split]]].
    + intros fs. rewrite !filter_In.
      destruct (FactorScore.is_favorable fs); simpl; tauto.
    + intros fs. rewrite !filter_In.
      destruct (FactorScore.is_favorable fs); simpl; intros [[_ H1] [_ H2]]; discriminate.
    + induction l as [| fs l IH]; simpl; [reflexivity |].
      destruct (FactorScore.is_favorable fs); simpl; lia.
    + apply Forall_forall. intros fs Hin. apply filter_In in Hin. destruct Hin as [_ H].
      unfold FactorScore.is_favorable, Py.geb in H.
      destruct (leb_cases 0.5 (FactorScore.raw_score fs)) as [[Hle _] | [_ E]];
        [exact Hle | congruence].
    + apply Forall_forall. intros fs Hin. apply filter_In in Hin. destruct Hin as [_ H].
      unfold FactorScore.is_favorable, Py.geb in H.
      destruct (leb_cases 0.5 (FactorScore.raw_score fs)) as [[_ E] | [Hlt _]];
        [rewrite E in H; discriminate | exact Hlt].
  - intros self now exoplanet star entry e Hin Hraise.
    exists (score_of_entry (ScoringConfig.normalize_weights (ScoringEngine.config self))
                           exoplanet star entry).
    split; [| apply factor_id_score_of_entry].
    unfold HabitabilityAssessment.favorable_factors. apply filter_In. split.
    + rewrite evaluate_factor_scores. unfold expected_scores. now apply in_map.
    + unfold score_of_entry. rewrite Hraise.
      unfold FactorScore.is_favorable, Py.geb. cbn [score_of_error FactorScore.raw_score].
      apply leb_true. lra.
Qed.

(** ** The scoring service *)

(** X29: the category the scoring service attaches to a total score is the
    category of the assessment itself: for every score, below 0 or above 1
    included, [get_score_category] returns the value of
    [ScoreCategory.from_score]. *)
Theorem get_score_category_agrees_with_from_score (score : R) :
  get_score_category score = ScoreCategory.value (ScoreCategory.from_score score).
Proof.
  unfold get_score_category, ScoreCategory.from_score, SCORE_CATEGORIES, Py.geb.
  cbn [find].
  repeat py_split; cbn [andb find ScoreCategory.value]; try reflexivity; try lra;
    repeat py_split; cbn [andb find ScoreCategory.value]; try reflexivity; lra.
Qed.

Lemma advanced_scorer_init :
  AdvancedHabitabilityScorer.init
  = Py.Returned (AdvancedHabitabilityScorer.mk default_engine).
Proof.
  unfold AdvancedHabitabilityScorer.init, ScoringEngine.init.
  rewrite load_default_config_returns. reflexivity.
Qed.

(** Every weight the default engine applies is at least 0.05, the
    contribution hard-coded for a factor that raised, and at most 1. *)
Lemma default_applied_weight_bounds (entry : string * ScoringFactor.t) :
  In entry (ScoringEngine._factors default_engine) ->
  0.05 <= ScoringEngine.weight_or_default default_normalized (fst entry) <= 1.
Proof.
  intros Hin.
  assert (Hall : Forall (fun w => 0.05 <= w <= 1)
                   (map (fun entry : string * ScoringFactor.t =>
                           ScoringEngine.weight_or_default default_normalized (fst entry))
                        (ScoringEngine._factors default_engine))).
  { rewrite default_applied_weights.
    repeat (apply Forall_cons; [lra |]). apply Forall_nil. }
  rewrite Forall_map, Forall_forall in Hall. now apply Hall.
Qed.

Lemma default_scores_bounded (exoplanet : ExoplanetEntity.t) (star : StarEntity.t) :
  Forall (fun fs => 0 <= FactorScore.raw_score fs <= 1
                    /\ 0.05 <= FactorScore.weight fs <= 1
                    /\ 0 <= FactorScore.weighted_score fs <= FactorScore.weight fs)
         (expected_scores default_engine exoplanet star).
Proof.
  assert (Hraw : Forall (fun fs => 0 <= FactorScore.raw_score fs <= 1)
                        (expected_scores default_engine exoplanet star)).
  { apply builtin_raw_scores_bounded. intros entry Hin.
    change (ScoringEngine._factors default_engine)
      with (map (fun f => (ScoringFactor.factor_id f, f)) get_all_factors) in Hin.
    apply in_map_iff in Hin. destruct Hin as [f [<- Hf]]. exact Hf. }
  rewrite expected_scores_default in *.
  rewrite Forall_map in *. rewrite Forall_forall in *. intros entry Hin.
  specialize (Hraw entry Hin).
  pose proof (default_applied_weight_bounds entry Hin) as Hw.
  rewrite weight_score_of_entry.
  split; [exact Hraw | split; [exact Hw |]].
  unfold score_of_entry in *.
  destruct (ScoringFactor.evaluate (snd entry) exoplanet star) as [result | e].
  - cbn [score_of_result FactorScore.weighted_score FactorScore.raw_score] in *. nra.
  - cbn [score_of_error FactorScore.weighted_score]. lra.
Qed.

(** X30: the scoring service always answers within the bounds its response
    schema declares.  The scorer is constructed without error, and for every
    database row the total score, the data completeness and the score, the
    weight and the weighted contribution of each of the thirteen factors lie
    between 0 and 1, also when factors raise; the response carries the id
    and the name of the row. *)
Theorem advanced_scorer_response_within_schema_bounds (now : Z) (exoplanet : Exoplanet.t) :
  exists scorer,
    AdvancedHabitabilityScorer.init = Py.Returned scorer
    /\ let response := AdvancedHabitabilityScorer.calculate_score scorer now exoplanet in
       0 <= HabitabilityScoreResponse.total_score response <= 1
       /\ 0 <= HabitabilityScoreResponse.data_completeness response <= 1
       /\ List.length (HabitabilityScoreResponse.factors response) = 13%nat
       /\ Forall (fun f => 0 <= ScoringFactorResult.score f <= 1
                           /\ 0 <= ScoringFactorResult.weight f <= 1
                           /\ 0 <= ScoringFactorResult.weighted_contribution f <= 1)
                 (HabitabilityScoreResponse.factors response)
       /\ HabitabilityScoreResponse.exoplanet_id response = Exoplanet.id exoplanet
       /\ HabitabilityScoreResponse.exoplanet_name response = Exoplanet.name exoplanet.
Proof.
  exists (AdvancedHabitabilityScorer.mk default_engine).
  split; [exact advanced_scorer_init |]. cbv zeta.
  unfold AdvancedHabitabilityScorer.calculate_score.
  cbn [HabitabilityScoreResponse.total_score HabitabilityScoreResponse.data_completeness
       HabitabilityScoreResponse.factors HabitabilityScoreResponse.exoplanet_id
       HabitabilityScoreResponse.exoplanet_name AdvancedHabitabilityScorer._engine].
  set (planet := exoplanet_model_to_entity exoplanet).
  set (star := exoplanet_model_to_star_entity exoplanet).
  pose proof (default_scores_bounded planet star) as Hb.
  split; [| split; [| split; [| split; [| split; reflexivity]]]].
  - rewrite evaluate_total_score.
    assert (Havg : 0 <= ScoringEngine.weighted_average
                          (expected_scores default_engine planet star) <= 1).
    { apply weighted_average_bounds. eapply Forall_impl; [| exact Hb].
      intros fs H. cbv beta in H. lra. }
    unfold ScoringEngine._calculate_total_score.
    change (ScoringConfig.normalization_method (ScoringEngine.config default_engine))
      with "weighted_average".
    change (String.eqb "weighted_average" "weighted_average") with true.
    destruct (expected_scores default_engine planet star); [lra | exact Havg].
  - apply data_completeness_bounds.
  - rewrite length_map, evaluate_factor_scores, expected_scores_default, length_map.
    reflexivity.
  - rewrite evaluate_factor_scores. apply Forall_map.
    eapply Forall_impl; [| exact Hb].
    intros fs H. cbv beta in H.
    cbn [ScoringFactorResult.score ScoringFactorResult.weight
         ScoringFactorResult.weighted_contribution]. lra.
Qed.
